(** * Sling load orchestrator: a shallow embedding of [WriteToDb],
      [DetermineType] and the select-list handling of [ReadFromDB].

    Sources embedded here:
    - [core/sling/config.go]: [Mode], [castPrimaryKey], [Source.PrimaryKey],
      [Config.sourceIsFile], [Config.DetermineType];
    - [core/sling/task_run_write.go]: [TaskExecution.WriteToDb];
    - [core/sling/task_run_read.go]: the first part of
      [TaskExecution.ReadFromDB] (source columns and select list).

    The target connection, the dataflow and the task are external objects:
    every call made on them is an operation [Op] whose answer [Resp] is
    chosen by an [Oracle] that sees the whole history, so that a theorem
    quantified over oracles holds for every behaviour of the store. *)

From Stdlib Require Import String Ascii List Bool Arith NArith Lia.
Import ListNotations.
Local Open Scope string_scope.

Set Implicit Arguments.

(* ===================================================================== *)
(** * Go's [strings] package, on byte strings *)
(* ===================================================================== *)

Module strings.

(** [strings.HasPrefix(s, prefix)] *)
Definition HasPrefix (s p : string) : bool := String.prefix p s.

(** [strings.TrimPrefix(s, prefix)] *)
Definition TrimPrefix (s p : string) : string :=
  if HasPrefix s p
  then substring (String.length p) (String.length s) s
  else s.

(** [strings.Contains(s, substr)] *)
Definition Contains (s sub : string) : bool :=
  match index 0 sub s with Some _ => true | None => false end.

(** [strings.Replace(s, old, new, 1)]: the first occurrence only; an empty
    [old] matches at the start of [s]. *)
Definition Replace1 (s old new : string) : string :=
  match index 0 old s with
  | None => s
  | Some i =>
      substring 0 i s ++ new
        ++ substring (i + String.length old) (String.length s) s
  end.

Fixpoint ReplaceAll_from (fuel : nat) (s old new : string) : string :=
  match fuel with
  | O => s
  | S fuel' =>
      match index 0 old s with
      | None => s
      | Some i =>
          substring 0 i s ++ new
            ++ ReplaceAll_from fuel'
                 (substring (i + String.length old) (String.length s) s)
                 old new
      end
  end.

Fixpoint intersperse (new s : string) : string :=
  match s with
  | EmptyString => new
  | String c s' => new ++ String c (intersperse new s')
  end.

(** [strings.ReplaceAll(s, old, new)]. With an empty [old], Go inserts
    [new] before every byte and at the end. *)
Definition ReplaceAll (s old new : string) : string :=
  if (old =? "")%string then intersperse new s
  else ReplaceAll_from (String.length s) s old new.

Definition upper_ascii (c : ascii) : ascii :=
  let n := nat_of_ascii c in
  if andb (97 <=? n)%nat (n <=? 122)%nat then ascii_of_nat (n - 32) else c.

Definition lower_ascii (c : ascii) : ascii :=
  let n := nat_of_ascii c in
  if andb (65 <=? n)%nat (n <=? 90)%nat then ascii_of_nat (n + 32) else c.

Fixpoint map_ascii (f : ascii -> ascii) (s : string) : string :=
  match s with
  | EmptyString => EmptyString
  | String c s' => String (f c) (map_ascii f s')
  end.

(** [strings.ToUpper], [strings.ToLower] and [strings.EqualFold] on ASCII
    text (table and column names). *)
Definition ToUpper : string -> string := map_ascii upper_ascii.
Definition ToLower : string -> string := map_ascii lower_ascii.
Definition EqualFold (a b : string) : bool := (ToLower a =? ToLower b)%string.

(** [strings.Split(s, sep)] for a one-byte separator: [n] separators give
    [n + 1] parts, and the empty string gives one empty part. *)
Fixpoint Split (s : string) (sep : ascii) : list string :=
  match s with
  | EmptyString => [EmptyString]
  | String c s' =>
      if Ascii.eqb c sep then EmptyString :: Split s' sep
      else match Split s' sep with
           | [] => [String c EmptyString]
           | p :: ps => String c p :: ps
           end
  end.

(** [strings.Join(elems, sep)] *)
Definition Join (l : list string) (sep : string) : string := String.concat sep l.

End strings.

(* ===================================================================== *)
(** * Data model *)
(* ===================================================================== *)

(** [dbio.Type]: the kinds of store the code names, and any other. *)
Inductive DbType : Type :=
| TypeDbOracle
| TypeDbSnowflake
| TypeDbDuckDb
| TypeDbClickhouse
| TypeDbBigTable
| TypeDbBigQuery
| TypeDbMySQL
| TypeOther (name : string).

Definition DbType_eq_dec (a b : DbType) : {a = b} + {a <> b}.
Proof. decide equality. apply string_dec. Defined.

Definition DbType_eqb (a b : DbType) : bool :=
  if DbType_eq_dec a b then true else false.

(** [type Mode string] and its five constants. *)
Definition Mode : Type := string.
Definition TruncateMode    : Mode := "truncate".
Definition FullRefreshMode : Mode := "full-refresh".
Definition IncrementalMode : Mode := "incremental".
Definition SnapshotMode    : Mode := "snapshot".
Definition BackfillMode    : Mode := "backfill".

(** The mode literal of the disabled swap branch of [WriteToDb]. *)
Definition SwapModeLiteral : Mode := "drop (need to optimize temp table in place)".

(** [g.In(x, xs...)] on modes. *)
Definition g_In (m : Mode) (ms : list Mode) : bool :=
  existsb (String.eqb m) ms.

(** Go errors: [g.Error(msg, args...)] makes a new error, [g.Error(err, msg)]
    wraps a non-nil one. [option error] is a nilable [error]. *)
Inductive Arg : Type :=
| ArgN (n : N)
| ArgS (s : string).

Inductive error : Type :=
| ErrNew (fmt : string) (args : list Arg)
| ErrWrap (cause : error) (fmt : string) (args : list Arg).

(** [iop.Column], with the fields the orchestrator reads or writes. *)
Record Column : Type := mkColumn {
  col_Position : nat;
  col_Name     : string;
  col_Type     : string;
  col_DbType   : string
}.

Definition Columns : Type := list Column.
Definition Row : Type := list string.

(** [iop.Columns.Names()] *)
Definition Columns_Names (cols : Columns) : list string := map col_Name cols.

(** [iop.Dataset] as built by [iop.NewDataset]. *)
Record Dataset : Type := mkDataset {
  ds_Columns       : Columns;
  ds_Rows          : list Row;
  ds_Inferred      : bool;
  ds_SafeInference : bool
}.

Definition NewDataset (cols : Columns) : Dataset :=
  mkDataset cols [] false false.

(** [iop.Dataflow]: the fields [WriteToDb] reads and writes directly; its
    methods are operations. *)
Record Dataflow : Type := mkDataflow {
  df_Columns   : Columns;
  df_Buffer    : list Row;
  df_Inferred  : bool;
  df_StreamMap : list (string * Columns)
}.

(** [database.Table] *)
Record Table : Type := mkTable {
  tbl_Schema  : string;
  tbl_Name    : string;
  tbl_Columns : Columns
}.

(** [sql.TxOptions] *)
Inductive IsolationLevel : Type := LevelDefault | LevelSerializable.

Record TxOptions : Type := mkTxOptions {
  tx_Isolation : IsolationLevel;
  tx_ReadOnly  : bool
}.

(** A Go [any] holding a primary key as YAML or JSON gives it. *)
#[warnings="-register-all"]
Inductive any : Type :=
| AnyNil
| AnyString (s : string)
| AnyStringPtr (s : string)
| AnyStrings (l : list string)
| AnyList (l : list any)
| AnyInt (z : N)
| AnyBool (b : bool).

Record SourceOptions : Type := mkSourceOptions {
  so_Range : option string;
  so_Limit : option N
}.

Record Source : Type := mkSource {
  src_Stream      : string;
  src_Select      : list string;
  src_PrimaryKeyI : any;
  src_UpdateKey   : string;
  src_Options     : option SourceOptions
}.

Record TargetOptions : Type := mkTargetOptions {
  to_AddNewColumns    : option bool;
  to_AdjustColumnType : option bool;
  to_ColumnCasing     : option string;
  to_TableTmp         : string;
  to_TableDDL         : string;
  to_PreSQL           : string;
  to_PostSQL          : string
}.

Record Target : Type := mkTarget {
  tgt_Object          : string;
  tgt_Options         : option TargetOptions;
  tgt_TmpTableCreated : bool;
  tgt_columns         : Columns
}.

Record ConfigOptions : Type := mkConfigOptions {
  co_StdIn  : bool;
  co_StdOut : bool
}.

(** [connection.Connection]: name and [Info().Type]. *)
Record Connection : Type := mkConnection {
  conn_Name : string;
  conn_Type : DbType
}.

Record Config : Type := mkConfig {
  cfg_Source           : Source;
  cfg_Target           : Target;
  cfg_Mode             : Mode;
  cfg_Options          : ConfigOptions;
  cfg_SrcConn          : Connection;
  cfg_TgtConn          : Connection;
  cfg_MetadataLoadedAt : bool
}.

Record TaskExecution : Type := mkTaskExecution {
  t_Config : Config
}.

(** Field updates, as the assignments through the [*Config] pointer. *)
Definition set_Mode (cfg : Config) (m : Mode) : Config :=
  mkConfig (cfg_Source cfg) (cfg_Target cfg) m (cfg_Options cfg)
           (cfg_SrcConn cfg) (cfg_TgtConn cfg) (cfg_MetadataLoadedAt cfg).

Definition set_MetadataLoadedAt (cfg : Config) (b : bool) : Config :=
  mkConfig (cfg_Source cfg) (cfg_Target cfg) (cfg_Mode cfg) (cfg_Options cfg)
           (cfg_SrcConn cfg) (cfg_TgtConn cfg) b.

Definition set_Source (cfg : Config) (s : Source) : Config :=
  mkConfig s (cfg_Target cfg) (cfg_Mode cfg) (cfg_Options cfg)
           (cfg_SrcConn cfg) (cfg_TgtConn cfg) (cfg_MetadataLoadedAt cfg).

Definition set_Target (cfg : Config) (t : Target) : Config :=
  mkConfig (cfg_Source cfg) t (cfg_Mode cfg) (cfg_Options cfg)
           (cfg_SrcConn cfg) (cfg_TgtConn cfg) (cfg_MetadataLoadedAt cfg).

Definition set_PrimaryKeyI (s : Source) (pk : any) : Source :=
  mkSource (src_Stream s) (src_Select s) pk (src_UpdateKey s) (src_Options s).

Definition set_UpdateKey (s : Source) (k : string) : Source :=
  mkSource (src_Stream s) (src_Select s) (src_PrimaryKeyI s) k (src_Options s).

Definition set_Object (t : Target) (o : string) : Target :=
  mkTarget o (tgt_Options t) (tgt_TmpTableCreated t) (tgt_columns t).

Definition set_TargetOptions (t : Target) (o : TargetOptions) : Target :=
  mkTarget (tgt_Object t) (Some o) (tgt_TmpTableCreated t) (tgt_columns t).

Definition set_TmpTableCreated (t : Target) (b : bool) : Target :=
  mkTarget (tgt_Object t) (tgt_Options t) b (tgt_columns t).

Definition set_columns (t : Target) (c : Columns) : Target :=
  mkTarget (tgt_Object t) (tgt_Options t) (tgt_TmpTableCreated t) c.

Definition set_TableTmp (o : TargetOptions) (n : string) : TargetOptions :=
  mkTargetOptions (to_AddNewColumns o) (to_AdjustColumnType o)
                  (to_ColumnCasing o) n (to_TableDDL o) (to_PreSQL o)
                  (to_PostSQL o).

Definition set_tbl_Name (t : Table) (n : string) : Table :=
  mkTable (tbl_Schema t) n (tbl_Columns t).

Definition set_tbl_Columns (t : Table) (c : Columns) : Table :=
  mkTable (tbl_Schema t) (tbl_Name t) c.

Definition set_df_Columns (df : Dataflow) (c : Columns) : Dataflow :=
  mkDataflow c (df_Buffer df) (df_Inferred df) (df_StreamMap df).

Definition set_df_Inferred (df : Dataflow) (b : bool) : Dataflow :=
  mkDataflow (df_Columns df) (df_Buffer df) b (df_StreamMap df).

Definition set_df_StreamMap (df : Dataflow) (m : list (string * Columns)) : Dataflow :=
  mkDataflow (df_Columns df) (df_Buffer df) (df_Inferred df) m.

(* ===================================================================== *)
(** * What the code takes from outside this repository's sources *)
(* ===================================================================== *)

(** Functions and constants of [dbio], [database], [g] and [cast] that the
    embedded code calls and whose bodies are elsewhere. They are parameters:
    nothing is assumed about them. *)
Record Platform : Type := mkPlatform {
  (** [dbio.Type.DBNameUpperCase()] *)
  DBNameUpperCase : DbType -> bool;
  (** [dbio.Type.IsFile()], [IsDb()], [IsUnknown()] *)
  IsFile    : DbType -> bool;
  IsDb      : DbType -> bool;
  IsUnknown : DbType -> bool;
  (** [database.ParseTableName(text, dialect)] *)
  ParseTableName : string -> DbType -> error + Table;
  (** [database.Table.FullName()] *)
  FullName : Table -> string;
  (** [database.GetQualifierQuote(dialect)] *)
  GetQualifierQuote : DbType -> string;
  (** [g.NumericRunes], [g.AplhanumericRunes] *)
  NumericRunes      : string;
  AplhanumericRunes : string;
  (** [os.Getenv] *)
  Getenv : string -> string;
  (** [cast.ToBool] on a string, [cast.ToString] on an [any] *)
  castToBool   : string -> bool;
  castToString : any -> string;
  (** [tgtConn.GetTemplateValue(path)] *)
  GetTemplateValue : string -> string;
  (** [g.R(format, key, value, ...)] and [g.Rm(format, map)] *)
  g_R  : string -> list (string * string) -> string;
  g_Rm : string -> list (string * string) -> string;
  (** [g.Error(err, msg)] when [err] is nil *)
  g_Error_nil : string -> option error;
  (** [g.ErrMsgSimple(err)] *)
  g_ErrMsgSimple : error -> string;
  (** the constant [slingLoadedAtColumn] *)
  slingLoadedAtColumn : string
}.

(** [g.Error(msg, args...)]: a new, non-nil error. *)
Definition g_Error (fmt : string) (args : list Arg) : option error :=
  Some (ErrNew fmt args).

(** [g.Error(err, msg, args...)] *)
Definition g_Error_wrap (P : Platform) (e : option error) (msg : string)
           (args : list Arg) : option error :=
  match e with
  | Some c => Some (ErrWrap c msg args)
  | None => g_Error_nil P msg
  end.

(* ===================================================================== *)
(** * Operations on the external objects, and programs over them *)
(* ===================================================================== *)

Inductive Op : Type :=
(* progress bar and log *)
| PBarFinish
| SetProgress (msg : string) (args : list Arg)
| Warn (msg : string)
| DebugLow (msg : string) (args : list Arg)
(* g.RandString(runes, n) *)
| RandString (runes : string) (n : nat)
(* the dataflow *)
| DfPause
| DfUnpause
| ApplyColumnCasing (casing : option string)
| InferColumnTypes
| SetOnColumnChanged (tmp : string)
| SetOnColumnAdded (tmp : string)
| DfSyncColumns
| DfSyncStats
| DfCount
| DfErr
(* the task *)
| AddCleanupTask (tmp : string)
| GetSQLText (sql : string)
| GetFormatMap
| PullTargetTableColumns (force : bool)
(* the target connection *)
| DropTable (table : string)
| CreateTableIfNotExists (table ddl : string)
| BeginContext (opts : option TxOptions)
| Commit
| Rollback
| BulkImportFlow (table : string)
| GetCount (table : string)
| ExecMulti (sql : string)
| CompareChecksums (table : string) (cols : Columns)
| AddMissingColumns (table : Table) (cols : Columns)
| OptimizeTable (table : Table) (cols : Columns)
| SwapTable (a b : string)
| InsertFromTemp (tmp tgt : string)
| Exec (sql : string)
| Upsert (src tgt : string) (pk : list string)
(* the source side, for ReadFromDB *)
| SetStage (stage : string)
| GetSourceTable
| GetSQLColumns (sql : string).

(** The answer to a call: each call reads the components its Go signature
    returns ([r_err] the error, [r_num] a count, [r_ok] a boolean, [r_str] a
    string, [r_cols] columns, [r_map] a string map). *)
Record Resp : Type := mkResp {
  r_err  : option error;
  r_num  : N;
  r_ok   : bool;
  r_str  : string;
  r_cols : Columns;
  r_map  : list (string * string)
}.

Definition Event : Type := (Op * Resp)%type.
Definition Log : Type := list Event.

(** A function body: a tree of calls, each continuing with the answer, whose
    leaves are the value of a block ([Pure]) or a [return] / panic that leaves
    the function ([Exit]). *)
Inductive Prog (R A : Type) : Type :=
| Pure (a : A)
| Exit (r : R)
| Call (op : Op) (k : Resp -> Prog R A).

Arguments Pure {R A} a.
Arguments Exit {R A} r.
Arguments Call {R A} op k.

Fixpoint bind {R A B : Type} (p : Prog R A) (f : A -> Prog R B) : Prog R B :=
  match p with
  | Pure a => f a
  | Exit r => Exit r
  | Call op k => Call op (fun x => bind (k x) f)
  end.

Definition call {R : Type} (op : Op) : Prog R Resp := Call op (fun r => Pure r).

Declare Scope prog_scope.
Delimit Scope prog_scope with prog.
Notation "x <- c ;; k" := (bind c (fun x => k))
  (at level 61, c at next level, right associativity) : prog_scope.
Notation "c ;;; k" := (bind c (fun _ => k))
  (at level 61, right associativity) : prog_scope.
Local Open Scope prog_scope.

(** Go's [defer f()]: [f] is called when the function is left, by [return] or
    by a panic, and its result is dropped. *)
Fixpoint defer {R : Type} (d : Op) (p : Prog R R) : Prog R R :=
  match p with
  | Pure r => Call d (fun _ => Exit r)
  | Exit r => Call d (fun _ => Exit r)
  | Call op k => Call op (fun x => defer d (k x))
  end.

(** The store and the other external objects answer each call knowing all
    earlier calls and answers (most recent first). *)
Definition Oracle : Type := Log -> Op -> Resp.

(** [exec o p hist]: run [p] after the history [hist]; the result is the
    calls made by [p], in order, with their answers, and how [p] ended. *)
Fixpoint exec {R A : Type} (o : Oracle) (p : Prog R A) (hist : Log)
  : Log * (A + R) :=
  match p with
  | Pure a => ([], inl a)
  | Exit r => ([], inr r)
  | Call op k =>
      let r := o hist op in
      let (tr, res) := exec o (k r) ((op, r) :: hist) in
      ((op, r) :: tr, res)
  end.

(** A whole function: its trace and the value it returns. *)
Definition run {R : Type} (o : Oracle) (p : Prog R R) : Log * R :=
  let (tr, res) := exec o p [] in
  (tr, match res with inl r => r | inr r => r end).

(** Every run of [p] satisfies [Q]: the answers are arbitrary. *)
Fixpoint wp {R A : Type} (p : Prog R A) (Q : Log -> A + R -> Prop) : Prop :=
  match p with
  | Pure a => Q [] (inl a)
  | Exit r => Q [] (inr r)
  | Call op k => forall r : Resp, wp (k r) (fun tr res => Q ((op, r) :: tr) res)
  end.

(* ===================================================================== *)
(** * [config.go] *)
(* ===================================================================== *)

(** [castPrimaryKey(pkI any) (pk []string)] *)
Definition castPrimaryKey (P : Platform) (pkI : any) : list string :=
  match pkI with
  | AnyStrings pkV => pkV
  | AnyString pkV => [pkV]
  | AnyStringPtr pkV => [pkV]
  | AnyList pkV => map (castToString P) pkV
  | _ => []
  end.

(** [func (s *Source) PrimaryKey() []string] *)
Definition PrimaryKey (P : Platform) (s : Source) : list string :=
  castPrimaryKey P (src_PrimaryKeyI s).

(** [func (s *Source) HasUpdateKey() bool] *)
Definition HasUpdateKey (s : Source) : bool :=
  negb (src_UpdateKey s =? "")%string.

(** [func (s *Source) HasPrimaryKey() bool] *)
Definition HasPrimaryKey (P : Platform) (s : Source) : bool :=
  negb (strings.Join (PrimaryKey P s) "" =? "")%string.

(** [func (cfg *Config) sourceIsFile() bool] *)
Definition sourceIsFile (P : Platform) (cfg : Config) : bool :=
  co_StdIn (cfg_Options cfg) || IsFile P (conn_Type (cfg_SrcConn cfg)).

(** [type JobType string]; [JobNone] is the empty string. *)
Inductive JobType : Type :=
| JobNone | DbToDb | FileToDB | DbToFile | FileToFile | APIToDb | APIToFile | DbSQL.

Definition errInvalidMode : error :=
  ErrNew "must specify valid mode: full-refresh, incremental, backfill, snapshot or truncate" [].
Definition errIncrementalKeys : error :=
  ErrNew "must specify value for 'update_key' and/or 'primary_key' for incremental mode. See docs for more details: https://docs.slingdata.io/sling-cli/run/configuration" [].
Definition errBackfillKeys : error :=
  ErrNew "must specify value for 'update_key' and 'primary_key' for backfill mode. See docs for more details: https://docs.slingdata.io/sling-cli/run/configuration" [].
Definition errBackfillRange : error :=
  ErrNew "must specify range (source.options.range or --range) for backfill mode. See docs for more details: https://docs.slingdata.io/sling-cli/run/configuration" [].
Definition errBackfillRangeValue : error :=
  ErrNew "must specify valid range value for backfill mode separated by one comma, for example `2021-01-01,2021-02-01`. See docs for more details: https://docs.slingdata.io/sling-cli/run/configuration" [].

(** The error message built at the end of [DetermineType] when no job type
    fits. *)
Definition invalidTaskError (P : Platform) (cfg : Config) : error :=
  let sourceErrMsg :=
    if co_StdIn (cfg_Options cfg) then ""
    else if (conn_Name (cfg_SrcConn cfg) =? "")%string then ""
    else if IsUnknown P (conn_Type (cfg_SrcConn cfg))
         then "source connection '" ++ conn_Name (cfg_SrcConn cfg)
                ++ "' not valid / found in environment"
         else "" in
  let targetErrMsg0 :=
    if co_StdIn (cfg_Options cfg) then ""
    else if (conn_Name (cfg_SrcConn cfg) =? "")%string
         then "source connection is missing, need to provide"
         else "" in
  let targetErrMsg :=
    if co_StdOut (cfg_Options cfg) then targetErrMsg0
    else if (conn_Name (cfg_TgtConn cfg) =? "")%string
         then "target connection is missing, need to provide"
         else if IsUnknown P (conn_Type (cfg_TgtConn cfg))
              then "target connection '" ++ conn_Name (cfg_TgtConn cfg)
                     ++ "' not valid / found in environment"
              else targetErrMsg0 in
  let output :=
    List.app
      (if (sourceErrMsg =? "")%string then [] else [String.append "error -> " sourceErrMsg])
      (if (targetErrMsg =? "")%string then [] else [String.append "error -> " targetErrMsg]) in
  ErrNew "invalid Task Configuration. Must specify valid source conn / file or target connection / output.\n  %s"
         [ArgS (strings.Join output "\n  ")].

(** [func (cfg *Config) DetermineType() (Type JobType, err error)]. The
    configuration is reached through a pointer, so the function also returns
    it as it leaves it. The function calls nothing on a connection or a file;
    its one effect, the [g.Trace] line of the summary, is left out. *)
Definition DetermineType (P : Platform) (cfg : Config)
  : Config * JobType * option error :=
  let srcFileProvided := sourceIsFile P cfg in
  let tgtFileProvided :=
    co_StdOut (cfg_Options cfg) || IsFile P (conn_Type (cfg_TgtConn cfg)) in
  let srcDbProvided := IsDb P (conn_Type (cfg_SrcConn cfg)) in
  let tgtDbProvided := IsDb P (conn_Type (cfg_TgtConn cfg)) in
  let srcAPIProvided := false in
  let srcStreamProvided := negb (src_Stream (cfg_Source cfg) =? "")%string in
  let cfg := if (cfg_Mode cfg =? "")%string then set_Mode cfg FullRefreshMode else cfg in
  let validMode :=
    g_In (cfg_Mode cfg)
         [FullRefreshMode; IncrementalMode; BackfillMode; SnapshotMode; TruncateMode] in
  if negb validMode then (cfg, JobNone, Some errInvalidMode)
  else
    (* the mode-specific checks: an early return, or the configuration *)
    let checked : Config + error :=
      if (cfg_Mode cfg =? IncrementalMode)%string then
        if DbType_eqb (conn_Type (cfg_SrcConn cfg)) TypeDbBigTable then
          let cfg :=
            if (List.length (PrimaryKey P (cfg_Source cfg)) =? 0)%nat
            then set_Source cfg
                   (set_PrimaryKeyI (cfg_Source cfg) (AnyStrings ["_bigtable_key"]))
            else cfg in
          let cfg :=
            if (src_UpdateKey (cfg_Source cfg) =? "")%string
            then set_Source cfg (set_UpdateKey (cfg_Source cfg) "_bigtable_timestamp")
            else cfg in
          inl cfg
        else if srcFileProvided
                && (src_UpdateKey (cfg_Source cfg) =? slingLoadedAtColumn P)%string
        then inl (set_MetadataLoadedAt cfg true)
        else if (src_UpdateKey (cfg_Source cfg) =? "")%string
                && (List.length (PrimaryKey P (cfg_Source cfg)) =? 0)%nat
        then inr errIncrementalKeys
        else inl cfg
      else if (cfg_Mode cfg =? BackfillMode)%string then
        if (src_UpdateKey (cfg_Source cfg) =? "")%string
           || (List.length (PrimaryKey P (cfg_Source cfg)) =? 0)%nat
        then inr errBackfillKeys
        else
          match src_Options (cfg_Source cfg) with
          | None => inr errBackfillRange
          | Some so =>
              match so_Range so with
              | None => inr errBackfillRange
              | Some range =>
                  if negb (List.length (strings.Split range ",") =? 2)%nat
                  then inr errBackfillRangeValue
                  else inl cfg
              end
          end
      else if (cfg_Mode cfg =? SnapshotMode)%string then
        inl (set_MetadataLoadedAt cfg true)
      else inl cfg in
    match checked with
    | inr e => (cfg, JobNone, Some e)
    | inl cfg =>
        let '(cfg, Type_) :=
          if srcDbProvided && tgtDbProvided then (cfg, DbToDb)
          else if srcFileProvided && tgtDbProvided then (cfg, FileToDB)
          else if srcDbProvided && srcStreamProvided && negb tgtDbProvided
                  && tgtFileProvided then (cfg, DbToFile)
          else if srcFileProvided && negb srcDbProvided && negb tgtDbProvided
                  && tgtFileProvided then (cfg, FileToFile)
          else if srcAPIProvided && srcStreamProvided && tgtDbProvided
          then (cfg, APIToDb)
          else if srcAPIProvided && srcStreamProvided && negb srcDbProvided
                  && negb tgtDbProvided && tgtFileProvided then (cfg, APIToFile)
          else
            match tgt_Options (cfg_Target cfg) with
            | Some o =>
                if tgtDbProvided && negb (to_PostSQL o =? "")%string
                then (set_Target cfg (set_Object (cfg_Target cfg) (to_PostSQL o)), DbSQL)
                else (cfg, JobNone)
            | None => (cfg, JobNone)
            end in
        match Type_ with
        | JobNone => (cfg, JobNone, Some (invalidTaskError P cfg))
        | _ => (cfg, Type_, None)
        end
    end.

(* ===================================================================== *)
(** * [task_run_write.go]: [WriteToDb] *)
(* ===================================================================== *)

(** What the caller sees through the [*Config] and [*iop.Dataflow]
    pointers when the function is left. *)
Record WState : Type := mkWState {
  ws_cfg : Config;
  ws_df  : Dataflow
}.

(** How a call of [WriteToDb] ends: [return cnt, err], or a run-time panic. *)
Inductive Outcome : Type :=
| Returned (st : WState) (cnt : N) (err : option error)
| Panicked (msg : string).

Definition nilDereference : string :=
  "invalid memory address or nil pointer dereference".
Definition indexOutOfRange : string := "index out of range".

(** [cfg] with [cfg.Target.Options] pointing to [o]. *)
Definition St (cfg : Config) (o : TargetOptions) (df : Dataflow) : WState :=
  mkWState (set_Target cfg (set_TargetOptions (cfg_Target cfg) o)) df.

(** [if err != nil { return ... }] *)
Definition check {R : Type} (e : option error) (leave : error -> R)
  : Prog R unit :=
  match e with
  | Some err => Exit (leave err)
  | None => Pure tt
  end.

(** [*p] for a pointer [p] *)
Definition deref {A : Type} (p : option A) : Prog Outcome A :=
  match p with
  | Some a => Pure a
  | None => Exit (Panicked nilDereference)
  end.

Definition when {R : Type} (b : bool) (p : Prog R unit) : Prog R unit :=
  if b then p else Pure tt.

(** The loop of lines 396-405 on one column list: column [i] takes the type
    and the native type of [table.Columns[i]]; [None] is the index panic. *)
Fixpoint syncColumnTypes (dst tbl : Columns) : option Columns :=
  match dst with
  | [] => Some []
  | c :: dst' =>
      match tbl with
      | [] => None
      | tc :: tbl' =>
          match syncColumnTypes dst' tbl' with
          | Some rest =>
              Some (mkColumn (col_Position c) (col_Name c) (col_Type tc)
                             (col_DbType tc) :: rest)
          | None => None
          end
      end
  end.

Definition syncStreamTypes (n : nat) (tbl : Columns) (ds : string * Columns)
  : string * Columns :=
  if (List.length (snd ds) =? n)%nat
  then match syncColumnTypes (snd ds) tbl with
       | Some cols => (fst ds, cols)
       | None => ds
       end
  else ds.

(** The transaction options of the final write (lines 322-328). *)
Definition finalTxOptions (tgtType : DbType) : TxOptions :=
  match tgtType with
  | TypeDbSnowflake | TypeDbDuckDb => mkTxOptions LevelDefault false
  | TypeDbClickhouse => mkTxOptions LevelDefault false
  | _ => mkTxOptions LevelSerializable false
  end.

Section WriteToDb.

Variable P : Platform.
(** the receiver [t] and [tgtConn.GetType()] *)
Variable t : TaskExecution.
Variable tgtType : DbType.

(** Lines 105-130: the name of the temp table. *)
Definition WriteToDb_tableTmp (cfg : Config) (o : TargetOptions)
           (df : Dataflow) (targetTable : string)
  : Prog Outcome TargetOptions :=
  if (to_TableTmp o =? "")%string then
    match ParseTableName P targetTable tgtType with
    | inl err =>
        Exit (Returned (St cfg o df) 0
                (g_Error_wrap P (Some err) "no not parse object table name" []))
    | inr tableTmp =>
        let suffix := if DBNameUpperCase P tgtType then "_TMP" else "_tmp" in
        ns <- (if DbType_eqb tgtType TypeDbOracle then
                 let name :=
                   if (24 <? String.length (tbl_Name tableTmp))%nat
                   then substring 0 24 (tbl_Name tableTmp)
                   else tbl_Name tableTmp in
                 r1 <- call (RandString (NumericRunes P) 1) ;;
                 r2 <- call (RandString (AplhanumericRunes P) 1) ;;
                 let suffix2 := r_str r1 ++ r_str r2 in
                 let suffix2 :=
                   if DBNameUpperCase P tgtType
                   then strings.ToUpper suffix2
                   else strings.ToLower suffix2 in
                 Pure (name, suffix ++ suffix2)
               else Pure (tbl_Name tableTmp, suffix)) ;;
        let tableTmp := set_tbl_Name tableTmp (fst ns ++ snd ns) in
        Pure (set_TableTmp o (FullName P tableTmp))
    end
  else Pure o.

(** Lines 276-296: pre SQL. *)
Definition WriteToDb_preSQL (st : WState) (cnt : N) (o : TargetOptions)
  : Prog Outcome unit :=
  when (negb (to_PreSQL o =? "")%string)
    (call (SetProgress "executing pre-sql" []) ;;;
     r <- call (GetSQLText (to_PreSQL o)) ;;
     check (r_err r)
       (fun e => Returned st cnt (g_Error_wrap P (Some e) "could not get pre-sql body" [])) ;;;
     let preSQL := r_str r in
     f <- call GetFormatMap ;;
     check (r_err f)
       (fun e => Returned st cnt
                   (g_Error_wrap P (Some e) "could not get format map for pre-sql" [])) ;;;
     x <- call (ExecMulti (g_Rm P preSQL (r_map f))) ;;
     check (r_err x)
       (fun e => Returned st cnt
                   (g_Error_wrap P (Some e) "could not execute pre-sql on target" []))).

(** Lines 298-319: nothing staged, or the checksum comparison. *)
Definition WriteToDb_checks (cfg : Config) (o : TargetOptions)
           (df : Dataflow) (cnt : N) : Prog Outcome Dataflow :=
  if (cnt =? 0)%N && negb (castToBool P (Getenv P "SLING_ALLOW_EMPTY_TABLES"))
  then
    call (Warn "No data or records found in stream. Nothing to do. To allow Sling to create empty tables, set SLING_ALLOW_EMPTY_TABLES=TRUE") ;;;
    Exit (Returned (St cfg o df) cnt None)
  else if (0 <? cnt)%N then
    s1 <- call DfSyncColumns ;;
    let df := set_df_Columns df (r_cols s1) in
    let df := set_df_Inferred df (negb (sourceIsFile P cfg)) in
    s2 <- call DfSyncStats ;;
    let df := set_df_Columns df (r_cols s2) in
    c <- call DfCount ;;
    (if (r_num c <=? 10000)%N then
       x <- call (CompareChecksums (to_TableTmp o) (df_Columns df)) ;;
       match r_err x with
       | Some e =>
           if negb (Getenv P "ERROR_ON_CHECKSUM_FAILURE" =? "")%string
           then Exit (Returned (St cfg o df) cnt (Some e))
           else call (DebugLow (g_ErrMsgSimple P e) []) ;;; Pure tt
       | None => Pure tt
       end
     else Pure tt) ;;;
    Pure df
  else Pure df.

(** Lines 337-409: the final table is dropped (full refresh only), created
    when absent, and its schema adjusted. *)
Definition WriteToDb_prepareFinal (cfg : Config) (o : TargetOptions)
           (df : Dataflow) (cnt : N) (targetTable : string)
           (addNewColumns adjustColumnType : bool)
  : Prog Outcome (Config * Dataflow) :=
  let st := St cfg o df in
  when (cfg_Mode cfg =? FullRefreshMode)%string
    (d <- call (DropTable targetTable) ;;
     check (r_err d)
       (fun e => Returned st cnt
                   (g_Error_wrap P (Some e) ("could not drop table " ++ targetTable) [])) ;;;
     call (SetProgress ("dropped table " ++ targetTable) []) ;;;
     Pure tt) ;;;
  let sample := mkDataset (df_Columns df) (df_Buffer df) true false in
  c <- call (CreateTableIfNotExists targetTable (to_TableDDL o)) ;;
  check (r_err c)
    (fun e => Returned st cnt
                (g_Error_wrap P (Some e) ("could not create table " ++ targetTable) [])) ;;;
  let created := r_ok c in
  when created
    (call (SetProgress "created table %s" [ArgS targetTable]) ;;; Pure tt) ;;;
  match ParseTableName P targetTable tgtType with
  | inl err =>
      Exit (Returned st cnt
              (g_Error_wrap P (Some err) "could not get table name for optimization" []))
  | inr table =>
      if negb created && negb (cfg_Mode cfg =? FullRefreshMode)%string then
        when addNewColumns
          (a <- call (AddMissingColumns table (ds_Columns sample)) ;;
           check (r_err a)
             (fun e => Returned st cnt
                         (g_Error_wrap P (Some e) "could not add missing columns" [])) ;;;
           when (r_ok a)
             (p <- call (PullTargetTableColumns true) ;;
              check (r_err p)
                (fun e => Returned st cnt
                            (g_Error_wrap P (Some e) "could not get table columns" [])))) ;;;
        if adjustColumnType then
          p <- call (PullTargetTableColumns false) ;;
          let table := set_tbl_Columns table (r_cols p) in
          check (r_err p)
            (fun e => Returned st cnt
                        (g_Error_wrap P (Some e)
                           "could not get table columns for optimization" [])) ;;;
          z <- call (OptimizeTable table (ds_Columns sample)) ;;
          let table := set_tbl_Columns table (r_cols z) in
          check (r_err z)
            (fun e => Returned st cnt
                        (g_Error_wrap P (Some e) "could not optimize table schema" [])) ;;;
          if r_ok z then
            let cfg := set_Target cfg (set_columns (cfg_Target cfg) (tbl_Columns table)) in
            match syncColumnTypes (df_Columns df) (tbl_Columns table) with
            | None => Exit (Panicked indexOutOfRange)
            | Some cols =>
                let streams :=
                  map (syncStreamTypes (List.length (df_Columns df)) (tbl_Columns table))
                      (df_StreamMap df) in
                Pure (cfg, set_df_StreamMap (set_df_Columns df cols) streams)
            end
          else Pure (cfg, df)
        else Pure (cfg, df)
      else Pure (cfg, df)
  end.

(** Lines 411-472: put data from tmp to final. *)
Definition WriteToDb_merge (cfg : Config) (o : TargetOptions) (df : Dataflow)
           (cnt : N) (targetTable : string) : Prog Outcome unit :=
  let st := St cfg o df in
  if (cnt =? 0)%N then
    call (SetProgress "0 rows inserted. Nothing to do." []) ;;; Pure tt
  else if (cfg_Mode cfg =? SwapModeLiteral)%string then
    s <- call (SwapTable (to_TableTmp o) targetTable) ;;
    check (r_err s)
      (fun e => Returned st 0
                  (g_Error_wrap P (Some e) "could not swap tables %s to %s"
                     [ArgS (to_TableTmp o); ArgS targetTable])) ;;;
    d <- call (DropTable (to_TableTmp o)) ;;
    check (r_err d)
      (fun e => Returned st cnt
                  (g_Error_wrap P (Some e) ("could not drop table " ++ to_TableTmp o) [])) ;;;
    call (SetProgress ("dropped old table of " ++ targetTable) []) ;;; Pure tt
  else if ((cfg_Mode cfg =? IncrementalMode)%string
           && (List.length (PrimaryKey P (cfg_Source (t_Config t))) =? 0)%nat)
          || (cfg_Mode cfg =? SnapshotMode)%string
          || (cfg_Mode cfg =? FullRefreshMode)%string then
    i <- call (InsertFromTemp (to_TableTmp o) targetTable) ;;
    check (r_err i)
      (fun e => Returned st 0 (g_Error_wrap P (Some e) "Could not insert from temp" []))
  else if (cfg_Mode cfg =? TruncateMode)%string then
    let truncSQL :=
      g_R P (GetTemplateValue P "core.truncate_table") [("table", targetTable)] in
    x <- call (Exec truncSQL) ;;
    check (r_err x)
      (fun e => Returned st cnt
                  (g_Error_wrap P (Some e) ("Could not truncate table: " ++ targetTable) [])) ;;;
    call (SetProgress ("truncated table " ++ targetTable) []) ;;;
    i <- call (InsertFromTemp (to_TableTmp o) targetTable) ;;
    check (r_err i)
      (fun e => Returned st 0 (g_Error_wrap P (Some e) "Could not insert from temp" []))
  else if (cfg_Mode cfg =? IncrementalMode)%string
          || (cfg_Mode cfg =? BackfillMode)%string then
    u <- call (Upsert (to_TableTmp o) targetTable (PrimaryKey P (cfg_Source cfg))) ;;
    check (r_err u)
      (fun e => Returned st 0
                  (g_Error_wrap P (Some e) "Could not incremental from temp" [])) ;;;
    let rowAffCnt := r_num u in
    when (0 <? rowAffCnt)%N
      (call (DebugLow "%d TOTAL INSERTS / UPDATES" [ArgN rowAffCnt]) ;;; Pure tt)
  else Pure tt.

(** Lines 474-495: post SQL. *)
Definition WriteToDb_postSQL (st : WState) (cnt : N) (o : TargetOptions)
  : Prog Outcome unit :=
  when (negb (to_PostSQL o =? "")%string)
    (call (SetProgress "executing post-sql" []) ;;;
     r <- call (GetSQLText (to_PostSQL o)) ;;
     check (r_err r)
       (fun e => Returned st cnt
                   (g_Error_wrap P (Some e)
                      ("Error executing Target.PostSQL. Could not get getSQLText for: "
                         ++ to_PostSQL o) [])) ;;;
     let postSQL := r_str r in
     f <- call GetFormatMap ;;
     check (r_err f)
       (fun e => Returned st cnt
                   (g_Error_wrap P (Some e) "could not get format map for post-sql" [])) ;;;
     x <- call (ExecMulti (g_Rm P postSQL (r_map f))) ;;
     check (r_err x)
       (fun e => Returned st cnt
                   (g_Error_wrap P (Some e) "Error executing Target.PostSQL" []))).

(** Lines 321-505: the final write, inside its transaction. *)
Definition WriteToDb_final (cfg : Config) (o : TargetOptions) (df : Dataflow)
           (cnt : N) (targetTable : string)
           (addNewColumns adjustColumnType : bool) : Prog Outcome Outcome :=
  let txOptions := finalTxOptions tgtType in
  b <- call (BeginContext (Some txOptions)) ;;
  check (r_err b)
    (fun e => Returned (St cfg o df) cnt
                (g_Error_wrap P (Some e)
                   "could not open transcation to write to final table" [])) ;;;
  defer Rollback
    (cd <- WriteToDb_prepareFinal cfg o df cnt targetTable
             addNewColumns adjustColumnType ;;
     let cfg := fst cd in
     let df := snd cd in
     WriteToDb_merge cfg o df cnt targetTable ;;;
     WriteToDb_postSQL (St cfg o df) cnt o ;;;
     c <- call Commit ;;
     check (r_err c)
       (fun e => Returned (St cfg o df) cnt
                   (g_Error_wrap P (Some e) "could not commit" [])) ;;;
     e <- call DfErr ;;
     Exit (Returned (St cfg o df) cnt (r_err e))).

(** [func (t *TaskExecution) WriteToDb(cfg *Config, df *iop.Dataflow,
    tgtConn database.Connection) (cnt uint64, err error)] *)
Definition WriteToDb (cfg : Config) (df : Dataflow) : Prog Outcome Outcome :=
  defer PBarFinish
    ((* detect empty *)
     if (List.length (df_Columns df) =? 0)%nat then
       Exit (Returned (mkWState cfg df) 0 (g_Error "no stream columns detected" []))
     else
       let targetTable := tgt_Object (cfg_Target cfg) in
       o <- deref (tgt_Options (cfg_Target cfg)) ;;
       o <- WriteToDb_tableTmp cfg o df targetTable ;;
       let cfg :=
         if (cfg_Mode cfg =? "")%string then set_Mode cfg FullRefreshMode else cfg in
       (* Drop & Create the temp table *)
       d <- call (DropTable (to_TableTmp o)) ;;
       check (r_err d)
         (fun e => Returned (St cfg o df) 0
                     (g_Error_wrap P (Some e) ("could not drop table " ++ to_TableTmp o) [])) ;;;
       paused <- call DfPause ;;
       (if negb (r_ok paused) then
          Exit (Returned (St cfg o df) 0
                  (g_Error_wrap P None "could not pause streams to infer columns" []))
        else Pure tt) ;;;
       (* apply column casing *)
       topts <- deref (tgt_Options (cfg_Target (t_Config t))) ;;
       cs <- call (ApplyColumnCasing (to_ColumnCasing topts)) ;;
       let df := set_df_Columns df (r_cols cs) in
       let sampleData :=
         mkDataset (df_Columns df) (df_Buffer df) (df_Inferred df) false in
       sd <- (if negb (ds_Inferred sampleData) then
                i <- call InferColumnTypes ;;
                let sampleData :=
                  mkDataset (r_cols i) (ds_Rows sampleData) (r_ok i) true in
                Pure (sampleData, set_df_Columns df (ds_Columns sampleData))
              else Pure (sampleData, df)) ;;
       let sampleData := fst sd in
       let df := snd sd in
       (* check table ddl *)
       (if negb (to_TableDDL o =? "")%string
           && negb (strings.Contains (to_TableDDL o) targetTable) then
          Exit (Returned (St cfg o df) 0
                  (g_Error "The Table DDL provided needs to contains the exact object table name: %s"
                           [ArgS targetTable]))
        else Pure tt) ;;;
       c <- call (CreateTableIfNotExists (to_TableTmp o)
                    (strings.Replace1 (to_TableDDL o) targetTable (to_TableTmp o))) ;;
       check (r_err c)
         (fun e => Returned (St cfg o df) 0
                     (g_Error_wrap P (Some e)
                        ("could not create temp table " ++ to_TableTmp o) [])) ;;;
       let cfg := set_Target cfg (set_TmpTableCreated (cfg_Target cfg) true) in
       let df := set_df_Columns df (ds_Columns sampleData) in
       call (AddCleanupTask (to_TableTmp o)) ;;;
       b <- call (BeginContext None) ;;
       check (r_err b)
         (fun e => Returned (St cfg o df) 0
                     (g_Error_wrap P (Some e)
                        "could not open transaction to write to temp table" [])) ;;;
       let adjustColumnType :=
         match to_AdjustColumnType o with Some v => v | None => false end in
       when adjustColumnType
         (call (SetOnColumnChanged (to_TableTmp o)) ;;; Pure tt) ;;;
       addNewColumns <- deref (to_AddNewColumns o) ;;
       when addNewColumns
         (call (SetOnColumnAdded (to_TableTmp o)) ;;; Pure tt) ;;;
       call DfUnpause ;;;
       call (SetProgress "streaming data" []) ;;;
       bi <- call (BulkImportFlow (to_TableTmp o)) ;;
       let cnt := r_num bi in
       match r_err bi with
       | Some e =>
           call Rollback ;;;
           if castToBool P (Getenv P "SLING_CLI") && sourceIsFile P cfg then
             Exit (Returned (St cfg o df) cnt
                     (g_Error_wrap P (Some e) "could not insert into %s."
                        [ArgS (to_TableTmp o)]))
           else
             Exit (Returned (St cfg o df) cnt
                     (g_Error_wrap P (Some e)
                        ("could not insert into " ++ to_TableTmp o) []))
       | None =>
           call Commit ;;;
           call PBarFinish ;;;
           gc <- call (GetCount (to_TableTmp o)) ;;
           let tCnt := r_num gc in
           if negb (cnt =? tCnt)%N then
             Exit (Returned (St cfg o df) cnt
                     (g_Error "inserted in temp table but table count (%d) != stream count (%d). Records missing. Aborting"
                              [ArgN tCnt; ArgN cnt]))
           else if (tCnt =? 0)%N && (0 <? List.length (ds_Rows sampleData))%nat then
             Exit (Returned (St cfg o df) cnt
                     (g_Error "Loaded 0 records while sample data has %d records. Exiting."
                              [ArgN (N.of_nat (List.length (ds_Rows sampleData)))]))
           else
             WriteToDb_preSQL (St cfg o df) cnt o ;;;
             df <- WriteToDb_checks cfg o df cnt ;;
             WriteToDb_final cfg o df cnt targetTable addNewColumns adjustColumnType
       end).

End WriteToDb.

(* ===================================================================== *)
(** * [task_run_read.go]: the select list of [ReadFromDB] *)
(* ===================================================================== *)

(** How a [return] of [ReadFromDB] leaves it: [return df, err]. *)
Definition ReadOutcome : Type := (option Dataflow * option error)%type.

(** [lo.Filter(cfg.Source.Select, ...)] of line 43: the entries with the
    prefix [-]. *)
Definition excludedFields (sel : list string) : list string :=
  filter (fun f => strings.HasPrefix f "-") sel.

(** The loop of lines 54-59: [true] when it returns [false] for an entry. *)
Fixpoint isExcluded (q : string) (excluded : list string) (c : Column) : bool :=
  match excluded with
  | [] => false
  | exField :: rest =>
      let exField := strings.ReplaceAll (strings.TrimPrefix exField "-") q "" in
      if strings.EqualFold (col_Name c) exField then true
      else isExcluded q rest c
  end.

(** [iop.Columns.Names()] *)
Definition Names (cols : Columns) : list string := map col_Name cols.

(** Lines 19-70 of [ReadFromDB]: the source columns and the select list.
    [tdf] is the field [t.df] and [srcType] is [srcConn.GetType()]; the block
    ends with [sTable.Columns] and [selectFieldsStr], or leaves the function
    by one of its [return]s. *)
Definition ReadFromDB_select (P : Platform) (tdf : option Dataflow)
           (srcType : DbType) (cfg : Config)
  : Prog ReadOutcome (Columns * string) :=
  call (SetStage "3 - prepare-dataflow") ;;;
  let selectFieldsStr := "*" in
  s <- call GetSourceTable ;;
  check (r_err s)
    (fun e => (tdf, g_Error_wrap P (Some e) "Could not parse source stream text" [])) ;;;
  (* get source columns *)
  let sql := g_R P (r_str s) [("incremental_where_cond", "1=1")] in
  let sql := g_R P sql [("incremental_value", "null")] in
  c <- call (GetSQLColumns sql) ;;
  check (r_err c)
    (fun e => (tdf, g_Error_wrap P (Some e) "Could not get source columns" [])) ;;;
  let columns := r_cols c in
  if (0 <? List.length (src_Select (cfg_Source cfg)))%nat then
    let fields := src_Select (cfg_Source cfg) in
    let excluded := excludedFields (src_Select (cfg_Source cfg)) in
    if (0 <? List.length excluded)%nat then
      if negb (List.length excluded =? List.length (src_Select (cfg_Source cfg)))%nat
      then
        Exit (tdf, g_Error "All specified select columns must be excluded with prefix '-'. Cannot do partial exclude." [])
      else
        let q := GetQualifierQuote P srcType in
        let includedCols := filter (fun c => negb (isExcluded q excluded c)) columns in
        if (List.length includedCols =? 0)%nat then
          Exit (tdf, g_Error "All available columns were excluded" [])
        else
          Pure (columns, strings.Join (Names includedCols) ", ")
    else Pure (columns, strings.Join fields ", ")
  else Pure (columns, selectFieldsStr).

(* ===================================================================== *)
(** * Reasoning about all runs of a program *)
(* ===================================================================== *)

Local Open Scope list_scope.

Definition trace {R : Type} (o : Oracle) (p : Prog R R) : Log := fst (run o p).
Definition outcome {R : Type} (o : Oracle) (p : Prog R R) : R := snd (run o p).

Definition value {R : Type} (res : R + R) : R :=
  match res with inl r => r | inr r => r end.

Lemma run_exec {R : Type} (o : Oracle) (p : Prog R R) :
  run o p = (fst (exec o p []), value (snd (exec o p []))).
Proof. unfold run. destruct (exec o p []) as [tr [r | r]]; reflexivity. Qed.

Section Observed.

Context {R : Type}.

(** The operations a property speaks about; the others are skipped. *)
Variable rel : Op -> bool.

Definition observed (tr : Log) : Log := filter (fun e => rel (fst e)) tr.

(** [wpR p Q]: whatever the answers, the observed part of the trace of [p]
    and the way [p] ends satisfy [Q]. *)
Fixpoint wpR {A : Type} (p : Prog R A) (Q : Log -> A + R -> Prop) : Prop :=
  match p with
  | Pure a => Q [] (inl a)
  | Exit r => Q [] (inr r)
  | Call op k =>
      forall r : Resp,
        wpR (k r) (if rel op then (fun tr res => Q ((op, r) :: tr) res) else Q)
  end.

Lemma wpR_exec {A : Type} (p : Prog R A) :
  forall Q (o : Oracle) (h : Log),
    wpR p Q -> Q (observed (fst (exec o p h))) (snd (exec o p h)).
Proof.
  induction p as [a | r | op k IH]; intros Q o h H; simpl in *; auto.
  specialize (H (o h op)).
  specialize (IH (o h op) _ o ((op, o h op) :: h) H).
  destruct (exec o (k (o h op)) ((op, o h op) :: h)) as [tr res].
  unfold observed in *. simpl in *.
  destruct (rel op); assumption.
Qed.

Lemma wpR_mono {A : Type} (p : Prog R A) :
  forall (Q Q' : Log -> A + R -> Prop),
    (forall tr res, Q tr res -> Q' tr res) -> wpR p Q -> wpR p Q'.
Proof.
  induction p as [a | r | op k IH]; intros Q Q' HQ H; simpl in *; auto.
  intros r. specialize (H r).
  destruct (rel op); eapply IH; eauto.
  simpl. intros; auto.
Qed.

Lemma wpR_bind {A B : Type} (p : Prog R A) (f : A -> Prog R B) :
  forall Q : Log -> B + R -> Prop,
    wpR p (fun tr res =>
             match res with
             | inl a => wpR (f a) (fun tr' res' => Q (tr ++ tr') res')
             | inr r => Q tr (inr r)
             end) ->
    wpR (bind p f) Q.
Proof.
  induction p as [a | r | op k IH]; intros Q H; simpl in *.
  - eapply wpR_mono; [| exact H]. auto.
  - exact H.
  - intros r. specialize (H r). apply IH.
    destruct (rel op); exact H.
Qed.

(** A block whose calls are all skipped, followed by the rest. *)
Lemma wpR_cut {A B : Type} (S : A -> Prop) (p : Prog R A) (f : A -> Prog R B)
      (Q : Log -> B + R -> Prop) :
  wpR p (fun tr res =>
           tr = [] /\
           match res with inl a => S a | inr r => Q [] (inr r) end) ->
  (forall a, S a -> wpR (f a) Q) ->
  wpR (bind p f) Q.
Proof.
  intros Hp Hf. apply wpR_bind.
  eapply wpR_mono; [| exact Hp].
  intros tr res [-> H]. destruct res as [a | r]; simpl; auto.
Qed.

Lemma wpR_defer (d : Op) (p : Prog R R) :
  forall Q : Log -> R + R -> Prop,
    wpR p (fun tr res =>
             forall rd : Resp,
               Q (tr ++ (if rel d then [(d, rd)] else [])) (inr (value res))) ->
    wpR (defer d p) Q.
Proof.
  induction p as [a | r | op k IH]; intros Q H; simpl in *.
  - intros rd. specialize (H rd). destruct (rel d); exact H.
  - intros rd. specialize (H rd). destruct (rel d); exact H.
  - intros r. specialize (H r). apply IH.
    destruct (rel op); exact H.
Qed.

Lemma wpR_defer_skip (d : Op) (p : Prog R R) (Q : Log -> R + R -> Prop) :
  rel d = false ->
  wpR p (fun tr res => Q tr (inr (value res))) ->
  wpR (defer d p) Q.
Proof.
  intros Hd H. apply wpR_defer. rewrite Hd.
  eapply wpR_mono; [| exact H].
  simpl. intros tr res HQ _. rewrite app_nil_r. exact HQ.
Qed.

Lemma wpR_defer_obs (d : Op) (p : Prog R R) (Q : Log -> R + R -> Prop) :
  rel d = true ->
  wpR p (fun tr res => forall rd : Resp, Q (tr ++ [(d, rd)]) (inr (value res))) ->
  wpR (defer d p) Q.
Proof.
  intros Hd H. apply wpR_defer. rewrite Hd. exact H.
Qed.

(** A block followed by the rest, through what is known of the block. *)
Lemma wpR_seq {A B : Type} (Q1 : Log -> A + R -> Prop) (p : Prog R A)
      (f : A -> Prog R B) (Q : Log -> B + R -> Prop) :
  wpR p Q1 ->
  (forall tr a, Q1 tr (inl a) -> wpR (f a) (fun tr' res' => Q (tr ++ tr') res')) ->
  (forall tr r, Q1 tr (inr r) -> Q tr (inr r)) ->
  wpR (bind p f) Q.
Proof.
  intros Hp Hf Hr. apply wpR_bind.
  eapply wpR_mono; [| exact Hp].
  intros tr [a | r] H; auto.
Qed.

(** Programs all of whose calls are in a given alphabet. *)
Fixpoint allCalls {A : Type} (good : Op -> bool) (p : Prog R A) : Prop :=
  match p with
  | Pure _ | Exit _ => True
  | Call op k => good op = true /\ forall r : Resp, allCalls good (k r)
  end.

Lemma allCalls_bind {A B : Type} (good : Op -> bool) (p : Prog R A)
      (f : A -> Prog R B) :
  allCalls good p -> (forall a, allCalls good (f a)) -> allCalls good (bind p f).
Proof.
  induction p as [a | r | op k IH]; simpl; intros Hp Hf; auto.
  destruct Hp as [Hop Hk]. split; auto.
Qed.

Lemma allCalls_defer (good : Op -> bool) (d : Op) (p : Prog R R) :
  good d = true -> allCalls good p -> allCalls good (defer d p).
Proof.
  induction p as [a | r | op k IH]; simpl; intros Hd Hp; auto.
  destruct Hp as [Hop Hk]. split; auto.
Qed.

Lemma allCalls_weaken {A : Type} (good good' : Op -> bool) (p : Prog R A) :
  (forall op, good op = true -> good' op = true) ->
  allCalls good p -> allCalls good' p.
Proof.
  intros Hw. induction p as [a | r | op k IH]; simpl; auto.
  intros [Hop Hk]. split; auto.
Qed.

Lemma allCalls_wpR {A : Type} (good : Op -> bool) (p : Prog R A) :
  allCalls good p ->
  wpR p (fun tr _ => Forall (fun e => good (fst e) = true) tr).
Proof.
  induction p as [a | r | op k IH]; simpl; intros H; auto.
  destruct H as [Hop Hk]. intros r.
  destruct (rel op).
  - eapply wpR_mono; [| apply IH, Hk]. simpl. intros tr _ HF.
    constructor; assumption.
  - apply IH, Hk.
Qed.

(** Soundness for a whole function. *)
Lemma wpR_run (p : Prog R R) (Q : Log -> R -> Prop) (o : Oracle) :
  wpR p (fun tr res => Q tr (value res)) ->
  Q (observed (trace o p)) (outcome o p).
Proof.
  intros H. unfold trace, outcome. rewrite run_exec. simpl.
  apply (wpR_exec p (fun tr res => Q tr (value res)) o [] H).
Qed.

End Observed.

(** With every operation observed, [wpR] speaks about the whole trace. *)
Definition everyOp (op : Op) : bool := true.

Lemma observed_everyOp (tr : Log) : observed everyOp tr = tr.
Proof.
  unfold observed. induction tr as [| e tr IH]; simpl; [reflexivity |].
  rewrite IH. reflexivity.
Qed.


Section Skip.

Context {R : Type}.
Variable rel : Op -> bool.

(** A block none of whose calls is observed leaves no trace. *)
Lemma wpR_silent {A : Type} (good : Op -> bool) (p : Prog R A) :
  allCalls good p ->
  (forall op, good op = true -> rel op = false) ->
  wpR rel p (fun tr _ => tr = []).
Proof.
  intros Hp Hg. induction p as [a | r | op k IH]; simpl in *; auto.
  destruct Hp as [Hop Hk]. intros r. rewrite (Hg _ Hop). auto.
Qed.

Lemma wpR_skip {A B : Type} (good : Op -> bool) (p : Prog R A)
      (f : A -> Prog R B) (Q : Log -> B + R -> Prop) :
  allCalls good p ->
  (forall op, good op = true -> rel op = false) ->
  (forall r, Q [] (inr r)) ->
  (forall a, wpR rel (f a) Q) ->
  wpR rel (bind p f) Q.
Proof.
  intros Hp Hg Hr Hf.
  apply wpR_seq with (Q1 := fun tr (_ : A + R) => tr = []).
  - eapply wpR_silent; eauto.
  - intros tr a ->. simpl. apply Hf.
  - intros tr r ->. apply Hr.
Qed.

End Skip.

(** Proof steps shared by the theorems on [WriteToDb]. *)

Ltac all_calls :=
  repeat first
    [ exact I
    | reflexivity
    | apply allCalls_bind; [| intros ?]
    | apply allCalls_defer
    | match goal with
      | |- allCalls _ (match ?x with _ => _ end) => destruct x
      | |- _ /\ _ => split
      | |- forall _, _ => intros ?
      end
    | progress (unfold check, when, deref, call, WriteToDb_tableTmp,
                WriteToDb_preSQL, WriteToDb_checks, WriteToDb_final,
                WriteToDb_prepareFinal, WriteToDb_merge, WriteToDb_postSQL)
    | progress simpl ].

Ltac head_destruct p :=
  match p with
  | bind ?q _ => head_destruct q
  | (if ?c then _ else _) => destruct c eqn:?
  | (match ?c with _ => _ end) => destruct c eqn:?
  end.

Ltac head_destruct_goal :=
  match goal with |- wpR _ ?p _ => head_destruct p end.

Ltac in_cases :=
  repeat match goal with
         | H : In _ (_ :: _) |- _ => destruct H as [H | H]
         | H : In _ [] |- _ => destruct H
         | H : (_, _) = (_, _) |- _ => inversion H; clear H; subst
         end; try discriminate.

(** Skip a block whose calls are all in the alphabet [g], none observed;
    [leaf] proves the postcondition where the block leaves the function. *)
Tactic Notation "skip_with" constr(g) tactic(leaf) :=
  apply (@wpR_skip _ _ _ _ g);
  [ solve [all_calls]
  | solve [let op := fresh "op" in
           let H := fresh "H" in
           intros op H; destruct op; simpl in *;
           first [discriminate H | reflexivity
                 | match goal with
                   | o : option _ |- _ => destruct o; first [discriminate H | reflexivity]
                   end]]
  | solve [intros ?; leaf]
  | intros ? ].

(* ===================================================================== *)
(** * The phases of [WriteToDb] *)
(* ===================================================================== *)

(** Staging steps that name no table. *)
Definition nameless (op : Op) : bool :=
  match op with
  | PBarFinish | SetProgress _ _ | RandString _ _ | DfPause | DfUnpause
  | ApplyColumnCasing _ | InferColumnTypes | SetOnColumnChanged _
  | SetOnColumnAdded _ | AddCleanupTask _ | BeginContext None | Commit
  | Rollback => true
  | _ => false
  end.

(** The calls of the staging and verifying phases on the temp table [tmp]. *)
Definition stagingOp (tmp : string) (op : Op) : bool :=
  nameless op ||
  match op with
  | DropTable x | CreateTableIfNotExists x _ | BulkImportFlow x | GetCount x =>
      (x =? tmp)%string
  | _ => false
  end.

(** The calls of the final write (lines 321-505). *)
Definition finalOp (op : Op) : bool :=
  match op with
  | BeginContext (Some _) | DropTable _ | SetProgress _ _
  | CreateTableIfNotExists _ _ | AddMissingColumns _ _
  | PullTargetTableColumns _ | OptimizeTable _ _ | SwapTable _ _
  | InsertFromTemp _ _ | Exec _ | Upsert _ _ _ | DebugLow _ _
  | GetSQLText _ | GetFormatMap | ExecMulti _ | Commit | DfErr | Rollback => true
  | _ => false
  end.

(** The calls made after the count query (lines 276-505). *)
Definition afterCountOp (op : Op) : bool :=
  finalOp op ||
  match op with
  | Warn _ | DfSyncColumns | DfSyncStats | DfCount | CompareChecksums _ _ => true
  | _ => false
  end.

Lemma allCalls_final P t ty cfg o df cnt target addNew adjust :
  allCalls finalOp (WriteToDb_final P t ty cfg o df cnt target addNew adjust).
Proof. all_calls. Qed.

Lemma allCalls_afterCount P t ty cfg o df cnt st target addNew adjust :
  allCalls afterCountOp
    (WriteToDb_preSQL P st cnt o ;;;
     df' <- WriteToDb_checks P cfg o df cnt ;;
     WriteToDb_final P t ty cfg o df' cnt target addNew adjust)%prog.
Proof. all_calls. Qed.

(** The bulk import and the count query are not called again after the
    count query. *)
Lemma afterCount_not_staged (tr : Log) :
  Forall (fun e => afterCountOp (fst e) = true) tr ->
  forall x r, ~ In (BulkImportFlow x, r) tr /\ ~ In (GetCount x, r) tr.
Proof.
  intros HF x r. rewrite Forall_forall in HF.
  split; intros H; apply HF in H; discriminate H.
Qed.

Definition returnsError (out : Outcome) : Prop :=
  exists st cnt e, out = Returned st cnt (Some e).

(* ===================================================================== *)
(** * Concrete platforms, stores and configurations *)
(* ===================================================================== *)

Module Demo.

Definition okResp : Resp := mkResp None 0 true "" [] [].
Definition col (i : nat) (name : string) : Column := mkColumn i name "string" "text".

Definition numResp (n : N) : Resp :=
  mkResp None n true "" [col 1 "id"; col 2 "name"] [].
Definition errResp (msg : string) : Resp :=
  mkResp (Some (ErrNew msg [])) 0 false "" [] [].

(** A platform with an empty environment; names parse to themselves. *)
Definition platform : Platform :=
  mkPlatform
    (fun ty => match ty with TypeDbOracle | TypeDbSnowflake => true | _ => false end)
    (fun ty => match ty with TypeOther "file" => true | _ => false end)
    (fun ty => match ty with TypeOther _ => false | _ => true end)
    (fun ty => match ty with TypeOther "" => true | _ => false end)
    (fun s _ => if (s =? "")%string then inl (ErrNew "empty table name" [])
                else inr (mkTable "" s []))
    (fun tbl => tbl_Name tbl)
    (fun _ => "`")
    "1234567890"
    "abcdefghijklmnopqrstuvwxyzABCDEFGHIJKLMNOPQRSTUVWXYZ1234567890"
    (fun _ => "")
    (fun s => (s =? "true")%string)
    (fun a => match a with AnyString s => s | _ => "" end)
    (fun _ => "truncate table {table}")
    (fun f _ => f)
    (fun f _ => f)
    (fun msg => None)
    (fun e => match e with ErrNew m _ => m | ErrWrap _ m _ => m end)
    "_sling_loaded_at".

(** The same platform with one environment variable set. *)
Definition platformEnv (key val : string) : Platform :=
  mkPlatform
    (DBNameUpperCase platform) (IsFile platform) (IsDb platform)
    (IsUnknown platform) (ParseTableName platform) (FullName platform)
    (GetQualifierQuote platform) (NumericRunes platform)
    (AplhanumericRunes platform)
    (fun k => if (k =? key)%string then val else "")
    (castToBool platform) (castToString platform)
    (GetTemplateValue platform) (g_R platform) (g_Rm platform)
    (g_Error_nil platform) (g_ErrMsgSimple platform)
    (slingLoadedAtColumn platform).

(** A store where every call succeeds; bulk import, count queries and the
    dataflow count all answer [n]. *)
Definition store (n : N) : Oracle :=
  fun _ op =>
    match op with
    | RandString runes _ => mkResp None 0 true (substring 0 1 runes) [] []
    | CreateTableIfNotExists _ _ => mkResp None 0 false "" [] []
    | _ => numResp n
    end.

(** The store [store n], except that the calls selected by [fails] return
    an error. *)
Definition failing (n : N) (fails : Op -> bool) : Oracle :=
  fun h op => if fails op then errResp "failed" else store n h op.

(** The store [store n], except that the count query answers [m]. *)
Definition miscounting (n m : N) : Oracle :=
  fun h op =>
    match op with
    | GetCount _ => numResp m
    | _ => store n h op
    end.

Definition options : TargetOptions :=
  mkTargetOptions (Some true) (Some false) None "" "" "" "".

Definition optionsSQL (pre post : string) : TargetOptions :=
  mkTargetOptions (Some true) (Some false) None "" "" pre post.

Definition source (pk : any) (updateKey : string) : Source :=
  mkSource "public.src" [] pk updateKey None.

Definition config (mode : Mode) (pk : any) (o : TargetOptions) : Config :=
  mkConfig (source pk "")
           (mkTarget "public.t" (Some o) false [])
           mode (mkConfigOptions false false)
           (mkConnection "SRC" TypeDbMySQL) (mkConnection "TGT" TypeDbSnowflake)
           false.

Definition dataflow (rows : list Row) : Dataflow :=
  mkDataflow [col 1 "id"; col 2 "name"] rows true [].

Definition task (cfg : Config) : TaskExecution := mkTaskExecution cfg.

(** A run of [WriteToDb] on a target of kind [ty], the task's configuration
    being the one passed. *)
Definition write (P : Platform) (ty : DbType) (o : Oracle) (cfg : Config)
           (df : Dataflow) : Log * Outcome :=
  run o (WriteToDb P (task cfg) ty cfg df).


End Demo.

(** How to find an event in a concrete trace. *)
Ltac in_trace := vm_compute; repeat (first [left; reflexivity | right]).

(* ===================================================================== *)
(** * C9: no stream columns *)
(* ===================================================================== *)

(** C9. When the dataflow has no column, [WriteToDb] returns the error
    "no stream columns detected" at once: the only call it makes is the
    deferred [t.PBar.Finish()], so no table is dropped or created and no
    statement reaches the target store; the configuration and the dataflow
    are left as they were. *)
Theorem WriteToDb_no_columns
        (P : Platform) (t : TaskExecution) (ty : DbType) (o : Oracle)
        (cfg : Config) (df : Dataflow) :
  df_Columns df = [] ->
  run o (WriteToDb P t ty cfg df)
  = ([(PBarFinish, o [] PBarFinish)],
     Returned (mkWState cfg df) 0 (Some (ErrNew "no stream columns detected" []))).
Proof.
  intros H. unfold run, WriteToDb. rewrite H. reflexivity.
Qed.

Lemma WriteToDb_no_columns_witness :
  run (Demo.store 3)
      (WriteToDb Demo.platform
         (Demo.task (Demo.config FullRefreshMode AnyNil Demo.options))
         TypeDbSnowflake (Demo.config FullRefreshMode AnyNil Demo.options)
         (mkDataflow [] [["1"; "Alice"]] true []))
  = ([(PBarFinish, Demo.numResp 3)],
     Returned (mkWState (Demo.config FullRefreshMode AnyNil Demo.options)
                        (mkDataflow [] [["1"; "Alice"]] true []))
              0 (Some (ErrNew "no stream columns detected" []))).
Proof.
  apply (WriteToDb_no_columns Demo.platform
           (Demo.task (Demo.config FullRefreshMode AnyNil Demo.options))
           TypeDbSnowflake (Demo.store 3)
           (Demo.config FullRefreshMode AnyNil Demo.options)
           (mkDataflow [] [["1"; "Alice"]] true [])).
  reflexivity.
Defined.

(* ===================================================================== *)
(** * C1: the staged count is verified before anything touches the final
      table *)
(* ===================================================================== *)

Definition rel1 (op : Op) : bool := negb (nameless op).

Definition P1 (tr : Log) (out : Outcome) : Prop :=
  forall tmp rb rc,
    In (BulkImportFlow tmp, rb) tr -> In (GetCount tmp, rc) tr ->
    r_num rb <> r_num rc ->
    returnsError out /\
    (forall opts r, ~ In (BeginContext (Some opts), r) tr) /\
    Forall (fun e => stagingOp tmp (fst e) = true) tr.

Lemma P1_observed (tr : Log) (out : Outcome) :
  P1 (observed rel1 tr) out -> P1 tr out.
Proof.
  unfold P1, observed. intros H tmp rb rc Hb Hc Hne.
  destruct (H tmp rb rc) as (He & Hn & Hf); auto.
  - apply filter_In; split; auto.
  - apply filter_In; split; auto.
  - split; [exact He | split].
    + intros opts r Hin. apply (Hn opts r). apply filter_In; split; auto.
    + rewrite Forall_forall in *. intros e He'.
      destruct (rel1 (fst e)) eqn:Hr.
      * apply Hf. apply filter_In; split; auto.
      * unfold rel1 in Hr. unfold stagingOp.
        destruct (nameless (fst e)); [reflexivity | discriminate].
Qed.

Ltac wstep1 :=
  cbn [bind deref check when call wpR rel1 nameless negb fst snd value app].

Ltac leaf1_concl :=
  first
    [ exfalso;
      match goal with
      | H : negb (?a =? ?b)%N = false |- _ =>
          apply negb_false_iff, N.eqb_eq in H; congruence
      end
    | split; [ unfold returnsError, g_Error; eauto
             | split; [ intros ? ? Hin; in_cases
                      | repeat constructor; unfold stagingOp; simpl;
                        rewrite ?String.eqb_refl; reflexivity ] ] ].

Ltac leaf1 :=
  idtac; intros ? ? ? Hb Hc Hne; in_cases; leaf1_concl.

Lemma WriteToDb_P1 P t ty cfg df :
  wpR rel1 (WriteToDb P t ty cfg df) (fun tr res => P1 tr (value res)).
Proof.
  unfold WriteToDb.
  apply wpR_defer_skip; [reflexivity|].
  repeat (wstep1;
          first [ solve [leaf1]
                | match goal with |- forall _ : Resp, _ => intros ? end
                | skip_with nameless leaf1
                | head_destruct_goal ]).
  eapply wpR_mono; [| apply allCalls_wpR, allCalls_afterCount ].
  simpl. intros tr res HF tmp rb rc Hb Hc Hne.
  pose proof (afterCount_not_staged HF) as Hno.
  exfalso. in_cases;
    try (now apply (proj1 (Hno _ _)) in Hb);
    try (now apply (proj2 (Hno _ _)) in Hc).
  match goal with
  | H : negb (_ =? _)%N = false |- _ => apply negb_false_iff, N.eqb_eq in H
  end.
  congruence.
Qed.

(** C1. In every run of [WriteToDb], if the count the store reports for the
    temp table after the bulk import differs from the count the bulk import
    returned, the function returns a non-nil error, no transaction with
    options (the one of the final write) is ever begun, and every call made
    during the run is a staging step on the temp table: nothing is issued
    against the final table. *)
Theorem count_mismatch_aborts
        (P : Platform) (t : TaskExecution) (ty : DbType) (o : Oracle)
        (cfg : Config) (df : Dataflow) (tmp : string) (rb rc : Resp) :
  In (BulkImportFlow tmp, rb) (trace o (WriteToDb P t ty cfg df)) ->
  In (GetCount tmp, rc) (trace o (WriteToDb P t ty cfg df)) ->
  r_num rb <> r_num rc ->
  returnsError (outcome o (WriteToDb P t ty cfg df)) /\
  (forall opts r,
      ~ In (BeginContext (Some opts), r) (trace o (WriteToDb P t ty cfg df))) /\
  Forall (fun e => stagingOp tmp (fst e) = true)
         (trace o (WriteToDb P t ty cfg df)).
Proof.
  intros Hb Hc Hne.
  pose proof (@P1_observed _ _ (wpR_run rel1 _ P1 o (WriteToDb_P1 P t ty cfg df))) as H.
  exact (H tmp rb rc Hb Hc Hne).
Qed.

Lemma count_mismatch_aborts_witness :
  returnsError
    (outcome (Demo.miscounting 3 2)
       (WriteToDb Demo.platform
          (Demo.task (Demo.config IncrementalMode (AnyString "id") Demo.options))
          TypeDbSnowflake
          (Demo.config IncrementalMode (AnyString "id") Demo.options)
          (Demo.dataflow [["1"; "Alice"]]))) /\
  (forall opts r,
      ~ In (BeginContext (Some opts), r)
           (trace (Demo.miscounting 3 2)
              (WriteToDb Demo.platform
                 (Demo.task (Demo.config IncrementalMode (AnyString "id") Demo.options))
                 TypeDbSnowflake
                 (Demo.config IncrementalMode (AnyString "id") Demo.options)
                 (Demo.dataflow [["1"; "Alice"]])))) /\
  Forall (fun e => stagingOp "public.t_TMP" (fst e) = true)
         (trace (Demo.miscounting 3 2)
            (WriteToDb Demo.platform
               (Demo.task (Demo.config IncrementalMode (AnyString "id") Demo.options))
               TypeDbSnowflake
               (Demo.config IncrementalMode (AnyString "id") Demo.options)
               (Demo.dataflow [["1"; "Alice"]]))).
Proof.
  apply (@count_mismatch_aborts Demo.platform
           (Demo.task (Demo.config IncrementalMode (AnyString "id") Demo.options))
           TypeDbSnowflake (Demo.miscounting 3 2)
           (Demo.config IncrementalMode (AnyString "id") Demo.options)
           (Demo.dataflow [["1"; "Alice"]])
           "public.t_TMP" (Demo.numResp 3) (Demo.numResp 2)).
  - in_trace.
  - in_trace.
  - simpl. discriminate.
Defined.

(* ===================================================================== *)
(** * C3: nothing staged, nothing merged *)
(* ===================================================================== *)

(** The steps of a pre-SQL or post-SQL block. *)
Definition sqlStep (op : Op) : bool :=
  match op with
  | GetSQLText _ | GetFormatMap | ExecMulti _ => true
  | _ => false
  end.

(** Staging steps on the temp table [tmp], SQL-block steps and the warning
    of line 299: none of them is a drop, create, truncate, insert or upsert
    that [WriteToDb] applies to the final table. *)
Definition quietOp (tmp : string) (op : Op) : bool :=
  stagingOp tmp op || sqlStep op || match op with Warn _ => true | _ => false end.

Definition P3 (tr : Log) (out : Outcome) : Prop :=
  forall tmp rb rc,
    In (BulkImportFlow tmp, rb) tr -> r_num rb = 0%N ->
    In (GetCount tmp, rc) tr -> r_num rc = 0%N ->
    (forall op r, In (op, r) tr -> sqlStep op = true -> r_err r = None) ->
    (exists st, out = Returned st 0 None) /\
    (forall opts r, ~ In (BeginContext (Some opts), r) tr) /\
    Forall (fun e => quietOp tmp (fst e) = true) tr.

Lemma P3_observed (tr : Log) (out : Outcome) :
  P3 (observed rel1 tr) out -> P3 tr out.
Proof.
  unfold P3, observed. intros H tmp rb rc Hb Hb0 Hc Hc0 Hs.
  destruct (H tmp rb rc) as (He & Hn & Hf); auto.
  - apply filter_In; split; auto.
  - apply filter_In; split; auto.
  - intros op r Hin. apply filter_In in Hin. apply Hs. tauto.
  - split; [exact He | split].
    + intros opts r Hin. apply (Hn opts r). apply filter_In; split; auto.
    + rewrite Forall_forall in *. intros e He'.
      destruct (rel1 (fst e)) eqn:Hr.
      * apply Hf. apply filter_In; split; auto.
      * unfold rel1 in Hr. unfold quietOp, stagingOp.
        destruct (nameless (fst e)); [reflexivity | discriminate].
Qed.

Section ZeroRows.
Variable P : Platform.
Hypothesis Hover : castToBool P (Getenv P "SLING_ALLOW_EMPTY_TABLES") = false.

Ltac sql_contra :=
  match goal with
  | Hs : forall op r, In (op, r) ?tr -> sqlStep op = true -> r_err r = None,
    He : r_err ?r = Some _ |- _ =>
      match tr with
      | context [(?op, r)] =>
          let H := fresh in
          assert (H : r_err r = None)
            by (apply (Hs op r); [simpl; tauto | reflexivity]);
          congruence
      end
  end.

Ltac leaf3_concl :=
  first
    [ exfalso;
      match goal with
      | H : negb (?a =? ?b)%N = true, Ha : ?a = 0%N, Hb : ?b = 0%N |- _ =>
          rewrite Ha, Hb in H; discriminate H
      end
    | exfalso; sql_contra
    | exfalso;
      match goal with
      | H : _ && (0 <? Datatypes.length _)%nat = true, Hbuf : df_Buffer _ = [] |- _ =>
          simpl in H; rewrite Hbuf in H; simpl in H;
          rewrite andb_false_r in H; discriminate H
      end
    | split; [ match goal with
               | H : r_num _ = 0%N |- exists _, Returned _ (r_num _) _ = _ =>
                   rewrite H; eauto
               end
             | split; [ intros ? ? Hin; in_cases
                      | repeat constructor; unfold quietOp, stagingOp; simpl;
                        rewrite ?String.eqb_refl; reflexivity ] ] ].

Ltac leaf3 :=
  idtac; intros ? ? ? Hb Hb0 Hc Hc0 Hs; in_cases; leaf3_concl.

Lemma WriteToDb_P3 t ty cfg df :
  df_Buffer df = [] ->
  wpR rel1 (WriteToDb P t ty cfg df) (fun tr res => P3 tr (value res)).
Proof.
  intros Hbuf. unfold WriteToDb.
  apply wpR_defer_skip; [reflexivity|].
  repeat (wstep1;
          first [ solve [leaf3]
                | match goal with |- forall _ : Resp, _ => intros ? end
                | match goal with
                  | |- wpR _ (bind (if negb (ds_Inferred _) then _ else _) _) _ =>
                      head_destruct_goal
                  | |- wpR _ (bind (if _ && negb (castToBool _ _) then _ else _) _) _ =>
                      fail 2
                  end
                | skip_with nameless leaf3
                | head_destruct_goal
                | progress unfold WriteToDb_preSQL, WriteToDb_checks
                | progress unfold check, when ]).
  all: wstep1; head_destruct_goal.
  all: repeat (wstep1;
          first [ solve [leaf3]
                | match goal with |- forall _ : Resp, _ => intros ? end ]).
  all: (eapply wpR_mono;
        [| apply allCalls_wpR with (good := afterCountOp); solve [all_calls] ]).
  all: simpl; intros tr res HF tmp rb rc Hb Hb0 Hc Hc0 Hs;
    pose proof (afterCount_not_staged HF) as Hno;
    exfalso; in_cases;
    try (now apply (proj1 (Hno _ _)) in Hb);
    try (now apply (proj2 (Hno _ _)) in Hc).
  all: match goal with
       | H : (r_num ?b =? 0)%N && _ = false, H0 : r_num ?b = 0%N |- _ =>
           rewrite H0, Hover in H; discriminate H
       end.
Qed.

(** C3 (amended). In every run of [WriteToDb] where the bulk import and the
    count query both report zero rows, the sample buffer of the dataflow is
    empty, every step of the pre-SQL block (if one is configured) succeeds
    and [SLING_ALLOW_EMPTY_TABLES] does not read as true: the function
    returns count 0 with a nil error, the final transaction is never begun,
    and every call of the run is a staging step on the temp table, a pre-SQL
    step or the warning; no drop, create, truncate, insert or upsert is
    applied to the final table. *)
Theorem zero_rows_skip_merge (t : TaskExecution) (ty : DbType) (o : Oracle)
        (cfg : Config) (df : Dataflow) (tmp : string) (rb rc : Resp) :
  df_Buffer df = [] ->
  In (BulkImportFlow tmp, rb) (trace o (WriteToDb P t ty cfg df)) ->
  r_num rb = 0%N ->
  In (GetCount tmp, rc) (trace o (WriteToDb P t ty cfg df)) ->
  r_num rc = 0%N ->
  (forall op r,
      In (op, r) (trace o (WriteToDb P t ty cfg df)) ->
      sqlStep op = true -> r_err r = None) ->
  (exists st, outcome o (WriteToDb P t ty cfg df) = Returned st 0 None) /\
  (forall opts r,
      ~ In (BeginContext (Some opts), r) (trace o (WriteToDb P t ty cfg df))) /\
  Forall (fun e => quietOp tmp (fst e) = true)
         (trace o (WriteToDb P t ty cfg df)).
Proof.
  intros Hbuf Hb Hb0 Hc Hc0 Hs.
  pose proof (@P3_observed _ _
                (wpR_run rel1 _ P3 o (@WriteToDb_P3 t ty cfg df Hbuf))) as H.
  exact (H tmp rb rc Hb Hb0 Hc Hc0 Hs).
Qed.
End ZeroRows.

(** C3 as stated fails on two guarded paths: zero rows staged while the
    sample buffer holds rows (lines 271-274), and a pre-SQL statement that
    fails (lines 291-295). In both runs zero rows are staged, the override is
    unset, and the function returns a non-nil error. *)
Lemma zero_rows_counterexample :
  (In (BulkImportFlow "public.t_TMP", Demo.numResp 0)
      (fst (Demo.write Demo.platform TypeDbSnowflake (Demo.store 0)
              (Demo.config FullRefreshMode AnyNil Demo.options)
              (Demo.dataflow [["1"; "Alice"]]))) /\
   castToBool Demo.platform (Getenv Demo.platform "SLING_ALLOW_EMPTY_TABLES") = false /\
   exists st,
     snd (Demo.write Demo.platform TypeDbSnowflake (Demo.store 0)
            (Demo.config FullRefreshMode AnyNil Demo.options)
            (Demo.dataflow [["1"; "Alice"]]))
     = Returned st 0
         (Some (ErrNew "Loaded 0 records while sample data has %d records. Exiting."
                       [ArgN 1]))) /\
  (In (BulkImportFlow "public.t_TMP", Demo.numResp 0)
      (fst (Demo.write Demo.platform TypeDbSnowflake
              (Demo.failing 0 (fun op => match op with ExecMulti _ => true | _ => false end))
              (Demo.config FullRefreshMode AnyNil (Demo.optionsSQL "delete from audit" ""))
              (Demo.dataflow []))) /\
   exists st e,
     snd (Demo.write Demo.platform TypeDbSnowflake
            (Demo.failing 0 (fun op => match op with ExecMulti _ => true | _ => false end))
            (Demo.config FullRefreshMode AnyNil (Demo.optionsSQL "delete from audit" ""))
            (Demo.dataflow []))
     = Returned st 0 (Some (ErrWrap e "could not execute pre-sql on target" []))).
Proof.
  split; [split; [| split] | split].
  - in_trace.
  - reflexivity.
  - eexists. vm_compute. reflexivity.
  - in_trace.
  - do 2 eexists. vm_compute. reflexivity.
Qed.

Lemma zero_rows_skip_merge_witness :
  (exists st,
      outcome (Demo.store 0)
        (WriteToDb Demo.platform
           (Demo.task (Demo.config FullRefreshMode AnyNil (Demo.optionsSQL "select 1" "")))
           TypeDbSnowflake
           (Demo.config FullRefreshMode AnyNil (Demo.optionsSQL "select 1" ""))
           (Demo.dataflow []))
      = Returned st 0 None) /\
  (forall opts r,
      ~ In (BeginContext (Some opts), r)
           (trace (Demo.store 0)
              (WriteToDb Demo.platform
                 (Demo.task (Demo.config FullRefreshMode AnyNil (Demo.optionsSQL "select 1" "")))
                 TypeDbSnowflake
                 (Demo.config FullRefreshMode AnyNil (Demo.optionsSQL "select 1" ""))
                 (Demo.dataflow [])))) /\
  Forall (fun e => quietOp "public.t_TMP" (fst e) = true)
         (trace (Demo.store 0)
            (WriteToDb Demo.platform
               (Demo.task (Demo.config FullRefreshMode AnyNil (Demo.optionsSQL "select 1" "")))
               TypeDbSnowflake
               (Demo.config FullRefreshMode AnyNil (Demo.optionsSQL "select 1" ""))
               (Demo.dataflow []))).
Proof.
  apply (@zero_rows_skip_merge Demo.platform eq_refl
           (Demo.task (Demo.config FullRefreshMode AnyNil (Demo.optionsSQL "select 1" "")))
           TypeDbSnowflake (Demo.store 0)
           (Demo.config FullRefreshMode AnyNil (Demo.optionsSQL "select 1" ""))
           (Demo.dataflow [])
           "public.t_TMP" (Demo.numResp 0) (Demo.numResp 0)).
  - reflexivity.
  - in_trace.
  - reflexivity.
  - in_trace.
  - reflexivity.
  - intros op r Hin _. vm_compute in Hin.
    repeat (destruct Hin as [Hin | Hin]; [inversion Hin; reflexivity |]).
    destruct Hin.
Defined.

(* ===================================================================== *)
(** * C4: the checksum comparison *)
(* ===================================================================== *)

(** The calls that C4 speaks about. *)
Definition rel4 (op : Op) : bool :=
  match op with
  | CompareChecksums _ _ | DfCount | DebugLow _ _ | BeginContext (Some _) => true
  | _ => false
  end.

Definition silent4 (op : Op) : bool := negb (rel4 op).

Section Checksum.
Variable P : Platform.

Definition P4 (tr : Log) (out : Outcome) : Prop :=
  forall x cols r,
    In (CompareChecksums x cols, r) tr ->
    (exists rc, In (DfCount, rc) tr /\ (r_num rc <= 10000)%N) /\
    (forall e,
        r_err r = Some e -> Getenv P "ERROR_ON_CHECKSUM_FAILURE" = "" ->
        (exists rl, In (DebugLow (g_ErrMsgSimple P e) [], rl) tr) /\
        (exists opts rb, In (BeginContext (Some opts), rb) tr)) /\
    (forall e,
        r_err r = Some e -> Getenv P "ERROR_ON_CHECKSUM_FAILURE" <> "" ->
        (exists st cnt, out = Returned st cnt (Some e)) /\
        (forall opts rb, ~ In (BeginContext (Some opts), rb) tr)).

Lemma P4_observed (tr : Log) (out : Outcome) :
  P4 (observed rel4 tr) out -> P4 tr out.
Proof.
  unfold P4, observed. intros H x cols r Hin.
  destruct (H x cols r) as (H1 & H2 & H3).
  { apply filter_In; split; auto. }
  split; [| split].
  - destruct H1 as (rc & Hrc & Hle). exists rc. split; auto.
    apply filter_In in Hrc. tauto.
  - intros e He Henv. destruct (H2 e He Henv) as [(rl & Hl) (opts & rb & Hb)].
    apply filter_In in Hl. apply filter_In in Hb. split; eauto.
    exists rl; tauto. exists opts, rb; tauto.
  - intros e He Henv. destruct (H3 e He Henv) as [Ho Hn].
    split; auto. intros opts rb Hb. apply (Hn opts rb).
    apply filter_In; split; auto.
Qed.

Lemma final_begins t ty cfg o df cnt target addNew adjust :
  wpR rel4 (WriteToDb_final P t ty cfg o df cnt target addNew adjust)
      (fun tr _ =>
         exists opts rb rest,
           tr = (BeginContext (Some opts), rb) :: rest /\
           Forall (fun e => finalOp (fst e) = true) rest).
Proof.
  unfold WriteToDb_final.
  cbn [bind call wpR rel4]. intros r.
  eapply wpR_mono; [| apply allCalls_wpR with (good := finalOp); solve [all_calls]].
  simpl. intros tr res HF. eauto.
Qed.

Ltac wstep4 :=
  cbn [bind deref check when call wpR rel4 negb fst snd value app].

Ltac find_in := simpl; repeat (first [left; reflexivity | right]).

Ltac same_error :=
  match goal with
  | H1 : r_err ?r = Some ?e1, H2 : r_err ?r = Some ?e2 |- _ =>
      rewrite H1 in H2; inversion H2; subst
  end.

Ltac leaf4 :=
  idtac; intros ? ? ? Hin; in_cases.

Lemma WriteToDb_P4 t ty cfg df :
  wpR rel4 (WriteToDb P t ty cfg df) (fun tr res => P4 tr (value res)).
Proof.
  unfold WriteToDb.
  apply wpR_defer_skip; [reflexivity|].
  repeat (wstep4;
          first [ solve [leaf4]
                | match goal with |- forall _ : Resp, _ => intros ? end
                | skip_with silent4 leaf4
                | match goal with
                  | |- wpR _ (WriteToDb_final _ _ _ _ _ _ _ _ _ _) _ => fail 2
                  end
                | head_destruct_goal
                | progress unfold WriteToDb_checks
                | progress unfold check, when ]).
  all: wstep4.
  all: try (eapply wpR_mono; [| apply final_begins];
            simpl; intros ? ? (? & ? & ? & -> & HF);
            rewrite Forall_forall in HF).
  all: intros ? ? ? Hin; in_cases;
    try (apply HF in Hin; discriminate Hin).
  all: try match goal with
           | H : negb (Getenv _ _ =? "") = true |- _ =>
               apply negb_true_iff, String.eqb_neq in H
           | H : negb (Getenv _ _ =? "") = false |- _ =>
               apply negb_false_iff, String.eqb_eq in H
           end.
  all: (split; [| split]);
    [ match goal with
      | H : (r_num ?rc <=? 10000)%N = true |- _ =>
          exists rc; split; [find_in | apply N.leb_le; exact H]
      end
    | intros ? He Henv; first [congruence | same_error; split; [eexists; find_in | do 2 eexists; find_in]]
    | intros ? He Henv; first [congruence | same_error; split; [eauto | intros ? ? Hb; in_cases]] ].
Qed.

(** C4. In every run of [WriteToDb], the checksum comparison on the temp
    table is made only after the dataflow reported a total count of at most
    10000 rows. When the comparison fails: if [ERROR_ON_CHECKSUM_FAILURE] is
    empty, the failure is logged ([g.DebugLow]) and the run goes on to the
    final write, whose transaction is begun; only if the variable is set
    does the function return that error, without beginning the final
    transaction. *)
Theorem checksum_policy (t : TaskExecution) (ty : DbType) (o : Oracle)
        (cfg : Config) (df : Dataflow) (x : string) (cols : Columns) (r : Resp) :
  In (CompareChecksums x cols, r) (trace o (WriteToDb P t ty cfg df)) ->
  (exists rc,
      In (DfCount, rc) (trace o (WriteToDb P t ty cfg df)) /\
      (r_num rc <= 10000)%N) /\
  (forall e,
      r_err r = Some e -> Getenv P "ERROR_ON_CHECKSUM_FAILURE" = "" ->
      (exists rl,
          In (DebugLow (g_ErrMsgSimple P e) [], rl)
             (trace o (WriteToDb P t ty cfg df))) /\
      (exists opts rb,
          In (BeginContext (Some opts), rb) (trace o (WriteToDb P t ty cfg df)))) /\
  (forall e,
      r_err r = Some e -> Getenv P "ERROR_ON_CHECKSUM_FAILURE" <> "" ->
      (exists st cnt, outcome o (WriteToDb P t ty cfg df) = Returned st cnt (Some e)) /\
      (forall opts rb,
          ~ In (BeginContext (Some opts), rb) (trace o (WriteToDb P t ty cfg df)))).
Proof.
  intros Hin.
  pose proof (@P4_observed _ _ (wpR_run rel4 _ P4 o (WriteToDb_P4 t ty cfg df))) as H.
  exact (H x cols r Hin).
Qed.
End Checksum.

Lemma checksum_policy_witness :
  (exists rc,
      In (DfCount, rc)
         (trace (Demo.failing 3 (fun op => match op with CompareChecksums _ _ => true | _ => false end))
            (WriteToDb Demo.platform
               (Demo.task (Demo.config SnapshotMode AnyNil Demo.options))
               TypeDbSnowflake (Demo.config SnapshotMode AnyNil Demo.options)
               (Demo.dataflow [["1"; "Alice"]]))) /\
      (r_num rc <= 10000)%N) /\
  (forall e,
      r_err (Demo.errResp "failed") = Some e ->
      Getenv Demo.platform "ERROR_ON_CHECKSUM_FAILURE" = "" ->
      (exists rl,
          In (DebugLow (g_ErrMsgSimple Demo.platform e) [], rl)
             (trace (Demo.failing 3 (fun op => match op with CompareChecksums _ _ => true | _ => false end))
                (WriteToDb Demo.platform
                   (Demo.task (Demo.config SnapshotMode AnyNil Demo.options))
                   TypeDbSnowflake (Demo.config SnapshotMode AnyNil Demo.options)
                   (Demo.dataflow [["1"; "Alice"]])))) /\
      (exists opts rb,
          In (BeginContext (Some opts), rb)
             (trace (Demo.failing 3 (fun op => match op with CompareChecksums _ _ => true | _ => false end))
                (WriteToDb Demo.platform
                   (Demo.task (Demo.config SnapshotMode AnyNil Demo.options))
                   TypeDbSnowflake (Demo.config SnapshotMode AnyNil Demo.options)
                   (Demo.dataflow [["1"; "Alice"]]))))) /\
  (forall e,
      r_err (Demo.errResp "failed") = Some e ->
      Getenv Demo.platform "ERROR_ON_CHECKSUM_FAILURE" <> "" ->
      (exists st cnt,
          outcome (Demo.failing 3 (fun op => match op with CompareChecksums _ _ => true | _ => false end))
            (WriteToDb Demo.platform
               (Demo.task (Demo.config SnapshotMode AnyNil Demo.options))
               TypeDbSnowflake (Demo.config SnapshotMode AnyNil Demo.options)
               (Demo.dataflow [["1"; "Alice"]]))
          = Returned st cnt (Some e)) /\
      (forall opts rb,
          ~ In (BeginContext (Some opts), rb)
               (trace (Demo.failing 3 (fun op => match op with CompareChecksums _ _ => true | _ => false end))
                  (WriteToDb Demo.platform
                     (Demo.task (Demo.config SnapshotMode AnyNil Demo.options))
                     TypeDbSnowflake (Demo.config SnapshotMode AnyNil Demo.options)
                     (Demo.dataflow [["1"; "Alice"]]))))).
Proof.
  apply (@checksum_policy Demo.platform
           (Demo.task (Demo.config SnapshotMode AnyNil Demo.options))
           TypeDbSnowflake
           (Demo.failing 3 (fun op => match op with CompareChecksums _ _ => true | _ => false end))
           (Demo.config SnapshotMode AnyNil Demo.options)
           (Demo.dataflow [["1"; "Alice"]])
           "public.t_TMP" [Demo.col 1 "id"; Demo.col 2 "name"] (Demo.errResp "failed")).
  in_trace.
Defined.

(* ===================================================================== *)
(** * Results of blocks, and the final write seen through its statements *)
(* ===================================================================== *)

Section Results.
Context {R : Type}.

(** [wpRes p S]: however [p] ends, the way it ends satisfies [S]. *)
Fixpoint wpRes {A : Type} (p : Prog R A) (S : A + R -> Prop) : Prop :=
  match p with
  | Pure a => S (inl a)
  | Exit r => S (inr r)
  | Call op k => forall r : Resp, wpRes (k r) S
  end.

Lemma wpRes_bind {A B : Type} (p : Prog R A) (f : A -> Prog R B)
      (S : B + R -> Prop) :
  wpRes p (fun res => match res with
                      | inl a => wpRes (f a) S
                      | inr r => S (inr r)
                      end) ->
  wpRes (bind p f) S.
Proof.
  induction p as [a | r | op k IH]; simpl; auto.
Qed.

Lemma wpRes_wpR {A : Type} (rel : Op -> bool) (p : Prog R A) (S : A + R -> Prop) :
  wpRes p S -> wpR rel p (fun _ res => S res).
Proof.
  induction p as [a | r | op k IH]; simpl; auto.
  intros H r. destruct (rel op); apply IH, H.
Qed.

Lemma wpR_conj {A : Type} (rel : Op -> bool) (p : Prog R A)
      (Q1 Q2 : Log -> A + R -> Prop) :
  wpR rel p Q1 -> wpR rel p Q2 ->
  wpR rel p (fun tr res => Q1 tr res /\ Q2 tr res).
Proof.
  revert Q1 Q2. induction p as [a | r | op k IH]; simpl; auto.
  intros Q1 Q2 H1 H2 r. specialize (H1 r). specialize (H2 r).
  destruct (rel op); apply IH; assumption.
Qed.
End Results.

(** What [WriteToDb_prepareFinal] leaves of the configuration. *)
Lemma prepareFinal_preserves P ty cfg o df cnt target addNew adjust :
  wpRes (WriteToDb_prepareFinal P ty cfg o df cnt target addNew adjust)
        (fun res =>
           match res with
           | inl cd => cfg_Mode (fst cd) = cfg_Mode cfg /\
                       cfg_Source (fst cd) = cfg_Source cfg
           | inr _ => True
           end).
Proof.
  unfold WriteToDb_prepareFinal, when, check.
  repeat first
    [ exact I
    | split; reflexivity
    | match goal with
      | |- wpRes (bind _ _) _ => apply wpRes_bind
      | |- wpRes (match ?x with _ => _ end) _ => destruct x
      | |- forall _, _ => intros ?
      end
    | progress simpl ].
Qed.

Definition relF (op : Op) : bool :=
  match op with
  | BeginContext (Some _) | Commit | Rollback | DropTable _ | SwapTable _ _
  | InsertFromTemp _ _ | Exec _ | Upsert _ _ _ | GetSQLText _ | GetFormatMap
  | ExecMulti _ | BulkImportFlow _ | DfErr => true
  | _ => false
  end.

Definition silentF (op : Op) : bool := negb (relF op).

Ltac wstepF :=
  cbn [bind deref check when call wpR relF negb fst snd value app].

(** Under [relF], [WriteToDb_prepareFinal] shows at most the drop of the
    final table, in full-refresh mode. *)
Lemma prepareFinal_relF P ty cfg o df cnt target addNew adjust :
  wpR relF (WriteToDb_prepareFinal P ty cfg o df cnt target addNew adjust)
      (fun tr res =>
         (tr = [] \/
          exists r, tr = [(DropTable target, r)] /\ cfg_Mode cfg = FullRefreshMode) /\
         match res with
         | inl cd => cfg_Mode (fst cd) = cfg_Mode cfg /\
                     cfg_Source (fst cd) = cfg_Source cfg
         | inr _ => True
         end).
Proof.
  apply wpR_conj; [| apply wpRes_wpR, prepareFinal_preserves].
  unfold WriteToDb_prepareFinal.
  destruct (cfg_Mode cfg =? FullRefreshMode) eqn:Hm.
  - apply String.eqb_eq in Hm.
    wstepF. intros d. 
    eapply wpR_mono; [| eapply wpR_silent with (good := silentF); [solve [all_calls] | ] ].
    + simpl. intros tr res ->. right. eauto.
    + intros op H. apply negb_true_iff in H. exact H.
  - cbn [when].
    eapply wpR_mono; [| eapply wpR_silent with (good := silentF); [solve [all_calls] | ] ].
    + simpl. intros tr res ->. left. reflexivity.
    + intros op H. apply negb_true_iff in H. exact H.
Qed.

(* ===================================================================== *)
(** * C2: the merge strategy *)
(* ===================================================================== *)






(** [cfg] after lines 131-133: an empty mode is full refresh. *)
Definition defaultMode (cfg : Config) : Config :=
  if (cfg_Mode cfg =? "")%string then set_Mode cfg FullRefreshMode else cfg.


Section Strategy.
Variable P : Platform.
Variable t : TaskExecution.
Variable ty : DbType.













End Strategy.


(* ===================================================================== *)
(** * C5 and C8: the transaction of the final write *)
(* ===================================================================== *)

(** The calls made after the transaction of the final write was begun. *)
Fixpoint finalWrite (tr : Log) : Log :=
  match tr with
  | [] => []
  | (BeginContext (Some _), _) :: rest => rest
  | _ :: rest => finalWrite rest
  end.

Lemma finalWrite_observed (tr : Log) :
  finalWrite (observed relF tr) = observed relF (finalWrite tr).
Proof.
  unfold observed. induction tr as [| [op r] tr IH]; simpl; auto.
  destruct op; simpl; auto.
  destruct opts; simpl; auto.
Qed.

Lemma In_finalWrite_observed (e : Event) (tr : Log) :
  relF (fst e) = true ->
  In e (finalWrite tr) -> In e (finalWrite (observed relF tr)).
Proof.
  intros Hr Hin. rewrite finalWrite_observed. apply filter_In. auto.
Qed.

Lemma In_observed_finalWrite (e : Event) (tr : Log) :
  In e (finalWrite (observed relF tr)) -> In e (finalWrite tr).
Proof.
  rewrite finalWrite_observed. intros Hin. apply filter_In in Hin. tauto.
Qed.


(** A postcondition that always holds. *)
Lemma wpR_trivial {R A : Type} (rel : Op -> bool) (p : Prog R A)
      (Q : Log -> A + R -> Prop) :
  (forall tr res, Q tr res) -> wpR rel p Q.
Proof.
  revert Q. induction p as [a | r | op k IH]; simpl; intros Q H; auto.
  intros r. destruct (rel op); apply IH; auto.
Qed.




(** The merge statements and the steps of the post-SQL block. *)
Definition failStep (op : Op) : bool :=
  match op with
  | Exec _ | InsertFromTemp _ _ | Upsert _ _ _
  | GetSQLText _ | GetFormatMap | ExecMulti _ => true
  | _ => false
  end.

(** The function returns the error [e] wrapped with a message. *)
Definition wraps (e : error) (out : Outcome) : Prop :=
  exists st cnt msg args, out = Returned st cnt (Some (ErrWrap e msg args)).

Definition F5 (tr : Log) (out : Outcome) : Prop :=
  forall op r e,
    In (op, r) (finalWrite tr) -> failStep op = true -> r_err r = Some e ->
    wraps e out /\
    (exists r1, In (Rollback, r1) (finalWrite tr)) /\
    (forall r2, ~ In (Commit, r2) (finalWrite tr)).

Lemma F5_observed (tr : Log) (out : Outcome) :
  F5 (observed relF tr) out -> F5 tr out.
Proof.
  unfold F5. intros H op r e Hin Hf He.
  destruct (H op r e) as (H1 & (r1 & H2) & H3); auto.
  - apply In_finalWrite_observed; auto.
    destruct op; simpl in *; try discriminate; reflexivity.
  - split; [exact H1 | split].
    + exists r1. apply In_observed_finalWrite; auto.
    + intros r2 Hc. apply (H3 r2). apply In_finalWrite_observed; auto.
Qed.

Ltac same_err :=
  match goal with
  | H1 : r_err ?r = Some ?e1, H2 : r_err ?r = Some ?e2 |- _ =>
      rewrite H1 in H2; inversion H2; subst
  end.

Ltac find_ev := cbn [finalWrite app]; simpl; repeat (first [left; reflexivity | right]).

Section Rollback.
Variable P : Platform.
Variable t : TaskExecution.
Variable ty : DbType.

Ltac leaf5 :=
  idtac; intros; unfold F5; intros ? ? ? Hin Hf He;
  cbn [finalWrite app] in Hin; in_cases;
  simpl in Hf; try discriminate Hf;
  first
    [ congruence
    | same_err;
      split; [ unfold wraps, g_Error_wrap; do 4 eexists; reflexivity
             | split; [ eexists; find_ev
                      | intros ? Hc; cbn [finalWrite app] in Hc; in_cases ] ] ].

Lemma final_rollback cfg o df cnt target addNew adjust :
  wpR relF (WriteToDb_final P t ty cfg o df cnt target addNew adjust)
      (fun tr res => F5 tr (value res)).
Proof.
  unfold WriteToDb_final. wstepF. intros b.
  unfold check at 1. destruct (r_err b); wstepF; [solve [leaf5] |].
  apply wpR_defer_obs; [reflexivity |].
  eapply wpR_seq; [apply prepareFinal_relF | |].
  2:{ intros tr r [[-> | (d & -> & _)] _]; solve [leaf5]. }
  intros tr [cfg' df'] [Hshape _].
  cbn [fst snd] in *.
  unfold WriteToDb_merge.
  destruct Hshape as [-> | (d & -> & _)];
    repeat (wstepF;
            first [ solve [leaf5]
                  | match goal with |- forall _ : Resp, _ => intros ? end
                  | head_destruct_goal
                  | progress unfold WriteToDb_postSQL
                  | progress unfold check, when ]).
Qed.

(** In the final write, a table is dropped only in full-refresh mode, and it
    is the final table, or in the swap branch. *)
Definition F8 (mode : Mode) (target : string) (tr : Log) : Prop :=
  forall x rx,
    In (DropTable x, rx) (finalWrite tr) ->
    (x = target /\ mode = FullRefreshMode) \/ mode = SwapModeLiteral.

Ltac leaf8 :=
  idtac; intros; unfold F8; intros;
  match goal with
  | Hin : In (DropTable _, _) _ |- _ => cbn [finalWrite app] in Hin
  end; in_cases;
  first [ left; split; [reflexivity | assumption]
        | right; apply String.eqb_eq; assumption ].

Lemma final_drops cfg o df cnt target addNew adjust :
  wpR relF (WriteToDb_final P t ty cfg o df cnt target addNew adjust)
      (fun tr _ => F8 (cfg_Mode cfg) target tr).
Proof.
  unfold WriteToDb_final. wstepF. intros b.
  unfold check at 1. destruct (r_err b); wstepF; [solve [leaf8] |].
  apply wpR_defer_obs; [reflexivity |].
  eapply wpR_seq; [apply prepareFinal_relF | |].
  2:{ intros tr r [[-> | (d & -> & Hfr)] _]; solve [leaf8]. }
  intros tr [cfg' df'] [Hshape [Hmode _]].
  cbn [fst snd] in *.
  unfold WriteToDb_merge. rewrite Hmode.
  destruct Hshape as [-> | (d & -> & Hfr)];
    repeat (wstepF;
            first [ solve [leaf8]
                  | match goal with |- forall _ : Resp, _ => intros ? end
                  | head_destruct_goal
                  | progress unfold WriteToDb_postSQL
                  | progress unfold check, when ]).
Qed.

Definition PF (cfg : Config) (tr : Log) (out : Outcome) : Prop :=
  F5 tr out /\ F8 (cfg_Mode (defaultMode cfg)) (tgt_Object (cfg_Target cfg)) tr.

Lemma PF_observed cfg (tr : Log) (out : Outcome) :
  PF cfg (observed relF tr) out -> PF cfg tr out.
Proof.
  intros [H5 H8]. split; [apply F5_observed; exact H5 |].
  intros x rx Hin. apply (H8 x rx).
  apply In_finalWrite_observed; auto.
Qed.

Ltac leafF :=
  idtac; unfold PF, F5, F8; split; intros;
  match goal with
  | Hin : In _ (finalWrite _) |- _ => cbn [finalWrite app] in Hin
  end; in_cases.

Lemma WriteToDb_PF cfg df :
  wpR relF (WriteToDb P t ty cfg df) (fun tr res => PF cfg tr (value res)).
Proof.
  unfold WriteToDb.
  apply wpR_defer_skip; [reflexivity |].
  repeat (wstepF;
          first [ solve [leafF]
                | match goal with |- forall _ : Resp, _ => intros ? end
                | skip_with silentF leafF
                | match goal with
                  | |- wpR _ (WriteToDb_final _ _ _ _ _ _ _ _ _ _) _ => fail 2
                  end
                | head_destruct_goal
                | progress unfold WriteToDb_preSQL
                | progress unfold check, when ]).
  all: wstepF.
  all: eapply wpR_mono;
    [| apply wpR_conj; [apply final_rollback | apply final_drops] ];
    cbn beta; intros ? ? [H5 H8]; split; [exact H5 | exact H8].
Qed.







End Rollback.





(* ===================================================================== *)
(** * C6: the name of the temp table *)
(* ===================================================================== *)

Lemma allCalls_exec {R A : Type} (good : Op -> bool) (p : Prog R A) :
  allCalls good p ->
  forall (o : Oracle) (h : Log),
    Forall (fun e => good (fst e) = true) (fst (exec o p h)).
Proof.
  induction p as [a | r | op k IH]; simpl; intros H o h; auto.
  destruct H as [Hop Hk].
  specialize (IH (o h op) (Hk _) o ((op, o h op) :: h)).
  destruct (exec o (k (o h op)) ((op, o h op) :: h)) as [tr res].
  simpl in *. constructor; assumption.
Qed.

Lemma substring_length_le (n : nat) (s : string) :
  String.length (substring 0 n s) <= n.
Proof.
  revert s. induction n as [| n IH]; intros [| c s]; simpl; try lia.
  specialize (IH s). lia.
Qed.

Lemma substring_prefix (n : nat) (s : string) :
  String.prefix (substring 0 n s) s = true.
Proof.
  revert s. induction n as [| n IH]; intros [| c s]; simpl; try reflexivity.
  destruct (ascii_dec c c) as [_ | Hne]; [apply IH | destruct Hne; reflexivity].
Qed.

Lemma prefix_refl (s : string) : String.prefix s s = true.
Proof.
  induction s as [| c s IH]; simpl; [reflexivity |].
  destruct (ascii_dec c c) as [_ | Hne]; [exact IH | destruct Hne; reflexivity].
Qed.

(** Every operation but [g.RandString]. *)
Definition notRandom (op : Op) : bool :=
  match op with RandString _ _ => false | _ => true end.

(** [lo.Ternary(tgtConn.GetType().DBNameUpperCase(), "_TMP", "_tmp")] *)
Definition casedSuffix (P : Platform) (ty : DbType) : string :=
  if DBNameUpperCase P ty then "_TMP" else "_tmp".

(** [tableTmp.Name[:24]] when the name is longer than 24 bytes. *)
Definition oracleBase (name : string) : string :=
  if (24 <? String.length name)%nat then substring 0 24 name else name.

Lemma oracleBase_length (name : string) : String.length (oracleBase name) <= 24.
Proof.
  unfold oracleBase. destruct (24 <? String.length name)%nat eqn:H.
  - apply substring_length_le.
  - apply Nat.ltb_ge in H. exact H.
Qed.

Lemma oracleBase_prefix (name : string) :
  strings.HasPrefix name (oracleBase name) = true.
Proof.
  unfold oracleBase, strings.HasPrefix. destruct (24 <? String.length name)%nat.
  - apply substring_prefix.
  - apply prefix_refl.
Qed.

Section TempTable.

Variable P : Platform.
Variable t : TaskExecution.
Variable ty : DbType.
Variables (cfg : Config) (df : Dataflow) (opts : TargetOptions) (tbl : Table).

Hypothesis Hcols : df_Columns df <> [].
Hypothesis Hopts : tgt_Options (cfg_Target cfg) = Some opts.
Hypothesis Htmp : to_TableTmp opts = "".
Hypothesis Hparse : ParseTableName P (tgt_Object (cfg_Target cfg)) ty = inr tbl.

(** What C6 says of the calls [tr] of a run. *)
Definition P6 (tr : Log) : Prop :=
  (ty <> TypeDbOracle ->
   exists r rest,
     tr = (DropTable (FullName P (set_tbl_Name tbl (tbl_Name tbl ++ casedSuffix P ty))), r)
            :: rest /\
     Forall (fun e => notRandom (fst e) = true) rest) /\
  (ty = TypeDbOracle ->
   exists r1 r2 r rest,
     tr = (RandString (NumericRunes P) 1, r1)
            :: (RandString (AplhanumericRunes P) 1, r2)
            :: (DropTable
                  (FullName P
                     (set_tbl_Name tbl
                        (oracleBase (tbl_Name tbl)
                           ++ (casedSuffix P ty
                                 ++ (if DBNameUpperCase P ty
                                     then strings.ToUpper (r_str r1 ++ r_str r2)
                                     else strings.ToLower (r_str r1 ++ r_str r2)))))), r)
            :: rest /\
     Forall (fun e => notRandom (fst e) = true) rest).

Lemma WriteToDb_P6 :
  wpR everyOp (WriteToDb P t ty cfg df) (fun tr _ => P6 tr).
Proof.
  unfold WriteToDb.
  apply wpR_defer_obs; [reflexivity |].
  destruct (df_Columns df) as [| c0 cols] eqn:Hc; [congruence |].
  cbn [List.length Nat.eqb].
  rewrite Hopts. cbn [deref bind].
  unfold WriteToDb_tableTmp. rewrite Htmp, Hparse.
  cbn [String.eqb].
  unfold DbType_eqb.
  destruct (DbType_eq_dec ty TypeDbOracle) as [Hty | Hty].
  - (* Oracle *)
    cbn [bind call wpR everyOp]. intros r1 r2.
    cbn [bind call wpR everyOp fst snd to_TableTmp set_TableTmp]. intros d.
    eapply wpR_mono;
      [| apply allCalls_wpR with (good := notRandom); all_calls].
    cbn beta. intros tr res HF rd. split; [intros Hne; contradiction |].
    intros _. exists r1, r2, d, (tr ++ [(PBarFinish, rd)]).
    split; [reflexivity |].
    apply Forall_app; split; [exact HF | repeat constructor].
  - cbn [bind call wpR everyOp fst snd to_TableTmp set_TableTmp]. intros d.
    eapply wpR_mono;
      [| apply allCalls_wpR with (good := notRandom); all_calls].
    cbn beta. intros tr res HF rd. split; [| intros He; contradiction].
    intros _. exists d, (tr ++ [(PBarFinish, rd)]).
    split; [reflexivity |].
    apply Forall_app; split; [exact HF | repeat constructor].
Qed.

End TempTable.

(** C6. When the options give no temp table and the target name parses to
    [tbl], the temp table of the run (the table it drops first, then creates
    and loads) is named by [tbl] with its name extended: on a store other
    than Oracle by ["_TMP"] when the store upper-cases names and ["_tmp"]
    otherwise, without any call of [g.RandString] in the run; on Oracle by
    the same suffix and the two random strings, in the store's casing, after
    the name was cut to its first 24 bytes. *)
Theorem temp_table_name (P : Platform) (t : TaskExecution) (ty : DbType)
        (o : Oracle) (cfg : Config) (df : Dataflow) (opts : TargetOptions)
        (tbl : Table) :
  df_Columns df <> [] ->
  tgt_Options (cfg_Target cfg) = Some opts ->
  to_TableTmp opts = "" ->
  ParseTableName P (tgt_Object (cfg_Target cfg)) ty = inr tbl ->
  (ty <> TypeDbOracle ->
   exists r rest,
     trace o (WriteToDb P t ty cfg df)
     = (DropTable (FullName P (set_tbl_Name tbl (tbl_Name tbl ++ casedSuffix P ty))), r)
         :: rest /\
     Forall (fun e => notRandom (fst e) = true) rest) /\
  (ty = TypeDbOracle ->
   exists r1 r2 r rest,
     trace o (WriteToDb P t ty cfg df)
     = (RandString (NumericRunes P) 1, r1)
         :: (RandString (AplhanumericRunes P) 1, r2)
         :: (DropTable
               (FullName P
                  (set_tbl_Name tbl
                     (oracleBase (tbl_Name tbl)
                        ++ (casedSuffix P ty
                              ++ (if DBNameUpperCase P ty
                                  then strings.ToUpper (r_str r1 ++ r_str r2)
                                  else strings.ToLower (r_str r1 ++ r_str r2)))))), r)
         :: rest /\
     Forall (fun e => notRandom (fst e) = true) rest) /\
  String.length (oracleBase (tbl_Name tbl)) <= 24 /\
  strings.HasPrefix (tbl_Name tbl) (oracleBase (tbl_Name tbl)) = true.
Proof.
  intros Hcols Hopts Htmp Hparse.
  pose proof (wpR_run everyOp (WriteToDb P t ty cfg df)
                (fun tr _ => P6 P ty tbl tr) o
                (@WriteToDb_P6 P t ty cfg df opts tbl Hcols Hopts Htmp Hparse)) as H.
  rewrite observed_everyOp in H. destruct H as [H1 H2].
  split; [exact H1 | split; [exact H2 | split]].
  - apply oracleBase_length.
  - apply oracleBase_prefix.
Qed.

Lemma temp_table_name_witness :
  (exists r rest,
      trace (Demo.store 3)
        (WriteToDb Demo.platform
           (Demo.task (Demo.config FullRefreshMode AnyNil Demo.options))
           TypeDbSnowflake (Demo.config FullRefreshMode AnyNil Demo.options)
           (Demo.dataflow [["1"; "Alice"]]))
      = (DropTable "public.t_TMP", r) :: rest /\
      Forall (fun e => notRandom (fst e) = true) rest) /\
  (exists r rest,
      trace (Demo.store 3)
        (WriteToDb Demo.platform
           (Demo.task (Demo.config FullRefreshMode AnyNil Demo.options))
           TypeDbMySQL (Demo.config FullRefreshMode AnyNil Demo.options)
           (Demo.dataflow [["1"; "Alice"]]))
      = (DropTable "public.t_tmp", r) :: rest /\
      Forall (fun e => notRandom (fst e) = true) rest) /\
  (exists r1 r2 r rest,
      trace (Demo.store 3)
        (WriteToDb Demo.platform
           (Demo.task (Demo.config FullRefreshMode AnyNil Demo.options))
           TypeDbOracle (Demo.config FullRefreshMode AnyNil Demo.options)
           (Demo.dataflow [["1"; "Alice"]]))
      = (RandString "1234567890" 1, r1)
          :: (RandString "abcdefghijklmnopqrstuvwxyzABCDEFGHIJKLMNOPQRSTUVWXYZ1234567890" 1, r2)
          :: (DropTable ("public.t" ++ ("_TMP" ++ strings.ToUpper (r_str r1 ++ r_str r2))), r)
          :: rest /\
      Forall (fun e => notRandom (fst e) = true) rest).
Proof.
  split; [| split].
  - apply (proj1 (@temp_table_name Demo.platform
                    (Demo.task (Demo.config FullRefreshMode AnyNil Demo.options))
                    TypeDbSnowflake (Demo.store 3)
                    (Demo.config FullRefreshMode AnyNil Demo.options)
                    (Demo.dataflow [["1"; "Alice"]]) Demo.options
                    (mkTable "" "public.t" [])
                    ltac:(discriminate) eq_refl eq_refl eq_refl)).
    discriminate.
  - apply (proj1 (@temp_table_name Demo.platform
                    (Demo.task (Demo.config FullRefreshMode AnyNil Demo.options))
                    TypeDbMySQL (Demo.store 3)
                    (Demo.config FullRefreshMode AnyNil Demo.options)
                    (Demo.dataflow [["1"; "Alice"]]) Demo.options
                    (mkTable "" "public.t" [])
                    ltac:(discriminate) eq_refl eq_refl eq_refl)).
    discriminate.
  - apply (proj1 (proj2 (@temp_table_name Demo.platform
                    (Demo.task (Demo.config FullRefreshMode AnyNil Demo.options))
                    TypeDbOracle (Demo.store 3)
                    (Demo.config FullRefreshMode AnyNil Demo.options)
                    (Demo.dataflow [["1"; "Alice"]]) Demo.options
                    (mkTable "" "public.t" [])
                    ltac:(discriminate) eq_refl eq_refl eq_refl))).
    reflexivity.
Defined.

(* ===================================================================== *)
(** * C7: [DetermineType] *)
(* ===================================================================== *)

Definition theModes : list Mode :=
  [FullRefreshMode; IncrementalMode; BackfillMode; SnapshotMode; TruncateMode].

Lemma g_In_false (m : Mode) (ms : list Mode) : ~ In m ms -> g_In m ms = false.
Proof.
  unfold g_In. induction ms as [| a ms IH]; intros H; simpl; [reflexivity |].
  destruct (String.eqb_spec m a) as [-> | Hne].
  - destruct H. left; reflexivity.
  - apply IH. intros Hin. apply H. right; exact Hin.
Qed.

(** The error of [DetermineType]. *)
Definition DetermineType_err (P : Platform) (cfg : Config) : option error :=
  snd (DetermineType P cfg).

(** What is left of the checks of backfill mode when they pass. *)
Definition backfillReady (P : Platform) (cfg : Config) : Prop :=
  src_UpdateKey (cfg_Source cfg) <> "" /\
  PrimaryKey P (cfg_Source cfg) <> [] /\
  exists so range,
    src_Options (cfg_Source cfg) = Some so /\
    so_Range so = Some range /\
    List.length (strings.Split range ",") = 2.

Lemma DetermineType_empty_mode (P : Platform) (cfg : Config) :
  cfg_Mode cfg = "" ->
  DetermineType P cfg = DetermineType P (set_Mode cfg FullRefreshMode).
Proof.
  intros Hm. unfold DetermineType. rewrite Hm. reflexivity.
Qed.

(** Case analysis on the innermost condition of the goal. *)
Ltac inner_destruct :=
  match goal with
  | |- context [if ?c then _ else _] =>
      lazymatch c with
      | context [if _ then _ else _] => fail
      | context [match _ with _ => _ end] => fail
      | _ => destruct c eqn:?
      end
  | |- context [match ?c with _ => _ end] =>
      lazymatch c with
      | context [if _ then _ else _] => fail
      | context [match _ with _ => _ end] => fail
      | _ => destruct c eqn:?
      end
  end.

Ltac all_paths := repeat (inner_destruct; cbn beta iota).

Lemma DetermineType_mode (P : Platform) (cfg : Config) :
  cfg_Mode cfg <> "" ->
  cfg_Mode (fst (fst (DetermineType P cfg))) = cfg_Mode cfg.
Proof.
  intros Hm. unfold DetermineType.
  destruct (String.eqb_spec (cfg_Mode cfg) "") as [He | _]; [contradiction |].
  cbv zeta. all_paths; reflexivity.
Qed.

Lemma DetermineType_valid_mode (P : Platform) (cfg : Config) :
  In (cfg_Mode cfg) theModes ->
  DetermineType_err P cfg <> Some errInvalidMode.
Proof.
  intros Hin. unfold DetermineType_err, DetermineType.
  assert (Hne : (cfg_Mode cfg =? "") = false).
  { apply String.eqb_neq. intros He. rewrite He in Hin. simpl in Hin.
    repeat (destruct Hin as [Hin | Hin]; [discriminate Hin |]). exact Hin. }
  assert (Hv : g_In (cfg_Mode cfg) theModes = true).
  { unfold g_In. apply existsb_exists. exists (cfg_Mode cfg).
    split; [exact Hin | apply String.eqb_refl]. }
  rewrite Hne. cbv zeta. fold theModes. rewrite Hv. cbn [negb].
  all_paths; cbn [snd]; unfold errInvalidMode, errIncrementalKeys, errBackfillKeys,
    errBackfillRange, errBackfillRangeValue, invalidTaskError; discriminate.
Qed.

(** C7. [DetermineType], a function of the configuration alone: a mode that
    is neither empty nor one of the five literals gives the error "must
    specify valid mode"; the empty mode is read as full-refresh, and neither
    it nor a literal is rejected as invalid; incremental mode with no update
    key and no primary key, on a source that is neither BigTable nor a file,
    gives the error of incremental mode; and backfill mode gives one of its
    three errors unless an update key, a primary key and a range that
    [strings.Split] cuts at commas into exactly two parts are all given. *)
Theorem DetermineType_validation (P : Platform) (cfg : Config) :
  (* a mode outside the five literals *)
  (cfg_Mode cfg <> "" -> ~ In (cfg_Mode cfg) theModes ->
   DetermineType P cfg = (cfg, JobNone, Some errInvalidMode)) /\
  (* the empty mode is full-refresh *)
  (cfg_Mode cfg = "" ->
   DetermineType P cfg = DetermineType P (set_Mode cfg FullRefreshMode) /\
   cfg_Mode (fst (fst (DetermineType P cfg))) = FullRefreshMode) /\
  (cfg_Mode cfg = "" \/ In (cfg_Mode cfg) theModes ->
   DetermineType_err P cfg <> Some errInvalidMode) /\
  (* incremental mode without keys *)
  (cfg_Mode cfg = IncrementalMode ->
   conn_Type (cfg_SrcConn cfg) <> TypeDbBigTable ->
   sourceIsFile P cfg = false ->
   src_UpdateKey (cfg_Source cfg) = "" ->
   PrimaryKey P (cfg_Source cfg) = [] ->
   DetermineType P cfg = (cfg, JobNone, Some errIncrementalKeys)) /\
  (* backfill mode *)
  (cfg_Mode cfg = BackfillMode ->
   (backfillReady P cfg \/
    DetermineType P cfg = (cfg, JobNone, Some errBackfillKeys) \/
    DetermineType P cfg = (cfg, JobNone, Some errBackfillRange) \/
    DetermineType P cfg = (cfg, JobNone, Some errBackfillRangeValue)) /\
   (DetermineType_err P cfg = None -> backfillReady P cfg)).
Proof.
  split; [| split; [| split; [| split]]].
  - intros Hne Hnot. unfold DetermineType.
    apply String.eqb_neq in Hne. rewrite Hne. cbv zeta.
    fold theModes. rewrite (g_In_false _ _ Hnot). reflexivity.
  - intros Hm. split.
    + apply DetermineType_empty_mode; exact Hm.
    + rewrite (DetermineType_empty_mode P cfg Hm).
      apply DetermineType_mode. discriminate.
  - intros [Hm | Hin].
    + unfold DetermineType_err. rewrite (DetermineType_empty_mode P cfg Hm).
      apply DetermineType_valid_mode. left; reflexivity.
    + apply DetermineType_valid_mode; exact Hin.
  - intros Hm Hbt Hfile Huk Hpk. unfold DetermineType.
    assert (He : (cfg_Mode cfg =? "") = false) by (rewrite Hm; reflexivity).
    rewrite He. cbv zeta. rewrite Hm, Hfile, Huk, Hpk. simpl.
    unfold DbType_eqb.
    destruct (DbType_eq_dec (conn_Type (cfg_SrcConn cfg)) TypeDbBigTable);
      [contradiction | reflexivity].
  - intros Hm.
    assert (Hcases :
      backfillReady P cfg \/
      DetermineType P cfg = (cfg, JobNone, Some errBackfillKeys) \/
      DetermineType P cfg = (cfg, JobNone, Some errBackfillRange) \/
      DetermineType P cfg = (cfg, JobNone, Some errBackfillRangeValue)).
    { unfold DetermineType.
      assert (He : (cfg_Mode cfg =? "") = false) by (rewrite Hm; reflexivity).
      rewrite He. cbv zeta. rewrite Hm. simpl.
      destruct (src_UpdateKey (cfg_Source cfg) =? "") eqn:Huk; simpl;
        [right; left; reflexivity |].
      destruct (List.length (PrimaryKey P (cfg_Source cfg)) =? 0)%nat eqn:Hpk; simpl;
        [right; left; reflexivity |].
      destruct (src_Options (cfg_Source cfg)) as [so |] eqn:Hso;
        [| right; right; left; reflexivity].
      destruct (so_Range so) as [range |] eqn:Hr;
        [| right; right; left; reflexivity].
      destruct (List.length (strings.Split range ",") =? 2)%nat eqn:Hlen; simpl;
        [| right; right; right; reflexivity].
      left. unfold backfillReady. split; [| split].
      - apply String.eqb_neq; exact Huk.
      - intros Hnil. rewrite Hnil in Hpk. discriminate Hpk.
      - exists so, range. rewrite Hso. repeat split; auto.
        apply Nat.eqb_eq; exact Hlen. }
    split; [exact Hcases |].
    intros Hnone. unfold DetermineType_err in Hnone.
    destruct Hcases as [H | [H | [H | H]]]; [exact H | | |];
      rewrite H in Hnone; discriminate Hnone.
Qed.

Lemma DetermineType_validation_witness :
  DetermineType Demo.platform (Demo.config "upsert" AnyNil Demo.options)
  = (Demo.config "upsert" AnyNil Demo.options, JobNone, Some errInvalidMode) /\
  cfg_Mode (fst (fst (DetermineType Demo.platform
                        (Demo.config "" AnyNil Demo.options)))) = FullRefreshMode /\
  DetermineType Demo.platform (Demo.config IncrementalMode AnyNil Demo.options)
  = (Demo.config IncrementalMode AnyNil Demo.options, JobNone, Some errIncrementalKeys) /\
  DetermineType_err Demo.platform (Demo.config BackfillMode (AnyString "id") Demo.options)
  <> None.
Proof.
  split; [| split; [| split]].
  - apply (proj1 (DetermineType_validation Demo.platform
                    (Demo.config "upsert" AnyNil Demo.options))).
    + discriminate.
    + simpl. intros H.
      repeat (destruct H as [H | H]; [discriminate H |]). exact H.
  - apply (proj1 (proj2 (DetermineType_validation Demo.platform
                           (Demo.config "" AnyNil Demo.options)))).
    reflexivity.
  - apply (proj1 (proj2 (proj2 (proj2 (DetermineType_validation Demo.platform
                    (Demo.config IncrementalMode AnyNil Demo.options)))))).
    + reflexivity.
    + discriminate.
    + reflexivity.
    + reflexivity.
    + reflexivity.
  - intros Hnone.
    destruct (proj2 (proj2 (proj2 (proj2 (proj2
                (DetermineType_validation Demo.platform
                   (Demo.config BackfillMode (AnyString "id") Demo.options))))) eq_refl)
                Hnone) as [Huk _].
    apply Huk. reflexivity.
Defined.

(* ===================================================================== *)
(** * C10: the select list of [ReadFromDB] *)
(* ===================================================================== *)

Definition errPartialExclude : error :=
  ErrNew "All specified select columns must be excluded with prefix '-'. Cannot do partial exclude." [].
Definition errAllExcluded : error :=
  ErrNew "All available columns were excluded" [].

Lemma filter_length_lt {A : Type} (p : A -> bool) (l : list A) :
  (exists x, In x l /\ p x = false) -> List.length (filter p l) < List.length l.
Proof.
  induction l as [| a l IH]; intros [x [Hin Hp]]; [destruct Hin |].
  simpl. pose proof (filter_length_le p l) as Hle.
  destruct Hin as [-> | Hin].
  - rewrite Hp. lia.
  - assert (List.length (filter p l) < List.length l) by (apply IH; eauto).
    destruct (p a); simpl; lia.
Qed.

Lemma filter_length_pos {A : Type} (p : A -> bool) (l : list A) :
  (exists x, In x l /\ p x = true) -> 0 < List.length (filter p l).
Proof.
  intros [x [Hin Hp]].
  assert (H : In x (filter p l)) by (apply filter_In; auto).
  destruct (filter p l); [destruct H | simpl; lia].
Qed.

Lemma filter_all {A : Type} (p : A -> bool) (l : list A) :
  (forall x, In x l -> p x = true) -> filter p l = l.
Proof.
  induction l as [| a l IH]; intros H; simpl; [reflexivity |].
  rewrite (H a (or_introl eq_refl)). f_equal. apply IH. intros; apply H; right; auto.
Qed.

Lemma filter_none {A : Type} (p : A -> bool) (l : list A) :
  (forall x, In x l -> p x = false) -> filter p l = [].
Proof.
  induction l as [| a l IH]; intros H; simpl; [reflexivity |].
  rewrite (H a (or_introl eq_refl)). apply IH. intros; apply H; right; auto.
Qed.

Lemma isExcluded_true (q : string) (excluded : list string) (c : Column) :
  (exists f, In f excluded /\
             strings.EqualFold (col_Name c)
               (strings.ReplaceAll (strings.TrimPrefix f "-") q "") = true) ->
  isExcluded q excluded c = true.
Proof.
  induction excluded as [| f0 l IH]; intros [f [Hin Hf]]; [destruct Hin |].
  simpl. destruct Hin as [-> | Hin].
  - rewrite Hf. reflexivity.
  - match goal with |- (if ?b then _ else _) = _ => destruct b end;
      [reflexivity | apply IH; eauto].
Qed.

(** What C10 says of a run of the block: its calls [tr] and its end [res]. *)
Definition P10 (P : Platform) (tdf : option Dataflow) (ty : DbType)
           (cfg : Config) (tr : Log) (res : (Columns * string) + ReadOutcome)
  : Prop :=
  (* partial exclude *)
  ((exists f, In f (src_Select (cfg_Source cfg)) /\ strings.HasPrefix f "-" = true) ->
   (exists f, In f (src_Select (cfg_Source cfg)) /\ strings.HasPrefix f "-" = false) ->
   exists e,
     res = inr (tdf, Some e) /\
     ((forall op r, In (op, r) tr -> r_err r = None) -> e = errPartialExclude)) /\
  (* every available column excluded *)
  (src_Select (cfg_Source cfg) <> [] ->
   (forall f, In f (src_Select (cfg_Source cfg)) -> strings.HasPrefix f "-" = true) ->
   (forall sql r c,
       In (GetSQLColumns sql, r) tr ->
       In c (r_cols r) ->
       exists f, In f (src_Select (cfg_Source cfg)) /\
                 strings.EqualFold (col_Name c)
                   (strings.ReplaceAll (strings.TrimPrefix f "-")
                      (GetQualifierQuote P ty) "") = true) ->
   exists e,
     res = inr (tdf, Some e) /\
     ((forall op r, In (op, r) tr -> r_err r = None) -> e = errAllExcluded)).

Lemma ReadFromDB_select_P10 (P : Platform) (tdf : option Dataflow)
      (ty : DbType) (cfg : Config) :
  wpR everyOp (ReadFromDB_select P tdf ty cfg) (P10 P tdf ty cfg).
Proof.
  unfold ReadFromDB_select.
  cbn [bind call wpR everyOp]. intros r0 r1.
  destruct (r_err r1) as [e1 |] eqn:He1; cbn [bind check wpR everyOp].
  { unfold P10; split; intros; (eexists; split; [reflexivity |]);
      intros Hok; specialize (Hok GetSourceTable r1 (or_intror (or_introl eq_refl)));
      congruence. }
  intros r2.
  destruct (r_err r2) as [e2 |] eqn:He2; cbn [bind check wpR everyOp].
  { unfold P10; split; intros; (eexists; split; [reflexivity |]);
      intros Hok;
      match type of Hok with
      | forall op r, In _ (_ :: _ :: (?op2, _) :: _) -> _ =>
          specialize (Hok op2 r2 (or_intror (or_intror (or_introl eq_refl))))
      end; congruence. }
  fold (excludedFields (src_Select (cfg_Source cfg))).
  destruct (0 <? List.length (src_Select (cfg_Source cfg)))%nat eqn:Hsel.
  2:{ (* no select list *)
      apply Nat.ltb_ge in Hsel.
      assert (Hnil : src_Select (cfg_Source cfg) = [])
        by (destruct (src_Select (cfg_Source cfg)); [reflexivity | simpl in Hsel; lia]).
      cbn [wpR]. unfold P10. rewrite Hnil. split.
      - intros [f [[] _]].
      - intros Hne; congruence. }
  destruct (0 <? List.length (excludedFields (src_Select (cfg_Source cfg))))%nat eqn:Hexc.
  2:{ (* nothing excluded *)
      apply Nat.ltb_ge in Hexc.
      cbn [wpR]. unfold P10. split.
      - intros Hyes _. apply filter_length_pos in Hyes.
        fold (excludedFields (src_Select (cfg_Source cfg))) in Hyes. lia.
      - intros _ Hall. apply filter_all in Hall.
        fold (excludedFields (src_Select (cfg_Source cfg))) in Hall.
        rewrite Hall in Hexc. apply Nat.ltb_lt in Hsel. lia. }
  destruct (negb (List.length (excludedFields (src_Select (cfg_Source cfg)))
                  =? List.length (src_Select (cfg_Source cfg)))%nat) eqn:Hpart.
  { (* partial exclude *)
    cbn [wpR]. unfold P10. split.
    - intros _ _. eexists; split; [reflexivity | reflexivity].
    - intros _ Hall. apply filter_all in Hall.
      fold (excludedFields (src_Select (cfg_Source cfg))) in Hall.
      rewrite Hall, Nat.eqb_refl in Hpart. discriminate Hpart. }
  apply negb_false_iff, Nat.eqb_eq in Hpart.
  assert (Hnot : (exists f, In f (src_Select (cfg_Source cfg)) /\
                            strings.HasPrefix f "-" = false) -> False).
  { intros Hno. apply filter_length_lt in Hno.
    fold (excludedFields (src_Select (cfg_Source cfg))) in Hno. lia. }
  match goal with
  | |- wpR _ (if (List.length ?l =? 0)%nat then _ else _) _ =>
      destruct (List.length l =? 0)%nat eqn:Hinc
  end.
  { (* every column excluded *)
    cbn [wpR]. unfold P10. split.
    - intros _ Hno. destruct (Hnot Hno).
    - intros _ _ _. eexists; split; [reflexivity | reflexivity]. }
  (* some column left *)
  cbn [wpR]. unfold P10. split.
  - intros _ Hno. destruct (Hnot Hno).
  - intros _ Hall Hcols. exfalso.
    apply filter_all in Hall.
    fold (excludedFields (src_Select (cfg_Source cfg))) in Hall.
    rewrite filter_none in Hinc; [discriminate Hinc |].
    intros c Hc. rewrite isExcluded_true; [reflexivity |].
    rewrite Hall. eapply Hcols; [| exact Hc].
    right; right; left; reflexivity.
Qed.

(** C10. In [ReadFromDB], whatever the source answers: when some entries of
    the select list have the prefix [-] and some have not, the function
    returns an error, which is "Cannot do partial exclude" once the source
    table and its columns were read; and when every entry has the prefix and
    every column the source reports is matched by an entry, it returns an
    error, which is then "All available columns were excluded", and no
    field list. *)
Theorem select_exclusions (P : Platform) (tdf : option Dataflow)
        (ty : DbType) (o : Oracle) (cfg : Config) :
  (* partial exclude *)
  ((exists f, In f (src_Select (cfg_Source cfg)) /\ strings.HasPrefix f "-" = true) ->
   (exists f, In f (src_Select (cfg_Source cfg)) /\ strings.HasPrefix f "-" = false) ->
   exists e,
     snd (exec o (ReadFromDB_select P tdf ty cfg) []) = inr (tdf, Some e) /\
     ((forall op r, In (op, r) (fst (exec o (ReadFromDB_select P tdf ty cfg) [])) ->
                    r_err r = None) ->
      e = errPartialExclude)) /\
  (* every available column excluded *)
  (src_Select (cfg_Source cfg) <> [] ->
   (forall f, In f (src_Select (cfg_Source cfg)) -> strings.HasPrefix f "-" = true) ->
   (forall sql r c,
       In (GetSQLColumns sql, r) (fst (exec o (ReadFromDB_select P tdf ty cfg) [])) ->
       In c (r_cols r) ->
       exists f, In f (src_Select (cfg_Source cfg)) /\
                 strings.EqualFold (col_Name c)
                   (strings.ReplaceAll (strings.TrimPrefix f "-")
                      (GetQualifierQuote P ty) "") = true) ->
   exists e,
     snd (exec o (ReadFromDB_select P tdf ty cfg) []) = inr (tdf, Some e) /\
     ((forall op r, In (op, r) (fst (exec o (ReadFromDB_select P tdf ty cfg) [])) ->
                    r_err r = None) ->
      e = errAllExcluded)).
Proof.
  change (P10 P tdf ty cfg
              (fst (exec o (ReadFromDB_select P tdf ty cfg) []))
              (snd (exec o (ReadFromDB_select P tdf ty cfg) []))).
  rewrite <- (observed_everyOp (fst (exec o (ReadFromDB_select P tdf ty cfg) []))).
  apply wpR_exec. apply ReadFromDB_select_P10.
Qed.

(** A configuration whose select list is [sel]. *)
Definition selecting (sel : list string) : Config :=
  set_Source (Demo.config FullRefreshMode AnyNil Demo.options)
             (mkSource "public.src" sel AnyNil "" None).

Lemma select_exclusions_witness :
  snd (exec (Demo.store 3)
         (ReadFromDB_select Demo.platform None TypeDbMySQL (selecting ["-id"; "name"])) [])
  = inr (None, Some errPartialExclude) /\
  snd (exec (Demo.store 3)
         (ReadFromDB_select Demo.platform None TypeDbMySQL (selecting ["-`ID`"; "-name"])) [])
  = inr (None, Some errAllExcluded).
Proof.
  split.
  - destruct (proj1 (select_exclusions Demo.platform None TypeDbMySQL (Demo.store 3)
                       (selecting ["-id"; "name"]))) as [e [Hres He]].
    + exists "-id". split; [left; reflexivity | reflexivity].
    + exists "name". split; [right; left; reflexivity | reflexivity].
    + rewrite Hres, He; [reflexivity |].
      intros op r Hin. vm_compute in Hin.
      repeat (destruct Hin as [Hin | Hin]; [inversion Hin; reflexivity |]).
      destruct Hin.
  - destruct (proj2 (select_exclusions Demo.platform None TypeDbMySQL (Demo.store 3)
                       (selecting ["-`ID`"; "-name"]))) as [e [Hres He]].
    + discriminate.
    + intros f Hin. simpl in Hin.
      repeat (destruct Hin as [<- | Hin]; [reflexivity |]). destruct Hin.
    + intros sql r c Hin Hc. vm_compute in Hin.
      repeat (destruct Hin as [Hin | Hin]; [inversion Hin; subst; clear Hin |]);
        try destruct Hin.
      simpl in Hc.
      destruct Hc as [<- | [<- | []]].
      * exists "-`ID`". split; [left; reflexivity | reflexivity].
      * exists "-name". split; [right; left; reflexivity | reflexivity].
    + rewrite Hres, He; [reflexivity |].
      intros op r Hin. vm_compute in Hin.
      repeat (destruct Hin as [Hin | Hin]; [inversion Hin; reflexivity |]).
      destruct Hin.
Defined.

(* ===================================================================== *)
(** * [config.go]: further functions and what they guarantee *)
(* ===================================================================== *)

(** [func setSchema(schema string, obj string) string]; [g.F] is
    [fmt.Sprintf]. *)
Definition setSchema (schema obj : string) : string :=
  if negb (schema =? "")%string && negb (obj =? "")%string
     && negb (strings.Contains obj ".")
  then (schema ++ "." ++ obj)%string
  else obj.

Lemma substring_skip (a s : string) (n : nat) :
  substring (String.length a) n (a ++ s) = substring 0 n s.
Proof. induction a as [| c a IH]; simpl; [reflexivity | exact IH]. Qed.

Lemma substring_take (a b : string) :
  substring 0 (String.length a) (a ++ b) = a.
Proof.
  induction a as [| c a IH]; simpl.
  - destruct b; reflexivity.
  - rewrite IH. reflexivity.
Qed.

(** A string contains what stands in its middle. *)
Lemma Contains_middle (a sub b : string) :
  strings.Contains (a ++ sub ++ b) sub = true.
Proof.
  unfold strings.Contains.
  destruct (index 0 sub (a ++ sub ++ b)) as [i |] eqn:Hi; [reflexivity |].
  exfalso. destruct (string_dec sub "") as [-> | Hne].
  - apply index_correct4 in Hi. lia.
  - apply (@index_correct3 0 (String.length a) sub (a ++ sub ++ b) Hi Hne);
      [lia |].
    rewrite substring_skip. apply substring_take.
Qed.

(** X1. [setSchema] qualifies a name once: with a schema and an object that
    are not empty the result contains a dot, and applying the function to
    its own result changes nothing. *)
Theorem setSchema_qualifies_once (schema obj : string) :
  (schema <> "" -> obj <> "" ->
   strings.Contains (setSchema schema obj) "." = true) /\
  setSchema schema (setSchema schema obj) = setSchema schema obj.
Proof.
  unfold setSchema at 1 3 4.
  destruct (negb (schema =? "")%string && negb (obj =? "")%string
            && negb (strings.Contains obj ".")) eqn:Hc.
  - split.
    + intros _ _. apply Contains_middle.
    + unfold setSchema. rewrite Contains_middle.
      rewrite !andb_false_r. reflexivity.
  - split.
    + intros Hs Ho.
      apply String.eqb_neq in Hs. apply String.eqb_neq in Ho.
      rewrite Hs, Ho in Hc. simpl in Hc.
      apply negb_false_iff in Hc. exact Hc.
    + unfold setSchema. rewrite Hc. reflexivity.
Qed.

(** [strings.Join(l, "")] is empty exactly when every part is. *)
Lemma Join_empty (l : list string) :
  strings.Join l "" = "" <-> (forall k, In k l -> k = "").
Proof.
  unfold strings.Join.
  induction l as [| x l IH]; simpl.
  - split; [intros _ k [] | reflexivity].
  - destruct l as [| y l].
    + split.
      * intros Hx k [<- | []]. exact Hx.
      * intros H. apply H. left; reflexivity.
    + split.
      * intros H k Hk.
        destruct x as [| c x]; [| discriminate H].
        simpl in H. destruct Hk as [<- | Hk]; [reflexivity |].
        apply (proj1 IH H k Hk).
      * intros H. rewrite (H x (or_introl eq_refl)). simpl.
        apply IH. intros k Hk. apply H. right; exact Hk.
Qed.

(** X2. [Source.HasPrimaryKey] holds exactly when some entry of
    [Source.PrimaryKey] is not the empty string; a key list of empty strings
    has a length but is no primary key. *)
Theorem HasPrimaryKey_iff (P : Platform) (s : Source) :
  HasPrimaryKey P s = true <->
  exists k, In k (PrimaryKey P s) /\ k <> "".
Proof.
  unfold HasPrimaryKey. rewrite negb_true_iff.
  split.
  - intros H. apply String.eqb_neq in H.
    induction (PrimaryKey P s) as [| x l IH].
    + destruct H. reflexivity.
    + destruct (string_dec x "") as [-> | Hx].
      * destruct IH as [k [Hk Hne]].
        { intros Hj. apply H. apply Join_empty.
          intros k [<- | Hk]; [reflexivity |].
          apply (proj1 (Join_empty l) Hj k Hk). }
        exists k. split; [right; exact Hk | exact Hne].
      * exists x. split; [left; reflexivity | exact Hx].
  - intros [k [Hk Hne]]. apply String.eqb_neq. intros Hj.
    apply Hne. apply (proj1 (Join_empty _) Hj k Hk).
Qed.

(* ===================================================================== *)
(** * [DetermineType]: the job type and what the function changes *)
(* ===================================================================== *)

(** The job type of [DetermineType]. *)
Definition DetermineType_type (P : Platform) (cfg : Config) : JobType :=
  snd (fst (DetermineType P cfg)).

(** The configuration as [DetermineType] leaves it. *)
Definition DetermineType_cfg (P : Platform) (cfg : Config) : Config :=
  fst (fst (DetermineType P cfg)).

Ltac DetermineType_paths :=
  unfold DetermineType_type, DetermineType_cfg, DetermineType_err, DetermineType;
  cbv zeta; all_paths; cbn [fst snd].

(** X3. [DetermineType] returns a nil error exactly when it returns a job
    type that is not empty. *)
Theorem DetermineType_type_or_error (P : Platform) (cfg : Config) :
  DetermineType_err P cfg = None <-> DetermineType_type P cfg <> JobNone.
Proof.
  DetermineType_paths; split; intros H; try discriminate H; try reflexivity;
    try (exfalso; apply H; reflexivity); intros Hn; discriminate Hn.
Qed.

(** [tgtFileProvided] of [DetermineType]. *)
Definition targetIsFile (P : Platform) (cfg : Config) : bool :=
  co_StdOut (cfg_Options cfg) || IsFile P (conn_Type (cfg_TgtConn cfg)).

Ltac fields :=
  cbn [cfg_Source cfg_Target cfg_Mode cfg_Options cfg_SrcConn cfg_TgtConn
       cfg_MetadataLoadedAt set_Mode set_MetadataLoadedAt set_Source set_Target
       src_Stream src_Select src_PrimaryKeyI src_UpdateKey src_Options
       set_PrimaryKeyI set_UpdateKey tgt_Object tgt_Options tgt_TmpTableCreated
       tgt_columns set_Object fst snd
       String.eqb Ascii.eqb Bool.eqb g_In existsb negb orb andb
       FullRefreshMode IncrementalMode BackfillMode SnapshotMode TruncateMode]
    in *.

Ltac field_paths := repeat (inner_destruct; cbn beta iota; fields).

(** X4. What each job type of [DetermineType] says of the two connections:
    database to database, file to database, database to file (with a
    stream), file to file, or SQL on a database target (with a post-SQL,
    which becomes the target object). The API job types are never
    returned. *)
Theorem DetermineType_classifies (P : Platform) (cfg : Config) :
  match DetermineType_type P cfg with
  | JobNone => True
  | DbToDb =>
      IsDb P (conn_Type (cfg_SrcConn cfg)) = true /\
      IsDb P (conn_Type (cfg_TgtConn cfg)) = true
  | FileToDB =>
      sourceIsFile P cfg = true /\
      IsDb P (conn_Type (cfg_SrcConn cfg)) = false /\
      IsDb P (conn_Type (cfg_TgtConn cfg)) = true
  | DbToFile =>
      IsDb P (conn_Type (cfg_SrcConn cfg)) = true /\
      src_Stream (cfg_Source cfg) <> "" /\
      IsDb P (conn_Type (cfg_TgtConn cfg)) = false /\
      targetIsFile P cfg = true
  | FileToFile =>
      sourceIsFile P cfg = true /\
      IsDb P (conn_Type (cfg_SrcConn cfg)) = false /\
      IsDb P (conn_Type (cfg_TgtConn cfg)) = false /\
      targetIsFile P cfg = true
  | DbSQL =>
      IsDb P (conn_Type (cfg_SrcConn cfg)) = false /\
      sourceIsFile P cfg = false /\
      IsDb P (conn_Type (cfg_TgtConn cfg)) = true /\
      exists o, tgt_Options (cfg_Target cfg) = Some o /\
                to_PostSQL o <> "" /\
                tgt_Object (cfg_Target (DetermineType_cfg P cfg)) = to_PostSQL o
  | APIToDb | APIToFile => False
  end.
Proof.
  unfold DetermineType_type, DetermineType_cfg, DetermineType, targetIsFile.
  cbv zeta.
  destruct (IsDb P (conn_Type (cfg_SrcConn cfg))) eqn:Hsd;
    destruct (IsDb P (conn_Type (cfg_TgtConn cfg))) eqn:Htd;
    destruct (sourceIsFile P cfg) eqn:Hsf;
    destruct (co_StdOut (cfg_Options cfg) || IsFile P (conn_Type (cfg_TgtConn cfg))) eqn:Htf;
    destruct (src_Stream (cfg_Source cfg) =? "")%string eqn:Hss;
    cbn [andb negb orb];
    field_paths; auto;
    repeat split; auto;
    try (apply String.eqb_neq; assumption);
    try (eexists; split; [reflexivity | split; [| reflexivity]];
         match goal with
         | H : negb (_ =? "")%string = true |- _ =>
             apply negb_true_iff, String.eqb_neq in H; exact H
         end).
Qed.

(** X5. What [DetermineType] leaves alone: the options, both connections,
    the target options, the stream, the select list and the source options;
    a mode that was given; a load-timestamp flag that was set. It changes
    the target object only for the job type [DbSQL], and the keys of the
    source only in incremental mode on a BigTable source. *)
Theorem DetermineType_frame (P : Platform) (cfg : Config) :
  cfg_Options (DetermineType_cfg P cfg) = cfg_Options cfg /\
  cfg_SrcConn (DetermineType_cfg P cfg) = cfg_SrcConn cfg /\
  cfg_TgtConn (DetermineType_cfg P cfg) = cfg_TgtConn cfg /\
  tgt_Options (cfg_Target (DetermineType_cfg P cfg)) = tgt_Options (cfg_Target cfg) /\
  src_Stream (cfg_Source (DetermineType_cfg P cfg)) = src_Stream (cfg_Source cfg) /\
  src_Select (cfg_Source (DetermineType_cfg P cfg)) = src_Select (cfg_Source cfg) /\
  src_Options (cfg_Source (DetermineType_cfg P cfg)) = src_Options (cfg_Source cfg) /\
  (cfg_Mode cfg <> "" -> cfg_Mode (DetermineType_cfg P cfg) = cfg_Mode cfg) /\
  (cfg_MetadataLoadedAt cfg = true ->
   cfg_MetadataLoadedAt (DetermineType_cfg P cfg) = true) /\
  (tgt_Object (cfg_Target (DetermineType_cfg P cfg)) <> tgt_Object (cfg_Target cfg) ->
   DetermineType_type P cfg = DbSQL) /\
  (cfg_Source (DetermineType_cfg P cfg) <> cfg_Source cfg ->
   cfg_Mode cfg = IncrementalMode /\
   conn_Type (cfg_SrcConn cfg) = TypeDbBigTable).
Proof.
  unfold DetermineType_type, DetermineType_cfg, DetermineType.
  cbv zeta.
  destruct (cfg_Mode cfg =? "")%string eqn:Hm; fields.
  - destruct (IsDb P (conn_Type (cfg_SrcConn cfg)) && IsDb P (conn_Type (cfg_TgtConn cfg)));
      field_paths; fields; repeat split; intros; fields; auto; try congruence;
      try (apply String.eqb_eq in Hm; congruence).
  - match goal with
    | |- context [if negb ?c then (cfg, JobNone, Some errInvalidMode) else _] =>
        destruct c
    end; cbn [negb];
      [| fields; repeat split; intros; fields; auto; congruence].
    destruct (cfg_Mode cfg =? IncrementalMode)%string eqn:Hi.
    + apply String.eqb_eq in Hi.
      destruct (DbType_eqb (conn_Type (cfg_SrcConn cfg)) TypeDbBigTable) eqn:Hb.
      * assert (Hbt : conn_Type (cfg_SrcConn cfg) = TypeDbBigTable).
        { unfold DbType_eqb in Hb.
          destruct (DbType_eq_dec (conn_Type (cfg_SrcConn cfg)) TypeDbBigTable);
            [assumption | discriminate Hb]. }
        field_paths; fields; repeat split; intros; fields; auto; congruence.
      * field_paths; fields; repeat split; intros; fields; auto; congruence.
    + field_paths; fields; repeat split; intros; fields; auto; congruence.
Qed.

(** X6. Incremental mode on a BigTable source: [DetermineType] fills a
    missing primary key with [_bigtable_key] and a missing update key with
    [_bigtable_timestamp], keeps the ones given, and never returns the error
    of missing keys. *)
Theorem DetermineType_bigtable_keys (P : Platform) (cfg : Config) :
  cfg_Mode cfg = IncrementalMode ->
  conn_Type (cfg_SrcConn cfg) = TypeDbBigTable ->
  PrimaryKey P (cfg_Source (DetermineType_cfg P cfg))
  = (if (List.length (PrimaryKey P (cfg_Source cfg)) =? 0)%nat
     then ["_bigtable_key"] else PrimaryKey P (cfg_Source cfg)) /\
  src_UpdateKey (cfg_Source (DetermineType_cfg P cfg))
  = (if (src_UpdateKey (cfg_Source cfg) =? "")%string
     then "_bigtable_timestamp" else src_UpdateKey (cfg_Source cfg)) /\
  DetermineType_err P cfg <> Some errIncrementalKeys.
Proof.
  intros Hm Hb.
  unfold DetermineType_cfg, DetermineType_err, DetermineType.
  assert (He : (cfg_Mode cfg =? "")%string = false) by (rewrite Hm; reflexivity).
  assert (Hbt : DbType_eqb (conn_Type (cfg_SrcConn cfg)) TypeDbBigTable = true)
    by (rewrite Hb; reflexivity).
  rewrite He. cbv zeta. rewrite Hm, Hbt.
  cbn [g_In existsb String.eqb Ascii.eqb Bool.eqb IncrementalMode FullRefreshMode
       orb negb].
  unfold PrimaryKey.
  destruct (List.length (castPrimaryKey P (src_PrimaryKeyI (cfg_Source cfg))) =? 0)%nat;
    destruct (src_UpdateKey (cfg_Source cfg) =? "")%string eqn:Hu;
    fields; rewrite ?Hu; fields;
    field_paths; fields; repeat split;
    unfold errIncrementalKeys, invalidTaskError; try discriminate; reflexivity.
Qed.

Lemma DetermineType_bigtable_keys_witness :
  PrimaryKey Demo.platform
    (cfg_Source
       (DetermineType_cfg Demo.platform
          (mkConfig (Demo.source AnyNil "")
             (mkTarget "public.t" (Some Demo.options) false [])
             IncrementalMode (mkConfigOptions false false)
             (mkConnection "BT" TypeDbBigTable)
             (mkConnection "TGT" TypeDbSnowflake) false)))
  = ["_bigtable_key"] /\
  src_UpdateKey
    (cfg_Source
       (DetermineType_cfg Demo.platform
          (mkConfig (Demo.source AnyNil "")
             (mkTarget "public.t" (Some Demo.options) false [])
             IncrementalMode (mkConfigOptions false false)
             (mkConnection "BT" TypeDbBigTable)
             (mkConnection "TGT" TypeDbSnowflake) false)))
  = "_bigtable_timestamp" /\
  DetermineType_err Demo.platform
    (mkConfig (Demo.source AnyNil "")
       (mkTarget "public.t" (Some Demo.options) false [])
       IncrementalMode (mkConfigOptions false false)
       (mkConnection "BT" TypeDbBigTable)
       (mkConnection "TGT" TypeDbSnowflake) false)
  <> Some errIncrementalKeys.
Proof.
  apply (@DetermineType_bigtable_keys Demo.platform
           (mkConfig (Demo.source AnyNil "")
              (mkTarget "public.t" (Some Demo.options) false [])
              IncrementalMode (mkConfigOptions false false)
              (mkConnection "BT" TypeDbBigTable)
              (mkConnection "TGT" TypeDbSnowflake) false));
    reflexivity.
Defined.

(** The number of bytes [c] in [s]. *)
Fixpoint countByte (c : ascii) (s : string) : nat :=
  match s with
  | EmptyString => 0
  | String a s' => (if Ascii.eqb a c then 1 else 0) + countByte c s'
  end.

Lemma Split_length (s : string) (c : ascii) :
  List.length (strings.Split s c) = S (countByte c s).
Proof.
  induction s as [| a s IH]; simpl; [reflexivity |].
  destruct (Ascii.eqb a c); simpl.
  - rewrite IH. reflexivity.
  - destruct (strings.Split s c) as [| p ps]; simpl in *; [discriminate IH | exact IH].
Qed.

(** X7. In backfill mode with both keys and a range, [DetermineType]
    rejects the range exactly when it does not hold exactly one comma: the
    two bounds themselves may be empty. *)
Theorem backfill_range_one_comma (P : Platform) (cfg : Config)
        (so : SourceOptions) (range : string) :
  cfg_Mode cfg = BackfillMode ->
  src_UpdateKey (cfg_Source cfg) <> "" ->
  PrimaryKey P (cfg_Source cfg) <> [] ->
  src_Options (cfg_Source cfg) = Some so ->
  so_Range so = Some range ->
  (DetermineType_err P cfg = Some errBackfillRangeValue <->
   countByte "," range <> 1).
Proof.
  intros Hm Hu Hpk Hso Hr.
  unfold DetermineType_err, DetermineType.
  assert (He : (cfg_Mode cfg =? "")%string = false) by (rewrite Hm; reflexivity).
  apply String.eqb_neq in Hu.
  assert (Hl : (List.length (PrimaryKey P (cfg_Source cfg)) =? 0)%nat = false)
    by (destruct (PrimaryKey P (cfg_Source cfg)); [congruence | reflexivity]).
  rewrite He. cbv zeta. rewrite Hm, Hu, Hl, Hso, Hr, Split_length.
  cbn [g_In existsb String.eqb Ascii.eqb Bool.eqb BackfillMode FullRefreshMode
       IncrementalMode orb negb].
  destruct (S (countByte "," range) =? 2)%nat eqn:Hc; cbn [negb].
  - apply Nat.eqb_eq in Hc.
    split; [| intros H; exfalso; apply H; lia].
    field_paths; cbn [snd]; unfold errBackfillRangeValue, invalidTaskError;
      intros H; discriminate H.
  - apply Nat.eqb_neq in Hc. split; [intros _; lia | reflexivity].
Qed.

Lemma backfill_range_one_comma_witness :
  DetermineType_err Demo.platform
    (set_Source (Demo.config BackfillMode (AnyString "id") Demo.options)
       (mkSource "public.src" [] (AnyString "id") "updated_at"
          (Some (mkSourceOptions (Some "2021-01-01") None))))
  = Some errBackfillRangeValue <->
  countByte "," "2021-01-01" <> 1.
Proof.
  apply (@backfill_range_one_comma Demo.platform
           (set_Source (Demo.config BackfillMode (AnyString "id") Demo.options)
              (mkSource "public.src" [] (AnyString "id") "updated_at"
                 (Some (mkSourceOptions (Some "2021-01-01") None))))
           (mkSourceOptions (Some "2021-01-01") None) "2021-01-01");
    try reflexivity; discriminate.
Defined.

(* ===================================================================== *)
(** * [WriteToDb]: the order of the transaction calls *)
(* ===================================================================== *)

(** [tgtConn.BeginContext], [tgtConn.Commit] and [tgtConn.Rollback]. *)
Definition txOp (op : Op) : bool :=
  match op with
  | BeginContext _ | Commit | Rollback => true
  | _ => false
  end.

(** The transaction calls of a run, in order. *)
Definition txCalls (tr : Log) : list Op := map fst (observed txOp tr).

(** The sequences of transaction calls a run can make on a target of kind
    [ty]: the transaction of the temp table, then the one of the final
    write. *)
Definition txProtocol (ty : DbType) : list (list Op) :=
  let begin0 := BeginContext None in
  let begin1 := BeginContext (Some (finalTxOptions ty)) in
  [ [];
    [begin0];
    [begin0; Rollback];
    [begin0; Commit];
    [begin0; Commit; begin1];
    [begin0; Commit; begin1; Rollback];
    [begin0; Commit; begin1; Commit; Rollback] ].

Definition silentT (op : Op) : bool := negb (txOp op).

Ltac wstepT :=
  cbn [bind deref check when call wpR txOp negb fst snd value app].

Ltac leafT :=
  idtac; intros; cbn [map fst app txProtocol];
  simpl; repeat (first [left; reflexivity | right]).

Section Transactions.
Variable P : Platform.
Variable t : TaskExecution.
Variable ty : DbType.

Lemma final_tx cfg o df cnt target addNew adjust :
  wpR txOp (WriteToDb_final P t ty cfg o df cnt target addNew adjust)
      (fun tr _ =>
         In (map fst tr)
            [ [BeginContext (Some (finalTxOptions ty))];
              [BeginContext (Some (finalTxOptions ty)); Rollback];
              [BeginContext (Some (finalTxOptions ty)); Commit; Rollback] ]).
Proof.
  unfold WriteToDb_final. wstepT. intros b.
  unfold check at 1. destruct (r_err b); wstepT; [solve [leafT] |].
  apply wpR_defer_obs; [reflexivity |].
  repeat (wstepT;
          first [ solve [leafT]
                | match goal with |- forall _ : Resp, _ => intros ? end
                | skip_with silentT leafT
                | head_destruct_goal
                | progress unfold check, when ]).
Qed.

Lemma WriteToDb_tx cfg df :
  wpR txOp (WriteToDb P t ty cfg df)
      (fun tr _ => In (map fst tr) (txProtocol ty)).
Proof.
  unfold WriteToDb.
  apply wpR_defer_skip; [reflexivity |].
  repeat (wstepT;
          first [ solve [leafT]
                | match goal with |- forall _ : Resp, _ => intros ? end
                | skip_with silentT leafT
                | match goal with
                  | |- wpR _ (WriteToDb_final _ _ _ _ _ _ _ _ _ _) _ => fail 2
                  end
                | head_destruct_goal
                | progress unfold WriteToDb_preSQL
                | progress unfold check, when ]).
  all: wstepT.
  all: eapply wpR_mono; [| apply final_tx];
    cbn beta; intros tr _ Hin; cbn [map fst app];
    simpl in Hin; destruct Hin as [<- | [<- | [<- | []]]]; leafT.
Qed.

(** X8. The transaction calls of every run of [WriteToDb], in order, are
    one of seven sequences: the transaction of the temp table is begun
    first and ended by [Commit] or [Rollback] before the one of the final
    write is begun, and once that one has begun the run ends it with
    [Rollback], also after its [Commit]. *)
Theorem transaction_protocol (o : Oracle) (cfg : Config) (df : Dataflow) :
  In (txCalls (trace o (WriteToDb P t ty cfg df))) (txProtocol ty).
Proof.
  unfold txCalls.
  exact (wpR_run txOp (WriteToDb P t ty cfg df)
           (fun tr _ => In (map fst tr) (txProtocol ty)) o (WriteToDb_tx cfg df)).
Qed.

End Transactions.

(* ===================================================================== *)
(** * [WriteToDb]: a bulk import that fails *)
(* ===================================================================== *)

Definition relB (op : Op) : bool :=
  match op with
  | BulkImportFlow _ | Rollback | Commit | GetCount _ | BeginContext (Some _) => true
  | _ => false
  end.

Definition silentB (op : Op) : bool := negb (relB op).

(** What a failed bulk import leaves: a rollback, and nothing of the steps
    that follow a successful one. *)
Definition PB (tr : Log) (out : Outcome) : Prop :=
  forall tmp rb e,
    In (BulkImportFlow tmp, rb) tr -> r_err rb = Some e ->
    (exists r, In (Rollback, r) tr) /\
    (forall r, ~ In (Commit, r) tr) /\
    (forall x r, ~ In (GetCount x, r) tr) /\
    (forall opts r, ~ In (BeginContext (Some opts), r) tr) /\
    exists st msg args,
      out = Returned st (r_num rb) (Some (ErrWrap e msg args)).

Lemma PB_observed (tr : Log) (out : Outcome) :
  PB (observed relB tr) out -> PB tr out.
Proof.
  unfold PB, observed. intros H tmp rb e Hin He.
  destruct (H tmp rb e) as ((r & H1) & H2 & H3 & H4 & H5); auto.
  - apply filter_In. split; [exact Hin | reflexivity].
  - split; [exists r; apply filter_In in H1; tauto |].
    split; [intros r0 Hc; apply (H2 r0); apply filter_In; split; [exact Hc | reflexivity] |].
    split; [intros x r0 Hc; apply (H3 x r0); apply filter_In; split; [exact Hc | reflexivity] |].
    split; [intros opts r0 Hc; apply (H4 opts r0); apply filter_In; split; [exact Hc | reflexivity] |].
    exact H5.
Qed.

Ltac wstepB :=
  cbn [bind deref check when call wpR relB negb fst snd value app].

Ltac one_error :=
  match goal with
  | H1 : r_err ?r = Some ?e1, H2 : r_err ?r = Some ?e2 |- _ =>
      tryif constr_eq e1 e2 then fail
      else (rewrite H1 in H2; inversion H2; subst)
  end.

Ltac leafB :=
  idtac; intros; unfold PB; intros ? ? ? Hin He;
  cbn [app] in Hin; in_cases;
  first
    [ congruence
    | one_error;
      split; [eexists; simpl; repeat (first [left; reflexivity | right]) |];
      split; [intros ? Hc; in_cases |];
      split; [intros ? ? Hc; in_cases |];
      split; [intros ? ? Hc; in_cases |];
      unfold g_Error_wrap; do 3 eexists; reflexivity ].

Section BulkImport.
Variable P : Platform.
Variable t : TaskExecution.
Variable ty : DbType.

Lemma WriteToDb_PB cfg df :
  wpR relB (WriteToDb P t ty cfg df) (fun tr res => PB tr (value res)).
Proof.
  unfold WriteToDb.
  apply wpR_defer_skip; [reflexivity |].
  repeat (wstepB;
          first [ solve [leafB]
                | match goal with |- forall _ : Resp, _ => intros ? end
                | skip_with silentB leafB
                | match goal with
                  | |- wpR _ (WriteToDb_final _ _ _ _ _ _ _ _ _ _) _ => fail 2
                  end
                | head_destruct_goal
                | progress unfold WriteToDb_preSQL
                | progress unfold check, when ]).
  all: wstepB.
  all: eapply wpR_mono;
    [| apply allCalls_wpR with (good := finalOp); apply allCalls_final ];
    cbn beta; intros tr res HF; unfold PB; intros tmp rb e Hin He;
    cbn [app] in Hin; in_cases; try congruence;
    rewrite Forall_forall in HF; apply HF in Hin; discriminate Hin.
Qed.

(** X9. When the bulk import into the temp table returns an error,
    [WriteToDb] calls [Rollback], calls neither [Commit] nor the count query,
    never begins the final transaction, and returns the count the import
    reported with the error wrapped. *)
Theorem bulk_import_failure (o : Oracle) (cfg : Config) (df : Dataflow)
        (tmp : string) (rb : Resp) (e : error) :
  In (BulkImportFlow tmp, rb) (trace o (WriteToDb P t ty cfg df)) ->
  r_err rb = Some e ->
  (exists r, In (Rollback, r) (trace o (WriteToDb P t ty cfg df))) /\
  (forall r, ~ In (Commit, r) (trace o (WriteToDb P t ty cfg df))) /\
  (forall x r, ~ In (GetCount x, r) (trace o (WriteToDb P t ty cfg df))) /\
  (forall opts r,
      ~ In (BeginContext (Some opts), r) (trace o (WriteToDb P t ty cfg df))) /\
  exists st msg args,
    outcome o (WriteToDb P t ty cfg df)
    = Returned st (r_num rb) (Some (ErrWrap e msg args)).
Proof.
  intros Hin He.
  exact (@PB_observed _ _
           (wpR_run relB _ PB o (WriteToDb_PB cfg df)) tmp rb e Hin He).
Qed.

End BulkImport.

(* ===================================================================== *)
(** * [WriteToDb]: what a nil error means *)
(* ===================================================================== *)

(** A block none of whose calls is observed, of which it is known how it can
    leave the function. *)
Lemma wpR_skip_res {R A B : Type} (rel good : Op -> bool) (S : R -> Prop)
      (p : Prog R A) (f : A -> Prog R B) (Q : Log -> B + R -> Prop) :
  allCalls good p ->
  (forall op, good op = true -> rel op = false) ->
  wpRes p (fun res => match res with inl _ => True | inr r => S r end) ->
  (forall r, S r -> Q [] (inr r)) ->
  (forall a, wpR rel (f a) Q) ->
  wpR rel (bind p f) Q.
Proof.
  intros Hp Hg Hs Hr Hf.
  apply wpR_seq with
    (Q1 := fun tr (res : A + R) =>
             tr = [] /\ match res with inl _ => True | inr r => S r end).
  - apply wpR_conj; [eapply wpR_silent; eauto | apply wpRes_wpR; exact Hs].
  - intros tr a [-> _]. simpl. apply Hf.
  - intros tr r [-> H]. apply Hr. exact H.
Qed.

(** The function left without a nil error, or with one and count zero. *)
Definition noSuccess (out : Outcome) : Prop :=
  forall st c, out = Returned st c None -> c = 0%N.

Ltac zero_count :=
  match goal with
  | Hc : (?n =? 0)%N && _ = true |- _ =>
      apply andb_prop in Hc; destruct Hc as [Hc _];
      apply N.eqb_eq in Hc; congruence
  end.

Ltac no_success :=
  let H := fresh "Hout" in
  unfold noSuccess; intros ? ? H;
  unfold g_Error_wrap, g_Error in H;
  first [ discriminate H
        | inversion H; subst; first [reflexivity | zero_count] ].

Ltac res_auto :=
  repeat first
    [ exact I
    | solve [no_success]
    | match goal with
      | |- wpRes (bind _ _) _ => apply wpRes_bind
      | |- wpRes (match ?x with _ => _ end) _ => destruct x eqn:?
      | |- forall _, _ => intros ?
      end
    | progress (unfold check, when, deref, call, WriteToDb_tableTmp,
                WriteToDb_preSQL, WriteToDb_checks)
    | progress simpl ].

Tactic Notation "skip_res" constr(g) tactic(leaf) :=
  apply (@wpR_skip_res _ _ _ _ g noSuccess);
  [ solve [all_calls]
  | solve [let op := fresh "op" in
           let H := fresh "H" in
           intros op H; destruct op; simpl in *;
           first [discriminate H | reflexivity
                 | match goal with
                   | o : option _ |- _ => destruct o; first [discriminate H | reflexivity]
                   end]]
  | solve [res_auto]
  | solve [intros ? ?; leaf]
  | intros ? ].

(** The final write committed: its [Commit] was called and succeeded. *)
Definition committed (tr : Log) : Prop :=
  exists rc, In (Commit, rc) (finalWrite tr) /\ r_err rc = None.

Lemma committed_observed (tr : Log) :
  committed (observed relF tr) -> committed tr.
Proof.
  intros [rc [Hin Hrc]]. exists rc. split; [| exact Hrc].
  apply In_observed_finalWrite. exact Hin.
Qed.

Section Success.
Variable P : Platform.
Variable t : TaskExecution.
Variable ty : DbType.

Lemma prepareFinal_exits cfg o df cnt target addNew adjust :
  wpRes (WriteToDb_prepareFinal P ty cfg o df cnt target addNew adjust)
        (fun res =>
           match res with
           | inl _ => True
           | inr out => forall st c, out <> Returned st c None
           end).
Proof.
  unfold WriteToDb_prepareFinal, when, check.
  repeat first
    [ exact I
    | solve [intros ? ? H; discriminate H]
    | match goal with
      | |- wpRes (bind _ _) _ => apply wpRes_bind
      | |- wpRes (match ?x with _ => _ end) _ => destruct x
      | |- forall _ : Resp, _ => intros ?
      end
    | progress simpl ].
Qed.

(** How the final write can return a nil error. *)
Definition FE (cnt : N) (tr : Log) (out : Outcome) : Prop :=
  forall st c, out = Returned st c None -> c = cnt /\ committed tr.

Ltac leafE :=
  idtac; intros; unfold FE; intros ? ? Hout;
  unfold g_Error_wrap, g_Error in Hout;
  first
    [ discriminate Hout
    | exfalso;
      match goal with
      | H : forall st c, ?o <> Returned st c None |- _ => exact (H _ _ Hout)
      end
    | inversion Hout; subst;
      split; [reflexivity |];
      eexists; split; [find_ev | congruence] ].

Lemma final_commit cfg o df cnt target addNew adjust :
  wpR relF (WriteToDb_final P t ty cfg o df cnt target addNew adjust)
      (fun tr res => FE cnt tr (value res)).
Proof.
  unfold WriteToDb_final. wstepF. intros b.
  unfold check at 1. destruct (r_err b); wstepF; [solve [leafE] |].
  apply wpR_defer_obs; [reflexivity |].
  eapply wpR_seq;
    [apply wpR_conj; [apply prepareFinal_relF | apply wpRes_wpR, prepareFinal_exits] | |].
  2:{ intros tr r [[[-> | (d & -> & _)] _] Hex]; cbn [value] in *; solve [leafE]. }
  intros tr [cfg' df'] [[Hshape _] _].
  cbn [fst snd] in *.
  unfold WriteToDb_merge.
  destruct Hshape as [-> | (d & -> & _)];
    repeat (wstepF;
            first [ solve [leafE]
                  | match goal with |- forall _ : Resp, _ => intros ? end
                  | head_destruct_goal
                  | progress unfold WriteToDb_postSQL
                  | progress unfold check, when ]).
Qed.

(** A nil error with a positive count. *)
Definition PE (tr : Log) (out : Outcome) : Prop :=
  forall st cnt,
    out = Returned st cnt None -> (0 < cnt)%N ->
    committed tr /\
    exists tmp bi,
      In (BulkImportFlow tmp, bi) tr /\ r_err bi = None /\ r_num bi = cnt.

Lemma PE_observed (tr : Log) (out : Outcome) :
  PE (observed relF tr) out -> PE tr out.
Proof.
  unfold PE. intros H st cnt Hout Hpos.
  destruct (H st cnt Hout Hpos) as [Hc (tmp & bi & Hin & Hb)].
  split; [apply committed_observed; exact Hc |].
  exists tmp, bi. split; [| exact Hb].
  unfold observed in Hin. apply filter_In in Hin. tauto.
Qed.

Ltac leafP :=
  idtac; intros; unfold PE; intros ? ? Hout Hpos;
  unfold g_Error_wrap, g_Error in Hout;
  first
    [ discriminate Hout
    | match goal with
      | H : noSuccess _ |- _ => rewrite (H _ _ Hout) in Hpos; discriminate Hpos
      end
    | inversion Hout; subst; first [discriminate Hpos | zero_count] ].

Lemma WriteToDb_PE cfg df :
  wpR relF (WriteToDb P t ty cfg df) (fun tr res => PE tr (value res)).
Proof.
  unfold WriteToDb.
  apply wpR_defer_skip; [reflexivity |].
  repeat (wstepF;
          first [ solve [leafP]
                | match goal with |- forall _ : Resp, _ => intros ? end
                | skip_res silentF leafP
                | match goal with
                  | |- wpR _ (WriteToDb_final _ _ _ _ _ _ _ _ _ _) _ => fail 2
                  end
                | head_destruct_goal
                | progress unfold WriteToDb_preSQL
                | progress unfold check, when ]).
  all: wstepF.
  all: eapply wpR_mono; [| apply final_commit];
    cbn beta; intros tr res HF; unfold PE; intros st c Hout Hpos;
    destruct (HF st c Hout) as [-> [rc [Hin Hrc]]];
    (split;
     [ exists rc; split; [cbn [finalWrite app]; exact Hin | exact Hrc]
     | do 2 eexists;
       split; [cbn [app]; repeat (first [left; reflexivity | right])
              | split; [assumption | reflexivity]] ]).
Qed.

(** X10. When [WriteToDb] returns a nil error and a positive count, the
    [Commit] of the final write was called and succeeded, and the count is
    the one a successful bulk import reported. *)
Theorem nil_error_means_committed (o : Oracle) (cfg : Config) (df : Dataflow)
        (st : WState) (cnt : N) :
  outcome o (WriteToDb P t ty cfg df) = Returned st cnt None ->
  (0 < cnt)%N ->
  committed (trace o (WriteToDb P t ty cfg df)) /\
  exists tmp bi,
    In (BulkImportFlow tmp, bi) (trace o (WriteToDb P t ty cfg df)) /\
    r_err bi = None /\ r_num bi = cnt.
Proof.
  intros Hout Hpos.
  exact (@PE_observed _ _
           (wpR_run relF _ PE o (WriteToDb_PE cfg df)) st cnt Hout Hpos).
Qed.
End Success.

(* ===================================================================== *)
(** * [WriteToDb]: when the final table is dropped *)
(* ===================================================================== *)

Section FullRefresh.
Variable P : Platform.
Variable t : TaskExecution.
Variable ty : DbType.

(** The final write began and dropped [target]. *)
Definition dropsFirst (target : string) (tr : Log) : Prop :=
  exists b d rest,
    tr = (BeginContext (Some (finalTxOptions ty)), b) :: (DropTable target, d) :: rest.

Lemma final_full_refresh cfg o df cnt target addNew adjust :
  cfg_Mode cfg = FullRefreshMode ->
  wpR relF (WriteToDb_final P t ty cfg o df cnt target addNew adjust)
      (fun tr _ =>
         (exists b e, tr = [(BeginContext (Some (finalTxOptions ty)), b)] /\
                      r_err b = Some e)
         \/ dropsFirst target tr).
Proof.
  intros Hm. unfold WriteToDb_final. wstepF. intros b.
  unfold check at 1. destruct (r_err b) as [e |] eqn:Hb; wstepF.
  { left. exists b, e. split; [reflexivity | exact Hb]. }
  apply wpR_defer_obs; [reflexivity |].
  unfold WriteToDb_prepareFinal. rewrite Hm.
  cbn [String.eqb Ascii.eqb Bool.eqb FullRefreshMode when]. wstepF. intros d.
  apply wpR_trivial. intros tr res rd. right.
  exists b, d. eexists. reflexivity.
Qed.

(** In full-refresh mode a final write that began has dropped the final
    table. *)
Definition PD (cfg : Config) (tr : Log) : Prop :=
  cfg_Mode (defaultMode cfg) = FullRefreshMode ->
  forall opts rb,
    In (BeginContext (Some opts), rb) tr -> r_err rb = None ->
    exists rd, In (DropTable (tgt_Object (cfg_Target cfg)), rd) (finalWrite tr).

Lemma PD_observed cfg (tr : Log) : PD cfg (observed relF tr) -> PD cfg tr.
Proof.
  unfold PD. intros H Hm opts rb Hin Hrb.
  destruct (H Hm opts rb) as [rd Hd]; auto.
  - unfold observed. apply filter_In. split; [exact Hin | reflexivity].
  - exists rd. apply In_observed_finalWrite. exact Hd.
Qed.

Ltac leafD :=
  idtac; intros; unfold PD; intros ? ? ? Hin ?; cbn [app] in Hin; in_cases.

Lemma WriteToDb_PD cfg df :
  wpR relF (WriteToDb P t ty cfg df) (fun tr _ => PD cfg tr).
Proof.
  unfold WriteToDb.
  apply wpR_defer_skip; [reflexivity |].
  repeat (wstepF;
          first [ solve [leafD]
                | match goal with |- forall _ : Resp, _ => intros ? end
                | skip_with silentF leafD
                | match goal with
                  | |- wpR _ (WriteToDb_final _ _ _ _ _ _ _ _ _ _) _ => fail 2
                  end
                | head_destruct_goal
                | progress unfold WriteToDb_preSQL
                | progress unfold check, when ]).
  all: wstepF.
  all: destruct (string_dec (cfg_Mode (defaultMode cfg)) FullRefreshMode) as [Hm | Hm];
    [| apply wpR_trivial; intros tr res Hm'; contradiction ].
  all: eapply wpR_mono; [| apply final_full_refresh; exact Hm];
    cbn beta; intros tr res [(b & e & -> & Hb) | (b & d & rest & ->)];
    unfold PD; intros _ opts rb Hin Hrb; cbn [app] in Hin; in_cases;
    first [ congruence
          | eexists; cbn [finalWrite app]; left; reflexivity ].
Qed.

(** X11. Outside the swap branch, in a run whose final transaction began:
    the final table is dropped in the final write exactly when the mode
    (after its default) is full-refresh. *)
Theorem final_table_dropped_iff_full_refresh
        (o : Oracle) (cfg : Config) (df : Dataflow) (opts : TxOptions) (rb : Resp) :
  cfg_Mode cfg <> SwapModeLiteral ->
  In (BeginContext (Some opts), rb) (trace o (WriteToDb P t ty cfg df)) ->
  r_err rb = None ->
  (cfg_Mode (defaultMode cfg) = FullRefreshMode <->
   exists rd,
     In (DropTable (tgt_Object (cfg_Target cfg)), rd)
        (finalWrite (trace o (WriteToDb P t ty cfg df)))).
Proof.
  intros Hswap Hin Hrb. split.
  - intros Hm.
    exact (@PD_observed cfg _
             (wpR_run relF _ (fun tr _ => PD cfg tr) o (WriteToDb_PD cfg df))
             Hm opts rb Hin Hrb).
  - intros [rd Hd].
    destruct (@PF_observed cfg _ _
                (wpR_run relF _ (PF cfg) o (WriteToDb_PF P t ty cfg df))) as [_ H8].
    destruct (H8 _ rd Hd) as [[_ Hm] | Hs]; [exact Hm |].
    exfalso. unfold defaultMode in Hs.
    destruct (cfg_Mode cfg =? "")%string; [discriminate Hs | contradiction].
Qed.

End FullRefresh.

(* ===================================================================== *)
(** * [WriteToDb]: changes to the schema of the final table *)
(* ===================================================================== *)





Section Evolution.
Variable P : Platform.
Variable t : TaskExecution.
Variable ty : DbType.











End Evolution.

(* ===================================================================== *)
(** * [WriteToDb]: the temp table, its cleanup task and [TmpTableCreated] *)
(* ===================================================================== *)

Lemma wpRes_defer {R : Type} (d : Op) (p : Prog R R) (S : R + R -> Prop) :
  wpRes p (fun res => S (inr (value res))) -> wpRes (defer d p) S.
Proof.
  induction p as [a | r | op k IH]; simpl; auto.
Qed.

(** [cfg.Target.TmpTableCreated] as the caller finds it after a return. *)
Definition flagOf (st : WState) : bool :=
  tgt_TmpTableCreated (cfg_Target (ws_cfg st)).

(** Every [return] leaves the flag as [b]. *)
Definition returnsFlag (b : bool) (out : Outcome) : Prop :=
  forall st c e, out = Returned st c e -> flagOf st = b.

Ltac flag_leaf :=
  let H := fresh "Hout" in
  unfold returnsFlag; intros ? ? ? H;
  first [ discriminate H
        | inversion H; subst; clear H; unfold flagOf, St; cbn;
          repeat match goal with
                 | |- context [if ?c then _ else _] => destruct c
                 end;
          first [reflexivity | congruence] ].

Ltac res_flag :=
  repeat first
    [ exact I
    | solve [flag_leaf]
    | match goal with
      | |- wpRes (bind _ _) _ => apply wpRes_bind
      | |- wpRes (match ?x with _ => _ end) _ => destruct x
      | |- forall _, _ => intros ?
      end
    | progress (unfold check, when, deref, call, WriteToDb_tableTmp,
                WriteToDb_preSQL, WriteToDb_checks)
    | progress simpl ].

Section TempTableFlag.
Variable P : Platform.
Variable t : TaskExecution.
Variable ty : DbType.

Lemma prepareFinal_flag cfg o df cnt target addNew adjust :
  wpRes (WriteToDb_prepareFinal P ty cfg o df cnt target addNew adjust)
        (fun res =>
           match res with
           | inl cd => tgt_TmpTableCreated (cfg_Target (fst cd))
                       = tgt_TmpTableCreated (cfg_Target cfg)
           | inr out => returnsFlag (tgt_TmpTableCreated (cfg_Target cfg)) out
           end).
Proof.
  unfold WriteToDb_prepareFinal, when, check.
  repeat first
    [ solve [flag_leaf]
    | reflexivity
    | match goal with
      | |- wpRes (bind _ _) _ => apply wpRes_bind
      | |- wpRes (match ?x with _ => _ end) _ => destruct x
      | |- forall _ : Resp, _ => intros ?
      end
    | progress simpl ].
Qed.

Lemma final_flag cfg o df cnt target addNew adjust :
  wpRes (WriteToDb_final P t ty cfg o df cnt target addNew adjust)
        (fun res => returnsFlag (tgt_TmpTableCreated (cfg_Target cfg)) (value res)).
Proof.
  unfold WriteToDb_final. simpl. intros b.
  destruct (r_err b); simpl; [solve [flag_leaf] |].
  apply wpRes_defer. apply wpRes_bind.
  generalize (prepareFinal_flag cfg o df cnt target addNew adjust).
  generalize (WriteToDb_prepareFinal P ty cfg o df cnt target addNew adjust).
  intros p. induction p as [[cfg' df'] | r | op k IH]; simpl; intros H; auto.
  unfold WriteToDb_merge, WriteToDb_postSQL, when, check. cbn [fst snd].
  repeat first
    [ solve [flag_leaf]
    | match goal with
      | |- wpRes (bind _ _) _ => apply wpRes_bind
      | |- wpRes (match ?x with _ => _ end) _ => destruct x
      | |- forall _ : Resp, _ => intros ?
      | |- True => exact I
      end
    | progress simpl ].
Qed.

Definition relD (op : Op) : bool :=
  match op with
  | AddCleanupTask _ | CreateTableIfNotExists _ _ => true
  | _ => false
  end.

(** The cleanup task is registered for a table the run created, and the
    flag the caller finds tells whether it was. *)
Definition PT (cfg : Config) (tr : Log) (out : Outcome) : Prop :=
  (forall x a,
      In (AddCleanupTask x, a) tr ->
      exists ddl c, In (CreateTableIfNotExists x ddl, c) tr /\ r_err c = None) /\
  (forall st cnt err,
      out = Returned st cnt err ->
      (flagOf st = true <->
       tgt_TmpTableCreated (cfg_Target cfg) = true \/
       exists x a, In (AddCleanupTask x, a) tr)).

Lemma PT_observed cfg (tr : Log) (out : Outcome) :
  PT cfg (observed relD tr) out -> PT cfg tr out.
Proof.
  unfold PT, observed. intros [H1 H2]. split.
  - intros x a Hin.
    destruct (H1 x a) as (ddl & c & Hc & Hok).
    + apply filter_In. split; [exact Hin | reflexivity].
    + exists ddl, c. split; [| exact Hok]. apply filter_In in Hc. tauto.
  - intros st cnt err Hout. rewrite (H2 st cnt err Hout).
    split; (intros [Hf | (x & a & Hin)]; [left; exact Hf | right; exists x, a]).
    + apply filter_In in Hin. tauto.
    + apply filter_In. split; [exact Hin | reflexivity].
Qed.

Ltac wstepD :=
  cbn [bind deref check when call wpR relD negb fst snd value app].

Ltac flag_before :=
  (* no cleanup task yet: the flag is the one of [cfg] *)
  split;
  [ intros Hf; left; unfold flagOf, St in Hf; cbn in Hf;
    repeat match goal with
           | H : context [if ?c then _ else _] |- _ => destruct c
           end; exact Hf
  | intros [Hf | (? & ? & Hin)];
    [ unfold flagOf, St; cbn;
      repeat match goal with
             | |- context [if ?c then _ else _] => destruct c
             end; exact Hf
    | in_cases ] ].

Ltac flag_after :=
  split;
  [ intros _; right; do 2 eexists; simpl; repeat (first [left; reflexivity | right])
  | intros _; reflexivity ].

Ltac created_before :=
  do 2 eexists; split;
  [simpl; repeat (first [left; reflexivity | right]) | assumption].

Ltac leafK :=
  idtac; intros; unfold PT; split;
  [ intros ? ? Hin; cbn [app] in Hin; in_cases; created_before
  | let H := fresh "Hout" in
    intros ? ? ? H;
    first [ discriminate H
          | inversion H; subst; clear H; first [flag_before | flag_after] ] ].

Definition silentD (op : Op) : bool := negb (relD op).

(** Leaving the function from a block that made no observed call. *)
Ltac leaf_flag :=
  idtac; intros; unfold PT; split;
  [ intros ? ? Hin; cbn [app] in Hin; in_cases; created_before
  | let H := fresh "Hout" in
    intros ? ? ? H;
    match goal with
    | Hr : returnsFlag _ _ |- _ => rewrite (Hr _ _ _ H)
    end;
    first [ split; [ intros Hf; left; exact Hf
                   | intros [Hf | (? & ? & Hin)]; [exact Hf | in_cases] ]
          | flag_after ] ].

Tactic Notation "skip_flag" constr(b) :=
  apply (@wpR_skip_res _ _ _ _ silentD (returnsFlag b));
  [ solve [all_calls]
  | solve [let op := fresh "op" in
           let H := fresh "H" in
           intros op H; destruct op; simpl in *;
           first [discriminate H | reflexivity]]
  | solve [res_flag]
  | solve [intros ? ?; leaf_flag]
  | intros ? ].

Lemma WriteToDb_PT cfg df :
  wpR relD (WriteToDb P t ty cfg df) (fun tr res => PT cfg tr (value res)).
Proof.
  unfold WriteToDb.
  apply wpR_defer_skip; [reflexivity |].
  repeat (wstepD;
          first [ solve [leafK]
                | match goal with |- forall _ : Resp, _ => intros ? end
                | match goal with
                  | |- wpR _ (WriteToDb_final _ _ _ _ _ _ _ _ _ _) _ => fail 2
                  end
                | match goal with
                  | |- wpR _ (bind (check (r_err ?x) _) _) _ =>
                      destruct (r_err x) eqn:?
                  end
                | skip_flag (tgt_TmpTableCreated (cfg_Target cfg))
                | skip_flag true
                | head_destruct_goal
                | progress unfold check, when, deref ]).
  all: wstepD.
  all: eapply wpR_mono;
    [| apply wpR_conj;
       [ apply allCalls_wpR with (good := finalOp); apply allCalls_final
       | apply wpRes_wpR, final_flag ] ];
    cbn beta; intros tr' res' [HF Hflag]; unfold PT; split;
    [ intros ? ? Hin; cbn [app] in Hin; in_cases;
      first [ created_before
            | rewrite Forall_forall in HF; apply HF in Hin; discriminate Hin ]
    | intros st' cnt' err' Hout; rewrite (Hflag st' cnt' err' Hout);
      split;
      [ intros _; right; do 2 eexists; cbn [app];
        repeat (first [left; reflexivity | right])
      | intros _; reflexivity ] ].
Qed.

(** X13. [WriteToDb] registers the cleanup task only for a table it has
    just created, and when it returns, [cfg.Target.TmpTableCreated] is set
    exactly when it was set before or that task was registered. *)
Theorem cleanup_task_and_flag (o : Oracle) (cfg : Config) (df : Dataflow) :
  (forall x a,
      In (AddCleanupTask x, a) (trace o (WriteToDb P t ty cfg df)) ->
      exists ddl c,
        In (CreateTableIfNotExists x ddl, c) (trace o (WriteToDb P t ty cfg df)) /\
        r_err c = None) /\
  (forall st cnt err,
      outcome o (WriteToDb P t ty cfg df) = Returned st cnt err ->
      (flagOf st = true <->
       tgt_TmpTableCreated (cfg_Target cfg) = true \/
       exists x a, In (AddCleanupTask x, a) (trace o (WriteToDb P t ty cfg df)))).
Proof.
  exact (@PT_observed cfg _ _
           (wpR_run relD _ (PT cfg) o (WriteToDb_PT cfg df))).
Qed.

End TempTableFlag.

(* ===================================================================== *)
(** * [WriteToDb]: a table DDL that does not name the target table *)
(* ===================================================================== *)

Definition relC (op : Op) : bool :=
  match op with
  | CreateTableIfNotExists _ _ | BeginContext _ | ApplyColumnCasing _ => true
  | _ => false
  end.

Definition silentC (op : Op) : bool := negb (relC op).

Definition errTableDDL (target : string) : error :=
  ErrNew "The Table DDL provided needs to contains the exact object table name: %s"
         [ArgS target].

Lemma tableTmp_TableDDL P ty cfg o df target :
  wpRes (WriteToDb_tableTmp P ty cfg o df target)
        (fun res =>
           match res with
           | inl o' => to_TableDDL o' = to_TableDDL o
           | inr _ => True
           end).
Proof.
  unfold WriteToDb_tableTmp.
  repeat first
    [ exact I
    | reflexivity
    | match goal with
      | |- wpRes (bind _ _) _ => apply wpRes_bind
      | |- wpRes (match ?x with _ => _ end) _ => destruct x
      | |- forall _ : Resp, _ => intros ?
      end
    | progress simpl ].
Qed.

Definition PC (target : string) (tr : Log) (out : Outcome) : Prop :=
  (forall x ddl r, ~ In (CreateTableIfNotExists x ddl, r) tr) /\
  (forall opts r, ~ In (BeginContext opts, r) tr) /\
  (forall c r, In (ApplyColumnCasing c, r) tr ->
               exists st, out = Returned st 0 (Some (errTableDDL target))).

Lemma PC_observed target (tr : Log) (out : Outcome) :
  PC target (observed relC tr) out -> PC target tr out.
Proof.
  unfold PC, observed. intros (H1 & H2 & H3). repeat split.
  - intros x ddl r Hin. apply (H1 x ddl r). apply filter_In. split; [exact Hin | reflexivity].
  - intros opts r Hin. apply (H2 opts r). apply filter_In. split; [exact Hin | reflexivity].
  - intros c r Hin. apply (H3 c r). apply filter_In. split; [exact Hin | reflexivity].
Qed.

Ltac wstepC :=
  cbn [bind deref check when call wpR relC negb fst snd value app].

Ltac leafC :=
  idtac; intros; unfold PC;
  split; [intros ? ? ? Hin; cbn [app] in Hin; in_cases |];
  split; [intros ? ? Hin; cbn [app] in Hin; in_cases |];
  intros ? ? Hin; cbn [app] in Hin; in_cases;
  eexists; unfold g_Error, errTableDDL; reflexivity.

Section TableDDL.
Variable P : Platform.
Variable t : TaskExecution.
Variable ty : DbType.

Lemma WriteToDb_PC cfg df opts :
  tgt_Options (cfg_Target cfg) = Some opts ->
  to_TableDDL opts <> "" ->
  strings.Contains (to_TableDDL opts) (tgt_Object (cfg_Target cfg)) = false ->
  wpR relC (WriteToDb P t ty cfg df)
      (fun tr res => PC (tgt_Object (cfg_Target cfg)) tr (value res)).
Proof.
  intros Ho Hddl Hc.
  unfold WriteToDb.
  apply wpR_defer_skip; [reflexivity |].
  destruct (List.length (df_Columns df) =? 0)%nat; [solve [leafC] |].
  rewrite Ho. wstepC.
  eapply wpR_seq with
    (Q1 := fun tr (res : TargetOptions + Outcome) =>
             tr = [] /\
             match res with
             | inl o' => to_TableDDL o' = to_TableDDL opts
             | inr _ => True
             end).
  { apply wpR_conj;
      [ eapply wpR_silent with (good := silentC); [solve [all_calls] |];
        intros op H; apply negb_true_iff in H; exact H
      | apply wpRes_wpR, tableTmp_TableDDL ]. }
  2:{ intros tr r [-> _]. solve [leafC]. }
  intros tr o' [-> Hd]. cbn [app].
  apply String.eqb_neq in Hddl.
  repeat (wstepC; rewrite ?Hd, ?Hddl, ?Hc; cbn [negb andb];
          first [ solve [leafC]
                | match goal with |- forall _ : Resp, _ => intros ? end
                | skip_with silentC leafC
                | head_destruct_goal
                | progress unfold check, when ]).
Qed.

(** X14. With a table DDL that is not empty and does not contain the
    target object name, [WriteToDb] creates no table and begins no
    transaction; once the run has reached the column casing it returns the
    error that the DDL must name the table, with count 0. *)
Theorem table_ddl_must_name_target (o : Oracle) (cfg : Config) (df : Dataflow)
        (opts : TargetOptions) :
  tgt_Options (cfg_Target cfg) = Some opts ->
  to_TableDDL opts <> "" ->
  strings.Contains (to_TableDDL opts) (tgt_Object (cfg_Target cfg)) = false ->
  (forall x ddl r,
      ~ In (CreateTableIfNotExists x ddl, r) (trace o (WriteToDb P t ty cfg df))) /\
  (forall txo r,
      ~ In (BeginContext txo, r) (trace o (WriteToDb P t ty cfg df))) /\
  (forall c r,
      In (ApplyColumnCasing c, r) (trace o (WriteToDb P t ty cfg df)) ->
      exists st,
        outcome o (WriteToDb P t ty cfg df)
        = Returned st 0 (Some (errTableDDL (tgt_Object (cfg_Target cfg))))).
Proof.
  intros Ho Hddl Hc.
  exact (@PC_observed _ _ _
           (wpR_run relC _ (PC (tgt_Object (cfg_Target cfg))) o
              (@WriteToDb_PC cfg df opts Ho Hddl Hc))).
Qed.

End TableDDL.

(* ===================================================================== *)
(** * [ReadFromDB]: the fields that are selected *)
(* ===================================================================== *)






(* ===================================================================== *)
(** * Runs that meet the hypotheses above *)
(* ===================================================================== *)

(** A store whose bulk import fails. *)
Definition bulkFails : Oracle :=
  Demo.failing 3 (fun op => match op with BulkImportFlow _ => true | _ => false end).

Lemma bulk_import_failure_witness :
  (exists r,
      In (Rollback, r)
         (trace bulkFails
            (WriteToDb Demo.platform
               (Demo.task (Demo.config FullRefreshMode AnyNil Demo.options))
               TypeDbSnowflake (Demo.config FullRefreshMode AnyNil Demo.options)
               (Demo.dataflow [["1"; "Alice"]])))) /\
  exists st msg args,
    outcome bulkFails
      (WriteToDb Demo.platform
         (Demo.task (Demo.config FullRefreshMode AnyNil Demo.options))
         TypeDbSnowflake (Demo.config FullRefreshMode AnyNil Demo.options)
         (Demo.dataflow [["1"; "Alice"]]))
    = Returned st 0 (Some (ErrWrap (ErrNew "failed" []) msg args)).
Proof.
  destruct (@bulk_import_failure Demo.platform
              (Demo.task (Demo.config FullRefreshMode AnyNil Demo.options))
              TypeDbSnowflake bulkFails
              (Demo.config FullRefreshMode AnyNil Demo.options)
              (Demo.dataflow [["1"; "Alice"]])
              "public.t_TMP" (Demo.errResp "failed") (ErrNew "failed" []))
    as (H1 & _ & _ & _ & H5).
  - in_trace.
  - reflexivity.
  - split; [exact H1 | exact H5].
Defined.

Lemma nil_error_means_committed_witness :
  committed
    (trace (Demo.store 3)
       (WriteToDb Demo.platform
          (Demo.task (Demo.config FullRefreshMode AnyNil Demo.options))
          TypeDbSnowflake (Demo.config FullRefreshMode AnyNil Demo.options)
          (Demo.dataflow [["1"; "Alice"]]))) /\
  exists tmp bi,
    In (BulkImportFlow tmp, bi)
       (trace (Demo.store 3)
          (WriteToDb Demo.platform
             (Demo.task (Demo.config FullRefreshMode AnyNil Demo.options))
             TypeDbSnowflake (Demo.config FullRefreshMode AnyNil Demo.options)
             (Demo.dataflow [["1"; "Alice"]]))) /\
    r_err bi = None /\ r_num bi = 3%N.
Proof.
  eapply (@nil_error_means_committed Demo.platform
            (Demo.task (Demo.config FullRefreshMode AnyNil Demo.options))
            TypeDbSnowflake (Demo.store 3)
            (Demo.config FullRefreshMode AnyNil Demo.options)
            (Demo.dataflow [["1"; "Alice"]])).
  - vm_compute. reflexivity.
  - reflexivity.
Defined.

Lemma final_table_dropped_iff_full_refresh_witness :
  cfg_Mode (defaultMode (Demo.config FullRefreshMode AnyNil Demo.options))
  = FullRefreshMode <->
  exists rd,
    In (DropTable (tgt_Object (cfg_Target (Demo.config FullRefreshMode AnyNil Demo.options))), rd)
       (finalWrite
          (trace (Demo.store 3)
             (WriteToDb Demo.platform
                (Demo.task (Demo.config FullRefreshMode AnyNil Demo.options))
                TypeDbSnowflake (Demo.config FullRefreshMode AnyNil Demo.options)
                (Demo.dataflow [["1"; "Alice"]])))).
Proof.
  apply (@final_table_dropped_iff_full_refresh Demo.platform
           (Demo.task (Demo.config FullRefreshMode AnyNil Demo.options))
           TypeDbSnowflake (Demo.store 3)
           (Demo.config FullRefreshMode AnyNil Demo.options)
           (Demo.dataflow [["1"; "Alice"]])
           (finalTxOptions TypeDbSnowflake) (Demo.numResp 3)).
  - discriminate.
  - in_trace.
  - reflexivity.
Defined.


Lemma table_ddl_must_name_target_witness :
  exists st,
    outcome (Demo.store 3)
      (WriteToDb Demo.platform
         (Demo.task (Demo.config FullRefreshMode AnyNil Demo.options))
         TypeDbSnowflake
         (Demo.config FullRefreshMode AnyNil
            (mkTargetOptions (Some true) (Some false) None ""
               "create table x (id int)" "" ""))
         (Demo.dataflow [["1"; "Alice"]]))
    = Returned st 0 (Some (errTableDDL "public.t")).
Proof.
  destruct (@table_ddl_must_name_target Demo.platform
              (Demo.task (Demo.config FullRefreshMode AnyNil Demo.options))
              TypeDbSnowflake (Demo.store 3)
              (Demo.config FullRefreshMode AnyNil
                 (mkTargetOptions (Some true) (Some false) None ""
                    "create table x (id int)" "" ""))
              (Demo.dataflow [["1"; "Alice"]])
              (mkTargetOptions (Some true) (Some false) None ""
                 "create table x (id int)" "" ""))
    as (_ & _ & H).
  - reflexivity.
  - discriminate.
  - reflexivity.
  - apply (H None (Demo.numResp 3)). in_trace.
Defined.

